(** * The pdata metrics model and the OAuth2 client settings of the collector

    A shallow embedding of [consumer/pdata/metrics.go] and
    [config/configoauth2/configoauth2client.go], and the properties their
    specification states about them.

    Conventions of the embedding:
    - a Go pointer is an optional address into a store of structs ([ptr],
      [None] is [nil]); a struct that the code shares and updates in place
      lives in that store;
    - a Go call that panics has no result: code runs in the monad [Go σ],
      state passing over [σ] with [None] for a panic;
    - a Go [error] is an optional error value ([None] is [nil]);
    - a Go [[]byte] is an optional list of bytes ([None] is the nil slice);
    - [int] and [int32] are integers of [Z] with their wrap-around written
      out where the code computes with them. *)

From Stdlib Require Import ZArith NArith Lia.
From stdpp Require Import base option strings list gmap.

Local Open Scope Z_scope.

(** ** Go errors: [errors.New] and [fmt.Errorf] with the verb [%w] *)

Module errors.

(** The two dynamic types of error the code builds: [*errors.errorString]
    and [*fmt.wrapError]. *)
Inductive error_value : Type :=
| errorString (s : string)
| wrapError (msg : string) (err : error_value).

Definition error : Type := option error_value.

Definition New (text : string) : error_value := errorString text.

Definition Error (e : error_value) : string :=
  match e with
  | errorString s => s
  | wrapError msg _ => msg
  end.

Definition Unwrap (e : error_value) : error :=
  match e with
  | errorString _ => None
  | wrapError _ err => Some err
  end.

(** [fmt.Errorf(prefix + "%w", err)]: the message is the prefix followed
    by the message of [err], and the result unwraps to [err]. *)
Definition Errorf_w (prefix : string) (err : error_value) : error_value :=
  wrapError (prefix +:+ Error err) err.

#[global] Instance error_value_eq_dec : EqDecision error_value.
Proof. solve_decision. Defined.

End errors.
Export errors.

(** ** The monad of Go code over a state [σ] *)

Definition Go (σ A : Type) : Type := σ → option (A * σ).

#[global] Instance Go_ret {σ} : MRet (Go σ) := λ A a s, Some (a, s).
#[global] Instance Go_bind {σ} : MBind (Go σ) := λ A B f m s,
  match m s with
  | Some (a, s') => f a s'
  | None => None
  end.

Definition panic {σ A} : Go σ A := λ _, None.

(** ** config/configoauth2/configoauth2client.go *)

Module configoauth2.

Definition errNoClientIDProvided : error_value :=
  errors.New "no ClientID provided in OAuth Client Credentials configuration".
Definition errNoTokenURLProvided : error_value :=
  errors.New "no TokenURL provided in OAuth Client Credentials configuration".
Definition errNoClientSecretProvided : error_value :=
  errors.New "no ClientSecret provided in OAuth Client Credentials configuration".

Record OAuth2ClientCredentials : Type := {
  ClientID : string;
  ClientSecret : string;
  TokenURL : string;
  Scopes : list string;
}.

(** The types of golang.org/x/oauth2 the method builds: the settings
    [clientcredentials.Config], the token source [Config.TokenSource]
    makes of them, and [oauth2.Transport]. *)
Record Config : Type := {
  Config_ClientID : string;
  Config_ClientSecret : string;
  Config_TokenURL : string;
  Config_Scopes : list string;
}.

Inductive TokenSource : Type :=
| Config_TokenSource (conf : Config).

Record Transport (RoundTripperT : Type) : Type := {
  Source : TokenSource;
  Base : RoundTripperT;
}.
Arguments Source {_} _.
Arguments Base {_} _.

Definition is_empty (s : string) : bool := bool_decide (s = "").

(** [RoundTripperT] is the type of the values of the interface
    [http.RoundTripper]; the result is the returned interface value ([None]
    is nil, [Some t] the pointer to the new transport) and the error. *)
Definition RoundTripper {RoundTripperT : Type}
    (c : OAuth2ClientCredentials) (base : RoundTripperT)
    : option (Transport RoundTripperT) * error :=
  if is_empty (ClientID c) then (None, Some errNoClientIDProvided)
  else if is_empty (ClientSecret c) then (None, Some errNoClientSecretProvided)
  else if is_empty (TokenURL c) then (None, Some errNoTokenURLProvided)
  else
    let config := {| Config_ClientID := ClientID c;
                     Config_ClientSecret := ClientSecret c;
                     Config_TokenURL := TokenURL c;
                     Config_Scopes := Scopes c |} in
    (Some {| Source := Config_TokenSource config; Base := base |}, None).

End configoauth2.

(** ** consumer/pdata/metrics.go: the data types of a metric *)

(** [MetricDataType] is an [int32]. *)
Definition MetricDataType : Type := Z.

Definition int32_range (z : Z) : Prop := - 2 ^ 31 ≤ z < 2 ^ 31.

Definition MetricDataTypeNone : MetricDataType := 0.
Definition MetricDataTypeIntGauge : MetricDataType := 1.
Definition MetricDataTypeDoubleGauge : MetricDataType := 2.
Definition MetricDataTypeIntSum : MetricDataType := 3.
Definition MetricDataTypeDoubleSum : MetricDataType := 4.
Definition MetricDataTypeIntHistogram : MetricDataType := 5.
Definition MetricDataTypeHistogram : MetricDataType := 6.
Definition MetricDataTypeSummary : MetricDataType := 7.

Definition defined_data_types : list MetricDataType :=
  [MetricDataTypeNone; MetricDataTypeIntGauge; MetricDataTypeDoubleGauge;
   MetricDataTypeIntSum; MetricDataTypeDoubleSum; MetricDataTypeIntHistogram;
   MetricDataTypeHistogram; MetricDataTypeSummary].

Definition MetricDataType_String (mdt : MetricDataType) : string :=
  match mdt with
  | 0 => "None"
  | 1 => "IntGauge"
  | 2 => "DoubleGauge"
  | 3 => "IntSum"
  | 4 => "DoubleSum"
  | 5 => "IntHistogram"
  | 6 => "Histogram"
  | 7 => "Summary"
  | _ => ""
  end%string.

(** ** Pointers, byte slices and the root handle *)

Abbreviation loc := positive (only parsing).

(** A Go pointer: [None] is [nil]. *)
Definition ptr : Type := option loc.

(** A [[]byte]: [None] is the nil slice. *)
Definition byte_slice : Type := option (list Byte.byte).

(** [type Metrics struct { orig *otlpcollectormetrics.ExportMetricsServiceRequest }] *)
Record Metrics : Type := mkMetrics { Metrics_orig : ptr }.

(** The composite literal [Metrics{}]. *)
Definition Metrics_zero : Metrics := mkMetrics None.

#[global] Instance Metrics_eq_dec : EqDecision Metrics.
Proof. solve_decision. Defined.

(** ** The codec boundary and the two pipelines *)

Section Marshaling.

(** [W] is the state the plugged implementations work on (the store of the
    program and whatever else they keep), [Model] the type of the values
    they pass as [interface{}]. *)
Context {W Model : Type}.

Record MetricsDecoder : Type := {
  DecodeMetrics : byte_slice → Go W (Model * error);
}.

Record MetricsEncoder : Type := {
  EncodeMetrics : Model → Go W (byte_slice * error);
}.

Record FromMetricsTranslator : Type := {
  FromMetrics : Metrics → Go W (Model * error);
}.

Record ToMetricsTranslator : Type := {
  ToMetrics : Model → Go W (Metrics * error);
}.

(** A call of a method of one of the four interfaces, with its argument. *)
Inductive call : Type :=
| CallDecodeMetrics (buf : byte_slice)
| CallEncodeMetrics (model : Model)
| CallFromMetrics (md : Metrics)
| CallToMetrics (src : Model).

(** The pipelines run over the implementations' state and the list of the
    interface calls made so far, oldest first. *)
Definition invoke {A} (c : call) (m : Go W A) : Go (W * list call) A :=
  λ '(w, calls),
    match m w with
    | Some (a, w') => Some (a, (w', calls ++ [c]))
    | None => None
    end.

Record metricsMarshaler : Type := {
  encoder : MetricsEncoder;
  translator : FromMetricsTranslator;
}.

Definition NewMetricsMarshaler (encoder : MetricsEncoder)
    (translator : FromMetricsTranslator) : metricsMarshaler :=
  {| encoder := encoder; translator := translator |}.

Definition Marshal (t : metricsMarshaler) (td : Metrics)
    : Go (W * list call) (byte_slice * error) :=
  '(model, err) ← invoke (CallFromMetrics td) (FromMetrics (translator t) td);
  match err with
  | Some e => mret (None, Some (Errorf_w "converting pdata to model failed: " e))
  | None =>
      '(buf, err) ← invoke (CallEncodeMetrics model) (EncodeMetrics (encoder t) model);
      match err with
      | Some e => mret (None, Some (Errorf_w "marshal failed: " e))
      | None => mret (buf, None)
      end
  end.

Record metricsUnmarshaler : Type := {
  decoder : MetricsDecoder;
  to_translator : ToMetricsTranslator;
}.

Definition NewMetricsUnmarshaler (decoder : MetricsDecoder)
    (translator : ToMetricsTranslator) : metricsUnmarshaler :=
  {| decoder := decoder; to_translator := translator |}.

Definition Unmarshal (t : metricsUnmarshaler) (buf : byte_slice)
    : Go (W * list call) (Metrics * error) :=
  '(model, err) ← invoke (CallDecodeMetrics buf) (DecodeMetrics (decoder t) buf);
  match err with
  | Some e => mret (Metrics_zero, Some (Errorf_w "unmarshal failed: " e))
  | None =>
      '(td, err) ← invoke (CallToMetrics model) (ToMetrics (to_translator t) model);
      match err with
      | Some e => mret (Metrics_zero, Some (Errorf_w "converting model to pdata failed: " e))
      | None => mret (td, None)
      end
  end.

End Marshaling.

Arguments MetricsDecoder : clear implicits.
Arguments MetricsEncoder : clear implicits.
Arguments FromMetricsTranslator : clear implicits.
Arguments ToMetricsTranslator : clear implicits.
Arguments metricsMarshaler : clear implicits.
Arguments metricsUnmarshaler : clear implicits.
Arguments call : clear implicits.

(** ** The protocol structs behind the views *)

(** Modelled from the spec: the types of the leaves of the tree (the
    resource-attributes record, the scope identity and the five kinds of
    data point), declared in generated packages that are not among the
    sources.  They are parameters. *)
Class OtlpLeaves : Type := {
  Resource : Type;
  InstrumentationLibrary : Type;
  IntDataPoint : Type;
  DoubleDataPoint : Type;
  IntHistogramDataPoint : Type;
  DoubleHistogramDataPoint : Type;
  DoubleSummaryDataPoint : Type;
}.

(** [AggregationTemporality] is an [int32]. *)
Definition AggregationTemporality : Type := Z.
Definition AggregationTemporalityUnspecified : AggregationTemporality := 0.
Definition AggregationTemporalityDelta : AggregationTemporality := 1.
Definition AggregationTemporalityCumulative : AggregationTemporality := 2.

(** Modelled from the spec: the structs of the generated package
    [otlpmetrics], which is not among the sources.  A metric has a name, a
    description, a unit and at most one variant; the sum and histogram
    variants carry an aggregation temporality; a scope holds its identity
    and its metrics, a resource its attributes and its scopes.  The code in
    [metrics.go] shows the wrapper structs [Metric_X] with their one field
    and the interface [Data]. *)
Module otlpmetrics.

(** The seven dynamic types a non-nil [Data] interface value can have:
    [*Metric_IntGauge], [*Metric_DoubleGauge], ... *)
Inductive oneof : Type :=
| Metric_IntGauge
| Metric_DoubleGauge
| Metric_IntSum
| Metric_DoubleSum
| Metric_IntHistogram
| Metric_DoubleHistogram
| Metric_DoubleSummary.

#[global] Instance oneof_eq_dec : EqDecision oneof.
Proof. solve_decision. Defined.

(** A value of the interface [isMetric_Data]: nil, or a dynamic type with
    a pointer to the wrapper struct of that type. *)
Definition isMetric_Data : Type := option (oneof * ptr).

Record Metric : Type := {
  Name : string;
  Description : string;
  Unit : string;
  Data : isMetric_Data;
}.

Definition Metric_zero : Metric :=
  {| Name := ""; Description := ""; Unit := ""; Data := None |}.

Definition set_Data (m : Metric) (d : isMetric_Data) : Metric :=
  {| Name := Name m; Description := Description m; Unit := Unit m; Data := d |}.

Section Structs.

Context `{OtlpLeaves}.

Record IntGauge : Type := { IntGauge_DataPoints : list IntDataPoint }.
Record DoubleGauge : Type := { DoubleGauge_DataPoints : list DoubleDataPoint }.
Record IntSum : Type := {
  IntSum_DataPoints : list IntDataPoint;
  IntSum_AggregationTemporality : AggregationTemporality;
}.
Record DoubleSum : Type := {
  DoubleSum_DataPoints : list DoubleDataPoint;
  DoubleSum_AggregationTemporality : AggregationTemporality;
}.
Record IntHistogram : Type := {
  IntHistogram_DataPoints : list IntHistogramDataPoint;
  IntHistogram_AggregationTemporality : AggregationTemporality;
}.
Record DoubleHistogram : Type := {
  DoubleHistogram_DataPoints : list DoubleHistogramDataPoint;
  DoubleHistogram_AggregationTemporality : AggregationTemporality;
}.
Record DoubleSummary : Type := {
  DoubleSummary_DataPoints : list DoubleSummaryDataPoint;
}.

Record InstrumentationLibraryMetrics : Type := {
  ILM_InstrumentationLibrary : InstrumentationLibrary;
  ILM_Metrics : list ptr;
}.

Record ResourceMetrics : Type := {
  RM_Resource : Resource;
  RM_InstrumentationLibraryMetrics : list ptr;
}.

End Structs.

End otlpmetrics.

(** Modelled from the spec: the request struct of the generated package
    [otlpcollectormetrics], the root record that holds the sequence of
    resources. *)
Module otlpcollectormetrics.

Record ExportMetricsServiceRequest : Type := {
  ResourceMetrics : list ptr;
}.

End otlpcollectormetrics.

(** ** The store *)

Section Store.

Context `{OtlpLeaves}.

(** What an address of the store holds: one of the protocol structs.
    [ObjOneof k p] is the wrapper struct [Metric_k], whose one field is the
    pointer [p] to the struct of the variant. *)
Inductive object : Type :=
| ObjRequest (r : otlpcollectormetrics.ExportMetricsServiceRequest)
| ObjResourceMetrics (r : otlpmetrics.ResourceMetrics)
| ObjInstrumentationLibraryMetrics (r : otlpmetrics.InstrumentationLibraryMetrics)
| ObjMetric (m : otlpmetrics.Metric)
| ObjOneof (k : otlpmetrics.oneof) (inner : ptr)
| ObjIntGauge (v : otlpmetrics.IntGauge)
| ObjDoubleGauge (v : otlpmetrics.DoubleGauge)
| ObjIntSum (v : otlpmetrics.IntSum)
| ObjDoubleSum (v : otlpmetrics.DoubleSum)
| ObjIntHistogram (v : otlpmetrics.IntHistogram)
| ObjDoubleHistogram (v : otlpmetrics.DoubleHistogram)
| ObjDoubleSummary (v : otlpmetrics.DoubleSummary).

#[local] Abbreviation store := (gmap loc object) (only parsing).

(** [*p] *)
Definition load (p : ptr) : Go store object := λ h,
  match p with
  | Some l => match h !! l with Some o => Some (o, h) | None => None end
  | None => None
  end.

(** [*p = o] *)
Definition assign (p : ptr) (o : object) : Go store unit := λ h,
  match p with
  | Some l => match h !! l with Some _ => Some (tt, <[l := o]> h) | None => None end
  | None => None
  end.

(** [&T{...}]: a new address, one the store does not hold yet. *)
Definition alloc (o : object) : Go store ptr := λ h,
  let l := fresh (dom h) in Some (Some l, <[l := o]> h).

End Store.

(** The store of the program: what each allocated address holds. *)
Abbreviation store := (gmap loc object) (only parsing).

(** ** Go's [int] and the counting loop *)

(** [int] is taken as 64 bits wide. *)
Definition int_wrap (z : Z) : Z := (z + 2 ^ 63) mod 2 ^ 64 - 2 ^ 63.
Definition int_add (a b : Z) : Z := int_wrap (a + b).
Definition max_int : Z := 2 ^ 63 - 1.

(** [len(s)] *)
Definition len {A} (s : list A) : Z := Z.of_nat (length s).

(** [s[i]], which panics out of range. *)
Definition index {σ A} (s : list A) (i : Z) : Go σ A :=
  if bool_decide (0 ≤ i < len s) then
    match s !! Z.to_nat i with
    | Some a => mret a
    | None => panic
    end
  else panic.

(** [for ; i < bound(); i++ { acc = body(i, acc) }], the bound read again
    before every round as the code does.  [acc] stands for the local
    variables the body updates.  The recursion is on [fuel]; a loop that
    needs more rounds than [fuel] has no result. *)
Fixpoint for_loop {σ A} (fuel : nat) (i : Z) (bound : Go σ Z)
    (body : Z → A → Go σ A) (acc : A) : Go σ A :=
  match fuel with
  | O => panic
  | S fuel' =>
      n ← bound;
      if bool_decide (i < n) then
        acc' ← body i acc;
        for_loop fuel' (int_add i 1) bound body acc'
      else mret acc
  end.

(** ** The views of consumer/pdata

    A view holds a pointer into the tree.  A view of a slice holds, in the
    code, the address of the slice field of a struct; here it holds the
    address of that struct.  The constructors are the code's [newX]
    functions. *)

Record ResourceMetricsSlice : Type :=
  newResourceMetricsSlice { ResourceMetricsSlice_orig : ptr }.
Record ResourceMetrics : Type :=
  newResourceMetrics { ResourceMetrics_orig : ptr }.
Record InstrumentationLibraryMetricsSlice : Type :=
  newInstrumentationLibraryMetricsSlice { InstrumentationLibraryMetricsSlice_orig : ptr }.
Record InstrumentationLibraryMetrics : Type :=
  newInstrumentationLibraryMetrics { InstrumentationLibraryMetrics_orig : ptr }.
Record MetricSlice : Type := newMetricSlice { MetricSlice_orig : ptr }.
Record Metric : Type := newMetric { Metric_orig : ptr }.
Record IntGauge : Type := newIntGauge { IntGauge_orig : ptr }.
Record DoubleGauge : Type := newDoubleGauge { DoubleGauge_orig : ptr }.
Record IntSum : Type := newIntSum { IntSum_orig : ptr }.
Record DoubleSum : Type := newDoubleSum { DoubleSum_orig : ptr }.
Record IntHistogram : Type := newIntHistogram { IntHistogram_orig : ptr }.
Record Histogram : Type := newHistogram { Histogram_orig : ptr }.
Record Summary : Type := newSummary { Summary_orig : ptr }.
Record IntDataPointSlice : Type :=
  newIntDataPointSlice { IntDataPointSlice_orig : ptr }.
Record DoubleDataPointSlice : Type :=
  newDoubleDataPointSlice { DoubleDataPointSlice_orig : ptr }.
Record IntHistogramDataPointSlice : Type :=
  newIntHistogramDataPointSlice { IntHistogramDataPointSlice_orig : ptr }.
Record HistogramDataPointSlice : Type :=
  newHistogramDataPointSlice { HistogramDataPointSlice_orig : ptr }.
Record SummaryDataPointSlice : Type :=
  newSummaryDataPointSlice { SummaryDataPointSlice_orig : ptr }.

Section Views.

Context `{OtlpLeaves}.

(** Reading a struct of a given type through a pointer. *)
Definition load_Request (p : ptr)
    : Go store otlpcollectormetrics.ExportMetricsServiceRequest :=
  o ← load p; match o with ObjRequest r => mret r | _ => panic end.
Definition load_ResourceMetrics (p : ptr) : Go store otlpmetrics.ResourceMetrics :=
  o ← load p; match o with ObjResourceMetrics r => mret r | _ => panic end.
Definition load_InstrumentationLibraryMetrics (p : ptr)
    : Go store otlpmetrics.InstrumentationLibraryMetrics :=
  o ← load p;
  match o with ObjInstrumentationLibraryMetrics r => mret r | _ => panic end.
Definition load_Metric (p : ptr) : Go store otlpmetrics.Metric :=
  o ← load p; match o with ObjMetric m => mret m | _ => panic end.

(** [p.X] for [p] a pointer to the wrapper struct [Metric_k] and [X] its
    one field. *)
Definition load_Oneof (k : otlpmetrics.oneof) (p : ptr) : Go store ptr :=
  o ← load p;
  match o with
  | ObjOneof k' inner => if bool_decide (k' = k) then mret inner else panic
  | _ => panic
  end.

(** The type assertion of [d] to the pointer type of the wrapper struct
    [Metric_k], which panics on nil and on another dynamic type. *)
Definition assert_Oneof (k : otlpmetrics.oneof) (d : otlpmetrics.isMetric_Data)
    : Go store ptr :=
  match d with
  | Some (k', p) => if bool_decide (k' = k) then mret p else panic
  | None => panic
  end.

(** Modelled from the spec: the slice views of the generated file of the
    package, which is not among the sources.  [Len()] is the current
    element count; [At(i)] is the bounds-checked access returning a view
    over element [i], out of range being fatal; the method that makes the
    view of a field never copies and binds the view to the struct. *)
Definition ResourceMetricsSlice_Len (es : ResourceMetricsSlice) : Go store Z :=
  r ← load_Request (ResourceMetricsSlice_orig es);
  mret (len (otlpcollectormetrics.ResourceMetrics r)).

(** Modelled from the spec: [At(i)] of the generated view of the slice of
    resources, bounds-checked, a view over element [i]. *)
Definition ResourceMetricsSlice_At (es : ResourceMetricsSlice) (ix : Z)
    : Go store ResourceMetrics :=
  r ← load_Request (ResourceMetricsSlice_orig es);
  p ← index (otlpcollectormetrics.ResourceMetrics r) ix;
  mret (newResourceMetrics p).

(** Modelled from the spec: the generated accessor that binds a view to
    the slice of scopes of a resource, without copying. *)
Definition ResourceMetrics_InstrumentationLibraryMetrics (ms : ResourceMetrics)
    : Go store InstrumentationLibraryMetricsSlice :=
  _ ← load_ResourceMetrics (ResourceMetrics_orig ms);
  mret (newInstrumentationLibraryMetricsSlice (ResourceMetrics_orig ms)).

(** Modelled from the spec: [Len()] of the generated view of a slice of
    scopes, the current element count. *)
Definition InstrumentationLibraryMetricsSlice_Len
    (es : InstrumentationLibraryMetricsSlice) : Go store Z :=
  r ← load_ResourceMetrics (InstrumentationLibraryMetricsSlice_orig es);
  mret (len (otlpmetrics.RM_InstrumentationLibraryMetrics r)).

(** Modelled from the spec: [At(i)] of the generated view of a slice of
    scopes, bounds-checked, a view over element [i]. *)
Definition InstrumentationLibraryMetricsSlice_At
    (es : InstrumentationLibraryMetricsSlice) (ix : Z)
    : Go store InstrumentationLibraryMetrics :=
  r ← load_ResourceMetrics (InstrumentationLibraryMetricsSlice_orig es);
  p ← index (otlpmetrics.RM_InstrumentationLibraryMetrics r) ix;
  mret (newInstrumentationLibraryMetrics p).

(** Modelled from the spec: the generated accessor that binds a view to
    the slice of metrics of a scope, without copying. *)
Definition InstrumentationLibraryMetrics_Metrics (ms : InstrumentationLibraryMetrics)
    : Go store MetricSlice :=
  _ ← load_InstrumentationLibraryMetrics (InstrumentationLibraryMetrics_orig ms);
  mret (newMetricSlice (InstrumentationLibraryMetrics_orig ms)).

(** Modelled from the spec: [Len()] of the generated view of a slice of
    metrics, the current element count. *)
Definition MetricSlice_Len (es : MetricSlice) : Go store Z :=
  r ← load_InstrumentationLibraryMetrics (MetricSlice_orig es);
  mret (len (otlpmetrics.ILM_Metrics r)).

(** Modelled from the spec: [At(i)] of the generated view of a slice of
    metrics, bounds-checked, a view over element [i]. *)
Definition MetricSlice_At (es : MetricSlice) (ix : Z) : Go store Metric :=
  r ← load_InstrumentationLibraryMetrics (MetricSlice_orig es);
  p ← index (otlpmetrics.ILM_Metrics r) ix;
  mret (newMetric p).

End Views.

Section Variants.

Context `{OtlpLeaves}.

(** Modelled from the spec: [DataPoints()] of the seven variant views and
    [Len()] of the five views of data-point slices, of the generated file
    that is not among the sources.  [DataPoints()] reads through the
    pointer of the view and binds a slice view to the struct; [Len()] is
    the current element count.  A slice of [IntDataPoint] is a field of
    both [IntGauge] and [IntSum], a slice of [DoubleDataPoint] of both
    [DoubleGauge] and [DoubleSum]. *)
Definition IntGauge_DataPoints (ms : IntGauge) : Go store IntDataPointSlice :=
  o ← load (IntGauge_orig ms);
  match o with
  | ObjIntGauge _ => mret (newIntDataPointSlice (IntGauge_orig ms))
  | _ => panic
  end.

(** Modelled from the spec: [DataPoints()] of the generated view [DoubleGauge],
    a view bound to the slice of data points of the struct. *)
Definition DoubleGauge_DataPoints (ms : DoubleGauge) : Go store DoubleDataPointSlice :=
  o ← load (DoubleGauge_orig ms);
  match o with
  | ObjDoubleGauge _ => mret (newDoubleDataPointSlice (DoubleGauge_orig ms))
  | _ => panic
  end.

(** Modelled from the spec: [DataPoints()] of the generated view [IntSum],
    a view bound to the slice of data points of the struct. *)
Definition IntSum_DataPoints (ms : IntSum) : Go store IntDataPointSlice :=
  o ← load (IntSum_orig ms);
  match o with
  | ObjIntSum _ => mret (newIntDataPointSlice (IntSum_orig ms))
  | _ => panic
  end.

(** Modelled from the spec: [DataPoints()] of the generated view [DoubleSum],
    a view bound to the slice of data points of the struct. *)
Definition DoubleSum_DataPoints (ms : DoubleSum) : Go store DoubleDataPointSlice :=
  o ← load (DoubleSum_orig ms);
  match o with
  | ObjDoubleSum _ => mret (newDoubleDataPointSlice (DoubleSum_orig ms))
  | _ => panic
  end.

(** Modelled from the spec: [DataPoints()] of the generated view [IntHistogram],
    a view bound to the slice of data points of the struct. *)
Definition IntHistogram_DataPoints (ms : IntHistogram)
    : Go store IntHistogramDataPointSlice :=
  o ← load (IntHistogram_orig ms);
  match o with
  | ObjIntHistogram _ => mret (newIntHistogramDataPointSlice (IntHistogram_orig ms))
  | _ => panic
  end.

(** Modelled from the spec: [DataPoints()] of the generated view [Histogram],
    a view bound to the slice of data points of the struct. *)
Definition Histogram_DataPoints (ms : Histogram) : Go store HistogramDataPointSlice :=
  o ← load (Histogram_orig ms);
  match o with
  | ObjDoubleHistogram _ => mret (newHistogramDataPointSlice (Histogram_orig ms))
  | _ => panic
  end.

(** Modelled from the spec: [DataPoints()] of the generated view [Summary],
    a view bound to the slice of data points of the struct. *)
Definition Summary_DataPoints (ms : Summary) : Go store SummaryDataPointSlice :=
  o ← load (Summary_orig ms);
  match o with
  | ObjDoubleSummary _ => mret (newSummaryDataPointSlice (Summary_orig ms))
  | _ => panic
  end.

(** Modelled from the spec: [Len()] of the generated view [IntDataPointSlice],
    the current element count. *)
Definition IntDataPointSlice_Len (es : IntDataPointSlice) : Go store Z :=
  o ← load (IntDataPointSlice_orig es);
  match o with
  | ObjIntGauge v => mret (len (otlpmetrics.IntGauge_DataPoints v))
  | ObjIntSum v => mret (len (otlpmetrics.IntSum_DataPoints v))
  | _ => panic
  end.

(** Modelled from the spec: [Len()] of the generated view [DoubleDataPointSlice],
    the current element count. *)
Definition DoubleDataPointSlice_Len (es : DoubleDataPointSlice) : Go store Z :=
  o ← load (DoubleDataPointSlice_orig es);
  match o with
  | ObjDoubleGauge v => mret (len (otlpmetrics.DoubleGauge_DataPoints v))
  | ObjDoubleSum v => mret (len (otlpmetrics.DoubleSum_DataPoints v))
  | _ => panic
  end.

(** Modelled from the spec: [Len()] of the generated view [IntHistogramDataPointSlice],
    the current element count. *)
Definition IntHistogramDataPointSlice_Len (es : IntHistogramDataPointSlice)
    : Go store Z :=
  o ← load (IntHistogramDataPointSlice_orig es);
  match o with
  | ObjIntHistogram v => mret (len (otlpmetrics.IntHistogram_DataPoints v))
  | _ => panic
  end.

(** Modelled from the spec: [Len()] of the generated view [HistogramDataPointSlice],
    the current element count. *)
Definition HistogramDataPointSlice_Len (es : HistogramDataPointSlice) : Go store Z :=
  o ← load (HistogramDataPointSlice_orig es);
  match o with
  | ObjDoubleHistogram v => mret (len (otlpmetrics.DoubleHistogram_DataPoints v))
  | _ => panic
  end.

(** Modelled from the spec: [Len()] of the generated view [SummaryDataPointSlice],
    the current element count. *)
Definition SummaryDataPointSlice_Len (es : SummaryDataPointSlice) : Go store Z :=
  o ← load (SummaryDataPointSlice_orig es);
  match o with
  | ObjDoubleSummary v => mret (len (otlpmetrics.DoubleSummary_DataPoints v))
  | _ => panic
  end.

(** Modelled from the spec: [CopyTo(dest)] of the seven variant views, of
    the generated file that is not among the sources.  It deep-copies
    every field and nested element from the source into the destination,
    overwriting the destination's prior contents.  The data points are
    values of the struct here, so the copy of the struct is the deep
    copy. *)
Definition IntGauge_CopyTo (ms dest : IntGauge) : Go store unit :=
  o ← load (IntGauge_orig ms);
  match o with
  | ObjIntGauge v => assign (IntGauge_orig dest) (ObjIntGauge v)
  | _ => panic
  end.

(** Modelled from the spec: [CopyTo(dest)] of the generated view [DoubleGauge],
    a deep copy that overwrites the destination. *)
Definition DoubleGauge_CopyTo (ms dest : DoubleGauge) : Go store unit :=
  o ← load (DoubleGauge_orig ms);
  match o with
  | ObjDoubleGauge v => assign (DoubleGauge_orig dest) (ObjDoubleGauge v)
  | _ => panic
  end.

(** Modelled from the spec: [CopyTo(dest)] of the generated view [IntSum],
    a deep copy that overwrites the destination. *)
Definition IntSum_CopyTo (ms dest : IntSum) : Go store unit :=
  o ← load (IntSum_orig ms);
  match o with
  | ObjIntSum v => assign (IntSum_orig dest) (ObjIntSum v)
  | _ => panic
  end.

(** Modelled from the spec: [CopyTo(dest)] of the generated view [DoubleSum],
    a deep copy that overwrites the destination. *)
Definition DoubleSum_CopyTo (ms dest : DoubleSum) : Go store unit :=
  o ← load (DoubleSum_orig ms);
  match o with
  | ObjDoubleSum v => assign (DoubleSum_orig dest) (ObjDoubleSum v)
  | _ => panic
  end.

(** Modelled from the spec: [CopyTo(dest)] of the generated view [IntHistogram],
    a deep copy that overwrites the destination. *)
Definition IntHistogram_CopyTo (ms dest : IntHistogram) : Go store unit :=
  o ← load (IntHistogram_orig ms);
  match o with
  | ObjIntHistogram v => assign (IntHistogram_orig dest) (ObjIntHistogram v)
  | _ => panic
  end.

(** Modelled from the spec: [CopyTo(dest)] of the generated view [Histogram],
    a deep copy that overwrites the destination. *)
Definition Histogram_CopyTo (ms dest : Histogram) : Go store unit :=
  o ← load (Histogram_orig ms);
  match o with
  | ObjDoubleHistogram v => assign (Histogram_orig dest) (ObjDoubleHistogram v)
  | _ => panic
  end.

(** Modelled from the spec: [CopyTo(dest)] of the generated view [Summary],
    a deep copy that overwrites the destination. *)
Definition Summary_CopyTo (ms dest : Summary) : Go store unit :=
  o ← load (Summary_orig ms);
  match o with
  | ObjDoubleSummary v => assign (Summary_orig dest) (ObjDoubleSummary v)
  | _ => panic
  end.

(** The zero values [&otlpmetrics.IntGauge{}], ... of the variant structs. *)
Definition IntGauge_zero : object :=
  ObjIntGauge {| otlpmetrics.IntGauge_DataPoints := [] |}.
Definition DoubleGauge_zero : object :=
  ObjDoubleGauge {| otlpmetrics.DoubleGauge_DataPoints := [] |}.
Definition IntSum_zero : object :=
  ObjIntSum {| otlpmetrics.IntSum_DataPoints := [];
               otlpmetrics.IntSum_AggregationTemporality := 0 |}.
Definition DoubleSum_zero : object :=
  ObjDoubleSum {| otlpmetrics.DoubleSum_DataPoints := [];
                  otlpmetrics.DoubleSum_AggregationTemporality := 0 |}.
Definition IntHistogram_zero : object :=
  ObjIntHistogram {| otlpmetrics.IntHistogram_DataPoints := [];
                     otlpmetrics.IntHistogram_AggregationTemporality := 0 |}.
Definition DoubleHistogram_zero : object :=
  ObjDoubleHistogram {| otlpmetrics.DoubleHistogram_DataPoints := [];
                        otlpmetrics.DoubleHistogram_AggregationTemporality := 0 |}.
Definition DoubleSummary_zero : object :=
  ObjDoubleSummary {| otlpmetrics.DoubleSummary_DataPoints := [] |}.

End Variants.

(** ** consumer/pdata/metrics.go: the functions *)

Section MetricsGo.

Context `{OtlpLeaves}.

Definition NewMetrics : Go store Metrics :=
  p ← alloc (ObjRequest {| otlpcollectormetrics.ResourceMetrics := [] |});
  mret (mkMetrics p).

(** The address of the field [md.orig.ResourceMetrics] is taken, which
    panics when [md.orig] is nil. *)
Definition Metrics_ResourceMetrics (md : Metrics) : Go store ResourceMetricsSlice :=
  _ ← load_Request (Metrics_orig md);
  mret (newResourceMetricsSlice (Metrics_orig md)).

Definition MetricCount (fuel : nat) (md : Metrics) : Go store Z :=
  let metricCount := 0 in
  rms ← Metrics_ResourceMetrics md;
  for_loop fuel 0 (ResourceMetricsSlice_Len rms) (λ i metricCount,
    rm ← ResourceMetricsSlice_At rms i;
    ilms ← ResourceMetrics_InstrumentationLibraryMetrics rm;
    for_loop fuel 0 (InstrumentationLibraryMetricsSlice_Len ilms) (λ j metricCount,
      ilm ← InstrumentationLibraryMetricsSlice_At ilms j;
      ms ← InstrumentationLibraryMetrics_Metrics ilm;
      n ← MetricSlice_Len ms;
      mret (int_add metricCount n)) metricCount) metricCount.

Definition Metric_DataType (ms : Metric) : Go store MetricDataType :=
  m ← load_Metric (Metric_orig ms);
  match otlpmetrics.Data m with
  | Some (otlpmetrics.Metric_IntGauge, _) => mret MetricDataTypeIntGauge
  | Some (otlpmetrics.Metric_DoubleGauge, _) => mret MetricDataTypeDoubleGauge
  | Some (otlpmetrics.Metric_IntSum, _) => mret MetricDataTypeIntSum
  | Some (otlpmetrics.Metric_DoubleSum, _) => mret MetricDataTypeDoubleSum
  | Some (otlpmetrics.Metric_IntHistogram, _) => mret MetricDataTypeIntHistogram
  | Some (otlpmetrics.Metric_DoubleHistogram, _) => mret MetricDataTypeHistogram
  | Some (otlpmetrics.Metric_DoubleSummary, _) => mret MetricDataTypeSummary
  | None => mret MetricDataTypeNone
  end.

(** [p.Data = d] *)
Definition assign_Data (p : ptr) (d : otlpmetrics.isMetric_Data) : Go store unit :=
  m ← load_Metric p;
  assign p (ObjMetric (otlpmetrics.set_Data m d)).

Definition Metric_SetDataType (ms : Metric) (ty : MetricDataType) : Go store unit :=
  match ty with
  | 1 =>
      v ← alloc IntGauge_zero;
      d ← alloc (ObjOneof otlpmetrics.Metric_IntGauge v);
      assign_Data (Metric_orig ms) (Some (otlpmetrics.Metric_IntGauge, d))
  | 2 =>
      v ← alloc DoubleGauge_zero;
      d ← alloc (ObjOneof otlpmetrics.Metric_DoubleGauge v);
      assign_Data (Metric_orig ms) (Some (otlpmetrics.Metric_DoubleGauge, d))
  | 3 =>
      v ← alloc IntSum_zero;
      d ← alloc (ObjOneof otlpmetrics.Metric_IntSum v);
      assign_Data (Metric_orig ms) (Some (otlpmetrics.Metric_IntSum, d))
  | 4 =>
      v ← alloc DoubleSum_zero;
      d ← alloc (ObjOneof otlpmetrics.Metric_DoubleSum v);
      assign_Data (Metric_orig ms) (Some (otlpmetrics.Metric_DoubleSum, d))
  | 5 =>
      v ← alloc IntHistogram_zero;
      d ← alloc (ObjOneof otlpmetrics.Metric_IntHistogram v);
      assign_Data (Metric_orig ms) (Some (otlpmetrics.Metric_IntHistogram, d))
  | 6 =>
      v ← alloc DoubleHistogram_zero;
      d ← alloc (ObjOneof otlpmetrics.Metric_DoubleHistogram v);
      assign_Data (Metric_orig ms) (Some (otlpmetrics.Metric_DoubleHistogram, d))
  | 7 =>
      v ← alloc DoubleSummary_zero;
      d ← alloc (ObjOneof otlpmetrics.Metric_DoubleSummary v);
      assign_Data (Metric_orig ms) (Some (otlpmetrics.Metric_DoubleSummary, d))
  | _ => mret tt
  end.

Definition Metric_IntGauge (ms : Metric) : Go store IntGauge :=
  m ← load_Metric (Metric_orig ms);
  d ← assert_Oneof otlpmetrics.Metric_IntGauge (otlpmetrics.Data m);
  v ← load_Oneof otlpmetrics.Metric_IntGauge d;
  mret (newIntGauge v).

Definition Metric_DoubleGauge (ms : Metric) : Go store DoubleGauge :=
  m ← load_Metric (Metric_orig ms);
  d ← assert_Oneof otlpmetrics.Metric_DoubleGauge (otlpmetrics.Data m);
  v ← load_Oneof otlpmetrics.Metric_DoubleGauge d;
  mret (newDoubleGauge v).

Definition Metric_IntSum (ms : Metric) : Go store IntSum :=
  m ← load_Metric (Metric_orig ms);
  d ← assert_Oneof otlpmetrics.Metric_IntSum (otlpmetrics.Data m);
  v ← load_Oneof otlpmetrics.Metric_IntSum d;
  mret (newIntSum v).

Definition Metric_DoubleSum (ms : Metric) : Go store DoubleSum :=
  m ← load_Metric (Metric_orig ms);
  d ← assert_Oneof otlpmetrics.Metric_DoubleSum (otlpmetrics.Data m);
  v ← load_Oneof otlpmetrics.Metric_DoubleSum d;
  mret (newDoubleSum v).

Definition Metric_IntHistogram (ms : Metric) : Go store IntHistogram :=
  m ← load_Metric (Metric_orig ms);
  d ← assert_Oneof otlpmetrics.Metric_IntHistogram (otlpmetrics.Data m);
  v ← load_Oneof otlpmetrics.Metric_IntHistogram d;
  mret (newIntHistogram v).

Definition Metric_Histogram (ms : Metric) : Go store Histogram :=
  m ← load_Metric (Metric_orig ms);
  d ← assert_Oneof otlpmetrics.Metric_DoubleHistogram (otlpmetrics.Data m);
  v ← load_Oneof otlpmetrics.Metric_DoubleHistogram d;
  mret (newHistogram v).

Definition Metric_Summary (ms : Metric) : Go store Summary :=
  m ← load_Metric (Metric_orig ms);
  d ← assert_Oneof otlpmetrics.Metric_DoubleSummary (otlpmetrics.Data m);
  v ← load_Oneof otlpmetrics.Metric_DoubleSummary d;
  mret (newSummary v).

(** The two named results are the local variables of the loops. *)
Definition MetricAndDataPointCount (fuel : nat) (md : Metrics) : Go store (Z * Z) :=
  rms ← Metrics_ResourceMetrics md;
  for_loop fuel 0 (ResourceMetricsSlice_Len rms) (λ i counts,
    rm ← ResourceMetricsSlice_At rms i;
    ilms ← ResourceMetrics_InstrumentationLibraryMetrics rm;
    for_loop fuel 0 (InstrumentationLibraryMetricsSlice_Len ilms) (λ j '(metricCount, dataPointCount),
      ilm ← InstrumentationLibraryMetricsSlice_At ilms j;
      metrics ← InstrumentationLibraryMetrics_Metrics ilm;
      n ← MetricSlice_Len metrics;
      let metricCount := int_add metricCount n in
      ms ← InstrumentationLibraryMetrics_Metrics ilm;
      dataPointCount ← for_loop fuel 0 (MetricSlice_Len ms) (λ k dataPointCount,
        m ← MetricSlice_At ms k;
        ty ← Metric_DataType m;
        match ty with
        | 1 =>
            v ← Metric_IntGauge m; dps ← IntGauge_DataPoints v;
            n ← IntDataPointSlice_Len dps; mret (int_add dataPointCount n)
        | 2 =>
            v ← Metric_DoubleGauge m; dps ← DoubleGauge_DataPoints v;
            n ← DoubleDataPointSlice_Len dps; mret (int_add dataPointCount n)
        | 3 =>
            v ← Metric_IntSum m; dps ← IntSum_DataPoints v;
            n ← IntDataPointSlice_Len dps; mret (int_add dataPointCount n)
        | 4 =>
            v ← Metric_DoubleSum m; dps ← DoubleSum_DataPoints v;
            n ← DoubleDataPointSlice_Len dps; mret (int_add dataPointCount n)
        | 5 =>
            v ← Metric_IntHistogram m; dps ← IntHistogram_DataPoints v;
            n ← IntHistogramDataPointSlice_Len dps; mret (int_add dataPointCount n)
        | 6 =>
            v ← Metric_Histogram m; dps ← Histogram_DataPoints v;
            n ← HistogramDataPointSlice_Len dps; mret (int_add dataPointCount n)
        | 7 =>
            v ← Metric_Summary m; dps ← Summary_DataPoints v;
            n ← SummaryDataPointSlice_Len dps; mret (int_add dataPointCount n)
        | _ => mret dataPointCount
        end) dataPointCount;
      mret (metricCount, dataPointCount)) counts) (0, 0).

Definition copyData (src dest : ptr) : Go store unit :=
  m ← load_Metric src;
  match otlpmetrics.Data m with
  | Some (otlpmetrics.Metric_IntGauge, srcData) =>
      v ← alloc IntGauge_zero;
      data ← alloc (ObjOneof otlpmetrics.Metric_IntGauge v);
      s ← load_Oneof otlpmetrics.Metric_IntGauge srcData;
      d ← load_Oneof otlpmetrics.Metric_IntGauge data;
      _ ← IntGauge_CopyTo (newIntGauge s) (newIntGauge d);
      assign_Data dest (Some (otlpmetrics.Metric_IntGauge, data))
  | Some (otlpmetrics.Metric_DoubleGauge, srcData) =>
      v ← alloc DoubleGauge_zero;
      data ← alloc (ObjOneof otlpmetrics.Metric_DoubleGauge v);
      s ← load_Oneof otlpmetrics.Metric_DoubleGauge srcData;
      d ← load_Oneof otlpmetrics.Metric_DoubleGauge data;
      _ ← DoubleGauge_CopyTo (newDoubleGauge s) (newDoubleGauge d);
      assign_Data dest (Some (otlpmetrics.Metric_DoubleGauge, data))
  | Some (otlpmetrics.Metric_IntSum, srcData) =>
      v ← alloc IntSum_zero;
      data ← alloc (ObjOneof otlpmetrics.Metric_IntSum v);
      s ← load_Oneof otlpmetrics.Metric_IntSum srcData;
      d ← load_Oneof otlpmetrics.Metric_IntSum data;
      _ ← IntSum_CopyTo (newIntSum s) (newIntSum d);
      assign_Data dest (Some (otlpmetrics.Metric_IntSum, data))
  | Some (otlpmetrics.Metric_DoubleSum, srcData) =>
      v ← alloc DoubleSum_zero;
      data ← alloc (ObjOneof otlpmetrics.Metric_DoubleSum v);
      s ← load_Oneof otlpmetrics.Metric_DoubleSum srcData;
      d ← load_Oneof otlpmetrics.Metric_DoubleSum data;
      _ ← DoubleSum_CopyTo (newDoubleSum s) (newDoubleSum d);
      assign_Data dest (Some (otlpmetrics.Metric_DoubleSum, data))
  | Some (otlpmetrics.Metric_IntHistogram, srcData) =>
      v ← alloc IntHistogram_zero;
      data ← alloc (ObjOneof otlpmetrics.Metric_IntHistogram v);
      s ← load_Oneof otlpmetrics.Metric_IntHistogram srcData;
      d ← load_Oneof otlpmetrics.Metric_IntHistogram data;
      _ ← IntHistogram_CopyTo (newIntHistogram s) (newIntHistogram d);
      assign_Data dest (Some (otlpmetrics.Metric_IntHistogram, data))
  | Some (otlpmetrics.Metric_DoubleHistogram, srcData) =>
      v ← alloc DoubleHistogram_zero;
      data ← alloc (ObjOneof otlpmetrics.Metric_DoubleHistogram v);
      s ← load_Oneof otlpmetrics.Metric_DoubleHistogram srcData;
      d ← load_Oneof otlpmetrics.Metric_DoubleHistogram data;
      _ ← Histogram_CopyTo (newHistogram s) (newHistogram d);
      assign_Data dest (Some (otlpmetrics.Metric_DoubleHistogram, data))
  | Some (otlpmetrics.Metric_DoubleSummary, srcData) =>
      v ← alloc DoubleSummary_zero;
      data ← alloc (ObjOneof otlpmetrics.Metric_DoubleSummary v);
      s ← load_Oneof otlpmetrics.Metric_DoubleSummary srcData;
      d ← load_Oneof otlpmetrics.Metric_DoubleSummary data;
      _ ← Summary_CopyTo (newSummary s) (newSummary d);
      assign_Data dest (Some (otlpmetrics.Metric_DoubleSummary, data))
  | None => mret tt
  end.

End MetricsGo.

(** ** Concrete instances used to run the code *)

(** Every leaf type is the integers. *)
Definition Z_leaves : OtlpLeaves := {|
  Resource := Z;
  InstrumentationLibrary := Z;
  IntDataPoint := Z;
  DoubleDataPoint := Z;
  IntHistogramDataPoint := Z;
  DoubleHistogramDataPoint := Z;
  DoubleSummaryDataPoint := Z;
|}.

(** A translator that fails, a translator that succeeds, and encoders and
    decoders of both sorts, over a state that counts nothing ([unit]) and
    with byte slices as the model. *)
Definition failing_from_translator : FromMetricsTranslator unit byte_slice :=
  {| FromMetrics := λ _, mret (Some [], Some (errors.New "boom")) |}.
Definition ok_from_translator : FromMetricsTranslator unit byte_slice :=
  {| FromMetrics := λ _, mret (Some [], None) |}.
Definition failing_encoder : MetricsEncoder unit byte_slice :=
  {| EncodeMetrics := λ model, mret (model, Some (errors.New "boom")) |}.
Definition ok_encoder : MetricsEncoder unit byte_slice :=
  {| EncodeMetrics := λ model, mret (model, None) |}.
Definition failing_decoder : MetricsDecoder unit byte_slice :=
  {| DecodeMetrics := λ buf, mret (buf, Some (errors.New "boom")) |}.
Definition ok_decoder : MetricsDecoder unit byte_slice :=
  {| DecodeMetrics := λ buf, mret (buf, None) |}.
Definition failing_to_translator : ToMetricsTranslator unit byte_slice :=
  {| ToMetrics := λ _, mret (mkMetrics (Some 1%positive), Some (errors.New "boom")) |}.

(** ** The discriminants, as the specification speaks of them *)

(** The discriminant that goes with the dynamic type of a non-nil [Data]. *)
Definition oneof_DataType (k : otlpmetrics.oneof) : MetricDataType :=
  match k with
  | otlpmetrics.Metric_IntGauge => MetricDataTypeIntGauge
  | otlpmetrics.Metric_DoubleGauge => MetricDataTypeDoubleGauge
  | otlpmetrics.Metric_IntSum => MetricDataTypeIntSum
  | otlpmetrics.Metric_DoubleSum => MetricDataTypeDoubleSum
  | otlpmetrics.Metric_IntHistogram => MetricDataTypeIntHistogram
  | otlpmetrics.Metric_DoubleHistogram => MetricDataTypeHistogram
  | otlpmetrics.Metric_DoubleSummary => MetricDataTypeSummary
  end.

(** The discriminant of a [Data] interface value: [None] for nil. *)
Definition Data_DataType (d : otlpmetrics.isMetric_Data) : MetricDataType :=
  match d with
  | Some (k, _) => oneof_DataType k
  | None => MetricDataTypeNone
  end.

Section VariantObjects.

Context `{OtlpLeaves}.

(** The empty storage of a variant: the zero value of its struct. *)
Definition empty_variant (k : otlpmetrics.oneof) : object :=
  match k with
  | otlpmetrics.Metric_IntGauge => IntGauge_zero
  | otlpmetrics.Metric_DoubleGauge => DoubleGauge_zero
  | otlpmetrics.Metric_IntSum => IntSum_zero
  | otlpmetrics.Metric_DoubleSum => DoubleSum_zero
  | otlpmetrics.Metric_IntHistogram => IntHistogram_zero
  | otlpmetrics.Metric_DoubleHistogram => DoubleHistogram_zero
  | otlpmetrics.Metric_DoubleSummary => DoubleSummary_zero
  end.

(** The variant a stored struct is the storage of, if any. *)
Definition variant_of (o : object) : option otlpmetrics.oneof :=
  match o with
  | ObjIntGauge _ => Some otlpmetrics.Metric_IntGauge
  | ObjDoubleGauge _ => Some otlpmetrics.Metric_DoubleGauge
  | ObjIntSum _ => Some otlpmetrics.Metric_IntSum
  | ObjDoubleSum _ => Some otlpmetrics.Metric_DoubleSum
  | ObjIntHistogram _ => Some otlpmetrics.Metric_IntHistogram
  | ObjDoubleHistogram _ => Some otlpmetrics.Metric_DoubleHistogram
  | ObjDoubleSummary _ => Some otlpmetrics.Metric_DoubleSummary
  | _ => None
  end.

(** The number of data points a stored variant struct holds. *)
Definition points_of (o : object) : Z :=
  match o with
  | ObjIntGauge v => len (otlpmetrics.IntGauge_DataPoints v)
  | ObjDoubleGauge v => len (otlpmetrics.DoubleGauge_DataPoints v)
  | ObjIntSum v => len (otlpmetrics.IntSum_DataPoints v)
  | ObjDoubleSum v => len (otlpmetrics.DoubleSum_DataPoints v)
  | ObjIntHistogram v => len (otlpmetrics.IntHistogram_DataPoints v)
  | ObjDoubleHistogram v => len (otlpmetrics.DoubleHistogram_DataPoints v)
  | ObjDoubleSummary v => len (otlpmetrics.DoubleSummary_DataPoints v)
  | _ => 0
  end.

(** The store after [SetDataType] for the variant [k] on the metric at
    [l]: a new variant struct at [v], a new wrapper at [d] pointing to it,
    and the metric pointing to the wrapper. *)
Definition retyped (h : store) (l : loc) (m : otlpmetrics.Metric)
    (k : otlpmetrics.oneof) (v d : loc) (o : object) : store :=
  <[l := ObjMetric (otlpmetrics.set_Data m (Some (k, Some d)))]>
    (<[d := ObjOneof k (Some v)]> (<[v := o]> h)).


(** The seven [CopyTo] at once: the struct of the source replaces the
    struct of the destination. *)
Definition variant_CopyTo (k : otlpmetrics.oneof) (s d : ptr) : Go store unit :=
  match k with
  | otlpmetrics.Metric_IntGauge => IntGauge_CopyTo (newIntGauge s) (newIntGauge d)
  | otlpmetrics.Metric_DoubleGauge => DoubleGauge_CopyTo (newDoubleGauge s) (newDoubleGauge d)
  | otlpmetrics.Metric_IntSum => IntSum_CopyTo (newIntSum s) (newIntSum d)
  | otlpmetrics.Metric_DoubleSum => DoubleSum_CopyTo (newDoubleSum s) (newDoubleSum d)
  | otlpmetrics.Metric_IntHistogram => IntHistogram_CopyTo (newIntHistogram s) (newIntHistogram d)
  | otlpmetrics.Metric_DoubleHistogram => Histogram_CopyTo (newHistogram s) (newHistogram d)
  | otlpmetrics.Metric_DoubleSummary => Summary_CopyTo (newSummary s) (newSummary d)
  end.

End VariantObjects.

(** A store with one metric, at address 1, that holds an [IntGauge] with two
    data points (wrapper at 2, struct at 3), and one metric with no data,
    at address 4. *)
Definition gauge_store : gmap loc (@object Z_leaves) :=
  <[1%positive := ObjMetric {| otlpmetrics.Name := "requests"; otlpmetrics.Description := "";
                      otlpmetrics.Unit := "1";
                      otlpmetrics.Data := Some (otlpmetrics.Metric_IntGauge, Some 2%positive) |}]>
  (<[2%positive := ObjOneof otlpmetrics.Metric_IntGauge (Some 3%positive)]>
  (<[3%positive := ObjIntGauge (@otlpmetrics.Build_IntGauge Z_leaves [10; 20])]>
  (<[4%positive := ObjMetric otlpmetrics.Metric_zero]> ∅))).

(** ** The tree under a [Metrics], read off the store

    These functions say what the specification means by the resources, the
    scopes of a resource and the metrics of a scope; the code does not use
    them. *)

Definition Zsum (l : list Z) : Z := foldr Z.add 0 l.

Section Tree.

Context `{OtlpLeaves}.

(** The resources of the tree: the slice of the request [md.orig]. *)
Definition resources_of (h : store) (md : Metrics) : option (list ptr) :=
  l ← Metrics_orig md;
  o ← h !! l;
  match o with
  | ObjRequest r => Some (otlpcollectormetrics.ResourceMetrics r)
  | _ => None
  end.

(** The instrumentation scopes of a resource. *)
Definition scopes_of (h : store) (rm : ptr) : option (list ptr) :=
  l ← rm;
  o ← h !! l;
  match o with
  | ObjResourceMetrics r => Some (otlpmetrics.RM_InstrumentationLibraryMetrics r)
  | _ => None
  end.

(** The metrics of an instrumentation scope. *)
Definition metrics_of (h : store) (ilm : ptr) : option (list ptr) :=
  l ← ilm;
  o ← h !! l;
  match o with
  | ObjInstrumentationLibraryMetrics r => Some (otlpmetrics.ILM_Metrics r)
  | _ => None
  end.

(** The tree: for every resource, for every scope of it, the metrics of
    the scope, in the order of the slices.  It is defined when every
    pointer on the way leads to a struct of its type. *)
Definition tree_of (h : store) (md : Metrics) : option (list (list (list ptr))) :=
  rms ← resources_of h md;
  mapM (λ rm, ilms ← scopes_of h rm; mapM (metrics_of h) ilms) rms.

(** The number of data points of the active variant of a metric: 0 with
    no data; defined when the metric and the storage of its variant are
    allocated. *)
Definition points_at (h : store) (m : ptr) : option Z :=
  l ← m;
  o ← h !! l;
  match o with
  | ObjMetric m =>
      match otlpmetrics.Data m with
      | None => Some 0
      | Some (k, d) =>
          ld ← d;
          w ← h !! ld;
          match w with
          | ObjOneof k' v =>
              lv ← v;
              s ← h !! lv;
              if bool_decide (k' = k ∧ variant_of s = Some k)
              then Some (points_of s) else None
          | _ => None
          end
      end
  | _ => None
  end.

(** The sum of the metric-slice lengths over every resource and scope. *)
Definition metric_total (t : list (list (list ptr))) : Z :=
  Zsum ((λ scopes, Zsum (len <$> scopes)) <$> t).

(** Every metric of the tree and the storage of its variant are
    allocated. *)
Definition metrics_allocated (h : store) (t : list (list (list ptr))) : Prop :=
  Forall (Forall (Forall (λ m, is_Some (points_at h m)))) t.

(** The sum, over every metric of the tree, of the number of data points
    of its active variant. *)
Definition point_total (h : store) (t : list (list (list ptr))) : Z :=
  Zsum ((λ scopes,
           Zsum ((λ ms, Zsum ((λ m, default 0 (points_at h m)) <$> ms)) <$> scopes))
        <$> t).

(** What one metric, one scope and one resource add to the two counters
    of [MetricAndDataPointCount]. *)
Definition add_metric (h : store) (a : Z) (m : ptr) : Z :=
  int_add a (default 0 (points_at h m)).
Definition add_scope (h : store) (a : Z * Z) (q : ptr) : Z * Z :=
  (int_add a.1 (len (default [] (metrics_of h q))),
   foldl (add_metric h) a.2 (default [] (metrics_of h q))).
Definition add_resource (h : store) (a : Z * Z) (rm : ptr) : Z * Z :=
  foldl (add_scope h) a (default [] (scopes_of h rm)).

End Tree.

(** Both counters are [int]s. *)
Definition wrapped2 (a : Z * Z) : Prop := int_wrap a.1 = a.1 ∧ int_wrap a.2 = a.2.

(** Every slice of the tree has a length that is an [int]. *)
Definition slices_fit {A} (t : list (list (list A))) : Prop :=
  len t ≤ max_int
  ∧ Forall (λ scopes, len scopes ≤ max_int
                      ∧ Forall (λ ms : list A, len ms ≤ max_int) scopes) t.

(** The longest slice of the tree. *)
Definition longest {A} (t : list (list (list A))) : nat :=
  max (length t)
      (max_list ((λ scopes, max (length scopes) (max_list (length <$> scopes))) <$> t)).

(** [R] resources, each with [S] scopes, each with [M] metrics. *)
Definition regular {A} (R S M : nat) (t : list (list (list A))) : Prop :=
  length t = R
  ∧ Forall (λ scopes, length scopes = S ∧ Forall (λ ms : list A, length ms = M) scopes) t.

(** A store with a tree of two resources (at 10 and 11), each with two
    scopes (20, 21 and 22, 23), each with the same three metrics: those of
    [gauge_store] at 1 and 4, and an [IntSum] at 5 with three data points
    (wrapper at 6, struct at 7). *)
Definition tree_store : gmap loc (@object Z_leaves) :=
  <[9%positive := ObjRequest {| otlpcollectormetrics.ResourceMetrics :=
                         [Some 10%positive; Some 11%positive] |}]>
  (<[10%positive := ObjResourceMetrics
        (@otlpmetrics.Build_ResourceMetrics Z_leaves 0 [Some 20%positive; Some 21%positive])]>
  (<[11%positive := ObjResourceMetrics
        (@otlpmetrics.Build_ResourceMetrics Z_leaves 1 [Some 22%positive; Some 23%positive])]>
  (<[20%positive := ObjInstrumentationLibraryMetrics
        (@otlpmetrics.Build_InstrumentationLibraryMetrics Z_leaves 0
           [Some 1%positive; Some 4%positive; Some 5%positive])]>
  (<[21%positive := ObjInstrumentationLibraryMetrics
        (@otlpmetrics.Build_InstrumentationLibraryMetrics Z_leaves 0
           [Some 1%positive; Some 4%positive; Some 5%positive])]>
  (<[22%positive := ObjInstrumentationLibraryMetrics
        (@otlpmetrics.Build_InstrumentationLibraryMetrics Z_leaves 0
           [Some 1%positive; Some 4%positive; Some 5%positive])]>
  (<[23%positive := ObjInstrumentationLibraryMetrics
        (@otlpmetrics.Build_InstrumentationLibraryMetrics Z_leaves 0
           [Some 1%positive; Some 4%positive; Some 5%positive])]>
  (<[5%positive := ObjMetric {| otlpmetrics.Name := "bytes"; otlpmetrics.Description := "";
                       otlpmetrics.Unit := "By";
                       otlpmetrics.Data := Some (otlpmetrics.Metric_IntSum, Some 6%positive) |}]>
  (<[6%positive := ObjOneof otlpmetrics.Metric_IntSum (Some 7%positive)]>
  (<[7%positive := ObjIntSum (@otlpmetrics.Build_IntSum Z_leaves [1; 2; 3]
                                AggregationTemporalityCumulative)]>
   gauge_store))))))))).

Definition tree_metrics : Metrics := mkMetrics (Some 9%positive).

(** The tree of [tree_store]. *)
Definition tree_shape : list (list (list ptr)) :=
  replicate 2 (replicate 2 [Some 1; Some 4; Some 5]%positive).

(** ** The wire format of the request

    The methods [Marshal] and [Unmarshal] of [ExportMetricsServiceRequest]
    are generated code that is not among the sources; what follows stands
    for them, after the spec: a binary message, structurally identical to
    the tree, with every sequence and string prefixed by its length. *)

(** A decoder reads a value off the front of the input and returns the rest. *)
Definition parser (A : Type) : Type := list Byte.byte → option (A * list Byte.byte).

Definition byte_of_N (n : N) : Byte.byte := default Byte.x00 (Byte.of_N n).

(** Base-128 digits, least significant first, the high bit set on all but
    the last. *)
Fixpoint put_varint (fuel : nat) (n : N) : list Byte.byte :=
  match fuel with
  | O => []
  | S fuel' =>
      if (n <? 128)%N then [byte_of_N n]
      else byte_of_N (128 + n mod 128) :: put_varint fuel' (n / 128)
  end.

Fixpoint get_varint (bs : list Byte.byte) : option (N * list Byte.byte) :=
  match bs with
  | [] => None
  | b :: rest =>
      let x := Byte.to_N b in
      if (x <? 128)%N then Some (x, rest)
      else
        match get_varint rest with
        | Some (m, rest') => Some ((x - 128) + 128 * m, rest')%N
        | None => None
        end
  end.

Definition put_nat (n : nat) : list Byte.byte :=
  put_varint (S (N.to_nat (N.size (N.of_nat n)))) (N.of_nat n).

Definition get_nat : parser nat := λ bs,
  '(n, rest) ← get_varint bs; Some (N.to_nat n, rest).

(** A decoder undoes an encoder, whatever follows in the input. *)
Definition faithful {A} (put : A → list Byte.byte) (get : parser A) : Prop :=
  ∀ a rest, get (put a ++ rest) = Some (a, rest).


(** Signed integers, zigzag: 0, -1, 1, -2, ... as 0, 1, 2, 3, ... *)
Definition put_Z (z : Z) : list Byte.byte :=
  put_nat (Z.to_nat (if bool_decide (0 ≤ z) then 2 * z else - 2 * z - 1)).

Definition get_Z : parser Z := λ bs,
  '(n, rest) ← get_nat bs;
  let z := Z.of_nat n in
  Some (if Z.even z then z / 2 else - ((z + 1) / 2), rest).

(** A string: its length in bytes, then its bytes. *)
Definition put_string (s : string) : list Byte.byte :=
  let bs := String.list_byte_of_string s in put_nat (length bs) ++ bs.

Definition get_string : parser string := λ bs,
  '(n, rest) ← get_nat bs;
  if bool_decide (n ≤ length rest)%nat
  then Some (String.string_of_list_byte (take n rest), drop n rest)
  else None.

(** A sequence: its length, then its elements in order. *)
Definition put_list {A} (put : A → list Byte.byte) (l : list A) : list Byte.byte :=
  put_nat (length l) ++ concat (put <$> l).

Fixpoint get_many {A} (get : parser A) (n : nat) : parser (list A) := λ bs,
  match n with
  | O => Some ([], bs)
  | S n' =>
      '(a, rest) ← get bs;
      '(l, rest') ← get_many get n' rest;
      Some (a :: l, rest')
  end.

Definition get_list {A} (get : parser A) : parser (list A) := λ bs,
  '(n, rest) ← get_nat bs; get_many get n rest.

(** The encoders and decoders of the leaves, parameters as their types. *)
Class LeafWire `{OtlpLeaves} : Type := {
  put_Resource : Resource → list Byte.byte;
  get_Resource : parser Resource;
  put_InstrumentationLibrary : InstrumentationLibrary → list Byte.byte;
  get_InstrumentationLibrary : parser InstrumentationLibrary;
  put_IntDataPoint : IntDataPoint → list Byte.byte;
  get_IntDataPoint : parser IntDataPoint;
  put_DoubleDataPoint : DoubleDataPoint → list Byte.byte;
  get_DoubleDataPoint : parser DoubleDataPoint;
  put_IntHistogramDataPoint : IntHistogramDataPoint → list Byte.byte;
  get_IntHistogramDataPoint : parser IntHistogramDataPoint;
  put_DoubleHistogramDataPoint : DoubleHistogramDataPoint → list Byte.byte;
  get_DoubleHistogramDataPoint : parser DoubleHistogramDataPoint;
  put_DoubleSummaryDataPoint : DoubleSummaryDataPoint → list Byte.byte;
  get_DoubleSummaryDataPoint : parser DoubleSummaryDataPoint;
}.

(** Every leaf is decoded to what was encoded. *)
Definition leaves_faithful `{LeafWire} : Prop :=
  faithful put_Resource get_Resource
  ∧ faithful put_InstrumentationLibrary get_InstrumentationLibrary
  ∧ faithful put_IntDataPoint get_IntDataPoint
  ∧ faithful put_DoubleDataPoint get_DoubleDataPoint
  ∧ faithful put_IntHistogramDataPoint get_IntHistogramDataPoint
  ∧ faithful put_DoubleHistogramDataPoint get_DoubleHistogramDataPoint
  ∧ faithful put_DoubleSummaryDataPoint get_DoubleSummaryDataPoint.

(** ** The tree as a value

    The resources, scopes, metrics and variant data of a [Metrics], in
    order, without the addresses: two [Metrics] are structurally equal when
    they have the same value. *)

Section Values.

Context `{OtlpLeaves}.

Inductive variant_value : Type :=
| IntGaugeValue (v : otlpmetrics.IntGauge)
| DoubleGaugeValue (v : otlpmetrics.DoubleGauge)
| IntSumValue (v : otlpmetrics.IntSum)
| DoubleSumValue (v : otlpmetrics.DoubleSum)
| IntHistogramValue (v : otlpmetrics.IntHistogram)
| DoubleHistogramValue (v : otlpmetrics.DoubleHistogram)
| DoubleSummaryValue (v : otlpmetrics.DoubleSummary).

Record metric_value : Type := {
  mv_Name : string;
  mv_Description : string;
  mv_Unit : string;
  mv_Data : option variant_value;
}.

Record scope_value : Type := {
  sv_InstrumentationLibrary : InstrumentationLibrary;
  sv_Metrics : list metric_value;
}.

Record resource_value : Type := {
  rv_Resource : Resource;
  rv_InstrumentationLibraryMetrics : list scope_value;
}.

Definition variant_object (v : variant_value) : object :=
  match v with
  | IntGaugeValue s => ObjIntGauge s
  | DoubleGaugeValue s => ObjDoubleGauge s
  | IntSumValue s => ObjIntSum s
  | DoubleSumValue s => ObjDoubleSum s
  | IntHistogramValue s => ObjIntHistogram s
  | DoubleHistogramValue s => ObjDoubleHistogram s
  | DoubleSummaryValue s => ObjDoubleSummary s
  end.

Definition object_variant (o : object) : option variant_value :=
  match o with
  | ObjIntGauge s => Some (IntGaugeValue s)
  | ObjDoubleGauge s => Some (DoubleGaugeValue s)
  | ObjIntSum s => Some (IntSumValue s)
  | ObjDoubleSum s => Some (DoubleSumValue s)
  | ObjIntHistogram s => Some (IntHistogramValue s)
  | ObjDoubleHistogram s => Some (DoubleHistogramValue s)
  | ObjDoubleSummary s => Some (DoubleSummaryValue s)
  | _ => None
  end.

Definition variant_kind (v : variant_value) : otlpmetrics.oneof :=
  match v with
  | IntGaugeValue _ => otlpmetrics.Metric_IntGauge
  | DoubleGaugeValue _ => otlpmetrics.Metric_DoubleGauge
  | IntSumValue _ => otlpmetrics.Metric_IntSum
  | DoubleSumValue _ => otlpmetrics.Metric_DoubleSum
  | IntHistogramValue _ => otlpmetrics.Metric_IntHistogram
  | DoubleHistogramValue _ => otlpmetrics.Metric_DoubleHistogram
  | DoubleSummaryValue _ => otlpmetrics.Metric_DoubleSummary
  end.

(** The value of the data of a metric: defined when the wrapper and the
    struct of the variant are allocated and of the type the interface value
    names. *)
Definition abs_data (h : store) (d : otlpmetrics.isMetric_Data)
    : option (option variant_value) :=
  match d with
  | None => Some None
  | Some (k, p) =>
      ld ← p;
      w ← h !! ld;
      match w with
      | ObjOneof k' v =>
          lv ← v;
          s ← h !! lv;
          if bool_decide (k' = k ∧ variant_of s = Some k)
          then Some <$> object_variant s else None
      | _ => None
      end
  end.

Definition abs_metric (h : store) (p : ptr) : option metric_value :=
  l ← p;
  o ← h !! l;
  match o with
  | ObjMetric m =>
      d ← abs_data h (otlpmetrics.Data m);
      Some {| mv_Name := otlpmetrics.Name m;
              mv_Description := otlpmetrics.Description m;
              mv_Unit := otlpmetrics.Unit m;
              mv_Data := d |}
  | _ => None
  end.

Definition abs_scope (h : store) (p : ptr) : option scope_value :=
  l ← p;
  o ← h !! l;
  match o with
  | ObjInstrumentationLibraryMetrics r =>
      ms ← mapM (abs_metric h) (otlpmetrics.ILM_Metrics r);
      Some {| sv_InstrumentationLibrary := otlpmetrics.ILM_InstrumentationLibrary r;
              sv_Metrics := ms |}
  | _ => None
  end.

Definition abs_resource (h : store) (p : ptr) : option resource_value :=
  l ← p;
  o ← h !! l;
  match o with
  | ObjResourceMetrics r =>
      ss ← mapM (abs_scope h) (otlpmetrics.RM_InstrumentationLibraryMetrics r);
      Some {| rv_Resource := otlpmetrics.RM_Resource r;
              rv_InstrumentationLibraryMetrics := ss |}
  | _ => None
  end.

(** The value of a [Metrics]: the resources under its request. *)
Definition abs_request (h : store) (md : Metrics) : option (list resource_value) :=
  l ← Metrics_orig md;
  o ← h !! l;
  match o with
  | ObjRequest r => mapM (abs_resource h) (otlpcollectormetrics.ResourceMetrics r)
  | _ => None
  end.

(** [h'] holds every struct of [h] other than the requests. *)
Definition keeps_structs (h h' : store) : Prop :=
  ∀ l o, h !! l = Some o → (∀ r, o ≠ ObjRequest r) → h' !! l = Some o.

(** Allocating the structs of a value, children first. *)
Definition build_metric (m : metric_value) : Go store ptr :=
  d ← match mv_Data m with
      | None => mret None
      | Some v =>
          lv ← alloc (variant_object v);
          ld ← alloc (ObjOneof (variant_kind v) lv);
          mret (Some (variant_kind v, ld))
      end;
  alloc (ObjMetric {| otlpmetrics.Name := mv_Name m;
                      otlpmetrics.Description := mv_Description m;
                      otlpmetrics.Unit := mv_Unit m;
                      otlpmetrics.Data := d |}).

Definition build_scope (s : scope_value) : Go store ptr :=
  ms ← mapM build_metric (sv_Metrics s);
  alloc (ObjInstrumentationLibraryMetrics
           {| otlpmetrics.ILM_InstrumentationLibrary := sv_InstrumentationLibrary s;
              otlpmetrics.ILM_Metrics := ms |}).

Definition build_resource (r : resource_value) : Go store ptr :=
  ss ← mapM build_scope (rv_InstrumentationLibraryMetrics r);
  alloc (ObjResourceMetrics
           {| otlpmetrics.RM_Resource := rv_Resource r;
              otlpmetrics.RM_InstrumentationLibraryMetrics := ss |}).

End Values.

Section Wire.

Context `{LeafWire}.

(** The data of a metric: a tag, 0 for no data and 1 to 7 for the variants
    in the order of the discriminants, then the fields of the variant. *)
Definition put_data (d : option variant_value) : list Byte.byte :=
  match d with
  | None => put_nat 0
  | Some (IntGaugeValue v) =>
      put_nat 1 ++ put_list put_IntDataPoint (otlpmetrics.IntGauge_DataPoints v)
  | Some (DoubleGaugeValue v) =>
      put_nat 2 ++ put_list put_DoubleDataPoint (otlpmetrics.DoubleGauge_DataPoints v)
  | Some (IntSumValue v) =>
      put_nat 3 ++ put_list put_IntDataPoint (otlpmetrics.IntSum_DataPoints v)
        ++ put_Z (otlpmetrics.IntSum_AggregationTemporality v)
  | Some (DoubleSumValue v) =>
      put_nat 4 ++ put_list put_DoubleDataPoint (otlpmetrics.DoubleSum_DataPoints v)
        ++ put_Z (otlpmetrics.DoubleSum_AggregationTemporality v)
  | Some (IntHistogramValue v) =>
      put_nat 5 ++ put_list put_IntHistogramDataPoint (otlpmetrics.IntHistogram_DataPoints v)
        ++ put_Z (otlpmetrics.IntHistogram_AggregationTemporality v)
  | Some (DoubleHistogramValue v) =>
      put_nat 6
        ++ put_list put_DoubleHistogramDataPoint (otlpmetrics.DoubleHistogram_DataPoints v)
        ++ put_Z (otlpmetrics.DoubleHistogram_AggregationTemporality v)
  | Some (DoubleSummaryValue v) =>
      put_nat 7 ++ put_list put_DoubleSummaryDataPoint (otlpmetrics.DoubleSummary_DataPoints v)
  end.

Definition get_data : parser (option variant_value) := λ bs,
  '(tag, bs) ← get_nat bs;
  match tag with
  | 0%nat => Some (None, bs)
  | 1%nat =>
      '(dps, bs) ← get_list get_IntDataPoint bs;
      Some (Some (IntGaugeValue {| otlpmetrics.IntGauge_DataPoints := dps |}), bs)
  | 2%nat =>
      '(dps, bs) ← get_list get_DoubleDataPoint bs;
      Some (Some (DoubleGaugeValue {| otlpmetrics.DoubleGauge_DataPoints := dps |}), bs)
  | 3%nat =>
      '(dps, bs) ← get_list get_IntDataPoint bs;
      '(temporality, bs) ← get_Z bs;
      Some (Some (IntSumValue {| otlpmetrics.IntSum_DataPoints := dps;
                                 otlpmetrics.IntSum_AggregationTemporality := temporality |}), bs)
  | 4%nat =>
      '(dps, bs) ← get_list get_DoubleDataPoint bs;
      '(temporality, bs) ← get_Z bs;
      Some (Some (DoubleSumValue {| otlpmetrics.DoubleSum_DataPoints := dps;
                                    otlpmetrics.DoubleSum_AggregationTemporality := temporality |}), bs)
  | 5%nat =>
      '(dps, bs) ← get_list get_IntHistogramDataPoint bs;
      '(temporality, bs) ← get_Z bs;
      Some (Some (IntHistogramValue
                    {| otlpmetrics.IntHistogram_DataPoints := dps;
                       otlpmetrics.IntHistogram_AggregationTemporality := temporality |}), bs)
  | 6%nat =>
      '(dps, bs) ← get_list get_DoubleHistogramDataPoint bs;
      '(temporality, bs) ← get_Z bs;
      Some (Some (DoubleHistogramValue
                    {| otlpmetrics.DoubleHistogram_DataPoints := dps;
                       otlpmetrics.DoubleHistogram_AggregationTemporality := temporality |}), bs)
  | 7%nat =>
      '(dps, bs) ← get_list get_DoubleSummaryDataPoint bs;
      Some (Some (DoubleSummaryValue {| otlpmetrics.DoubleSummary_DataPoints := dps |}), bs)
  | _ => None
  end.

Definition put_metric (m : metric_value) : list Byte.byte :=
  put_string (mv_Name m) ++ put_string (mv_Description m) ++ put_string (mv_Unit m)
    ++ put_data (mv_Data m).

Definition get_metric : parser metric_value := λ bs,
  '(name, bs) ← get_string bs;
  '(description, bs) ← get_string bs;
  '(unit, bs) ← get_string bs;
  '(data, bs) ← get_data bs;
  Some ({| mv_Name := name; mv_Description := description; mv_Unit := unit;
           mv_Data := data |}, bs).

Definition put_scope (s : scope_value) : list Byte.byte :=
  put_InstrumentationLibrary (sv_InstrumentationLibrary s)
    ++ put_list put_metric (sv_Metrics s).

Definition get_scope : parser scope_value := λ bs,
  '(il, bs) ← get_InstrumentationLibrary bs;
  '(ms, bs) ← get_list get_metric bs;
  Some ({| sv_InstrumentationLibrary := il; sv_Metrics := ms |}, bs).

Definition put_resource (r : resource_value) : list Byte.byte :=
  put_Resource (rv_Resource r)
    ++ put_list put_scope (rv_InstrumentationLibraryMetrics r).

Definition get_resource : parser resource_value := λ bs,
  '(res, bs) ← get_Resource bs;
  '(ss, bs) ← get_list get_scope bs;
  Some ({| rv_Resource := res; rv_InstrumentationLibraryMetrics := ss |}, bs).

Definition put_request (v : list resource_value) : list Byte.byte :=
  put_list put_resource v.

Definition get_request : parser (list resource_value) := get_list get_resource.

(** Modelled from the spec: [ExportMetricsServiceRequest.Marshal], the
    protocol's own encoding of the root record, generated code that is not
    among the sources.  The spec fixes of it that the message is
    length-prefixed, binary and structurally identical to the tree, and
    that the codec works on the tree in place, without a canonical copy:
    the method reads the tree under the request and writes every sequence
    and string with its length first.  Reading through a pointer that
    leads nowhere panics. *)
Definition Request_Marshal (p : ptr) : Go store (byte_slice * error) := λ h,
  match abs_request h (mkMetrics p) with
  | Some v => Some ((Some (put_request v), None), h)
  | None => None
  end.

(** Modelled from the spec: [ExportMetricsServiceRequest.Unmarshal], the
    protocol's own decoding into the root record, generated code that is
    not among the sources.  Bytes that are not a whole message are a decode
    error; otherwise the structs of the decoded tree are allocated and the
    request is made to hold them. *)
Definition Request_Unmarshal (p : ptr) (data : byte_slice) : Go store error :=
  match get_request (default [] data) with
  | Some (v, []) =>
      rms ← mapM build_resource v;
      _ ← assign p (ObjRequest {| otlpcollectormetrics.ResourceMetrics := rms |});
      mret None
  | _ => mret (Some (errors.New "unexpected EOF"))
  end.

(** consumer/pdata/metrics.go again: the two functions over the codec.
    The local [req], whose address the result keeps, is allocated. *)
Definition MetricsFromOtlpProtoBytes (data : byte_slice) : Go store (Metrics * error) :=
  req ← alloc (ObjRequest {| otlpcollectormetrics.ResourceMetrics := [] |});
  err ← Request_Unmarshal req data;
  match err with
  | Some e => mret (Metrics_zero, Some e)
  | None => mret (mkMetrics req, None)
  end.

Definition Metrics_ToOtlpProtoBytes (md : Metrics) : Go store (byte_slice * error) :=
  Request_Marshal (Metrics_orig md).

End Wire.

(** The leaves of [Z_leaves] on the wire: zigzag integers. *)
Definition Z_leaf_wire : @LeafWire Z_leaves :=
  @Build_LeafWire Z_leaves put_Z get_Z put_Z get_Z put_Z get_Z put_Z get_Z
    put_Z get_Z put_Z get_Z put_Z get_Z.

(** The value of the tree of [tree_store]. *)
Definition tree_value : list (@resource_value Z_leaves) :=
  Eval vm_compute in default [] (abs_request tree_store tree_metrics).

(** ** More instances used to run the code *)

(** A translator back that succeeds: it hands out the [Metrics] whose
    request is at address 9, the root of [tree_store]. *)
Definition ok_to_translator : ToMetricsTranslator unit byte_slice :=
  {| ToMetrics := λ _, mret (mkMetrics (Some 9%positive), None) |}.

(** ** The seven accessors of a metric at once *)

Section Accessors.

Context `{OtlpLeaves}.

(** The accessor of [Metric] for the variant [k], with the pointer its view
    holds as the result: [ms.IntGauge().orig], [ms.DoubleGauge().orig], ... *)
Definition Metric_accessor (k : otlpmetrics.oneof) (ms : Metric) : Go store ptr :=
  match k with
  | otlpmetrics.Metric_IntGauge => v ← Metric_IntGauge ms; mret (IntGauge_orig v)
  | otlpmetrics.Metric_DoubleGauge => v ← Metric_DoubleGauge ms; mret (DoubleGauge_orig v)
  | otlpmetrics.Metric_IntSum => v ← Metric_IntSum ms; mret (IntSum_orig v)
  | otlpmetrics.Metric_DoubleSum => v ← Metric_DoubleSum ms; mret (DoubleSum_orig v)
  | otlpmetrics.Metric_IntHistogram => v ← Metric_IntHistogram ms; mret (IntHistogram_orig v)
  | otlpmetrics.Metric_DoubleHistogram => v ← Metric_Histogram ms; mret (Histogram_orig v)
  | otlpmetrics.Metric_DoubleSummary => v ← Metric_Summary ms; mret (Summary_orig v)
  end.

End Accessors.

(** ** What a computation leaves alone *)

(** A computation that, when it returns, returns in the state it started
    in. *)
Definition read_only {σ A} (m : Go σ A) : Prop :=
  ∀ s a s', m s = Some (a, s') → s' = s.

Section KeepsTree.

Context `{OtlpLeaves}.

(** [h'] holds every struct of [h] other than the metrics: the requests,
    the resources and the scopes, and the storage of the variants. *)
Definition keeps_tree (h h' : store) : Prop :=
  ∀ l o, h !! l = Some o → (∀ m, o ≠ ObjMetric m) → h' !! l = Some o.

End KeepsTree.

(** ** consumer/pdata/metrics.go: [Clone] *)

Section Clone.

Context `{OtlpLeaves}.

(** Modelled from the spec: [CopyTo(dest)] of the generated view of the slice
    of resources, which is not among the sources.  It deep-copies every
    field and nested element from the source into the destination,
    overwriting the destination's prior contents: the tree under the source
    is read (through a pointer that leads nowhere this panics), a copy of
    every struct of it is allocated, and the slice of the destination is
    made to hold the copies. *)
Definition ResourceMetricsSlice_CopyTo (es dest : ResourceMetricsSlice) : Go store unit :=
  r ← load_Request (ResourceMetricsSlice_orig es);
  vs ← (λ h, match mapM (abs_resource h) (otlpcollectormetrics.ResourceMetrics r) with
             | Some vs => Some (vs, h)
             | None => None
             end);
  rms ← mapM build_resource vs;
  assign (ResourceMetricsSlice_orig dest)
    (ObjRequest {| otlpcollectormetrics.ResourceMetrics := rms |}).

Definition Metrics_Clone (md : Metrics) : Go store Metrics :=
  cloneMd ← NewMetrics;
  src ← Metrics_ResourceMetrics md;
  dst ← Metrics_ResourceMetrics cloneMd;
  _ ← ResourceMetricsSlice_CopyTo src dst;
  mret cloneMd.

End Clone.

(** The clone of the [Metrics] of [tree_store], and the store after it. *)
Definition cloned_metrics : Metrics :=
  Eval vm_compute in default Metrics_zero (fst <$> Metrics_Clone tree_metrics tree_store).
Definition cloned_store : gmap loc (@object Z_leaves) :=
  Eval vm_compute in default ∅ (snd <$> Metrics_Clone tree_metrics tree_store).

(** * Properties *)

(** ** The names of the data types *)

(** C10: [MetricDataType.String] is total; on the eight defined constants
    it returns "None", "IntGauge", "DoubleGauge", "IntSum", "DoubleSum",
    "IntHistogram", "Histogram" and "Summary" in this order, and on every
    other [int32] value the empty string. *)
Theorem MetricDataType_String_spec :
  MetricDataType_String <$> defined_data_types =
    ["None"; "IntGauge"; "DoubleGauge"; "IntSum"; "DoubleSum";
     "IntHistogram"; "Histogram"; "Summary"]%string
  ∧ ∀ mdt : MetricDataType,
      int32_range mdt → mdt ∉ defined_data_types → MetricDataType_String mdt = ""%string.
Proof.
  split; [reflexivity|].
  intros mdt _ Hout.
  assert (Hcases : mdt < 0 ∨ 7 < mdt ∨ mdt ∈ defined_data_types).
  { destruct (decide (mdt < 0)) as [|Hlo]; [by left|].
    destruct (decide (7 < mdt)) as [|Hhi]; [by right; left|].
    right; right.
    assert (Hz : mdt = 0 ∨ mdt = 1 ∨ mdt = 2 ∨ mdt = 3 ∨ mdt = 4 ∨ mdt = 5
                 ∨ mdt = 6 ∨ mdt = 7) by lia.
    unfold defined_data_types, MetricDataTypeNone, MetricDataTypeIntGauge,
      MetricDataTypeDoubleGauge, MetricDataTypeIntSum, MetricDataTypeDoubleSum,
      MetricDataTypeIntHistogram, MetricDataTypeHistogram, MetricDataTypeSummary.
    rewrite !elem_of_cons. tauto. }
  destruct Hcases as [Hneg | [Hbig | Hin]]; [| | done].
  - destruct mdt as [|p|p]; [lia | lia | reflexivity].
  - destruct mdt as [|p|p]; [lia | | lia].
    do 3 (destruct p as [p|p|]; try reflexivity; try lia).
Qed.

(** ** The OAuth2 client settings *)

Section RoundTripper.

Import configoauth2.
Context {RoundTripperT : Type}.

Lemma is_empty_true (s : string) : is_empty s = true ↔ s = ""%string.
Proof. unfold is_empty. by rewrite bool_decide_eq_true. Qed.

Lemma is_empty_false (s : string) : is_empty s = false ↔ s ≠ ""%string.
Proof. unfold is_empty. by rewrite bool_decide_eq_false. Qed.

(** C9: [RoundTripper] returns an error exactly when one of [ClientID],
    [ClientSecret], [TokenURL] is empty; the error is that of the first
    empty field in this order and comes with a nil transport; with the
    three non-empty the transport is non-nil and the error nil. *)
Theorem RoundTripper_spec (c : OAuth2ClientCredentials) (base : RoundTripperT) :
  ((RoundTripper c base).2 ≠ None
     ↔ ClientID c = ""%string ∨ ClientSecret c = ""%string ∨ TokenURL c = ""%string)
  ∧ (ClientID c = ""%string →
       RoundTripper c base = (None, Some errNoClientIDProvided))
  ∧ (ClientID c ≠ ""%string → ClientSecret c = ""%string →
       RoundTripper c base = (None, Some errNoClientSecretProvided))
  ∧ (ClientID c ≠ ""%string → ClientSecret c ≠ ""%string → TokenURL c = ""%string →
       RoundTripper c base = (None, Some errNoTokenURLProvided))
  ∧ (ClientID c ≠ ""%string → ClientSecret c ≠ ""%string → TokenURL c ≠ ""%string →
       ∃ t, RoundTripper c base = (Some t, None) ∧ Base t = base).
Proof.
  unfold RoundTripper.
  destruct (is_empty (ClientID c)) eqn:E1;
    [apply is_empty_true in E1 | apply is_empty_false in E1];
  (destruct (is_empty (ClientSecret c)) eqn:E2;
    [apply is_empty_true in E2 | apply is_empty_false in E2]);
  (destruct (is_empty (TokenURL c)) eqn:E3;
    [apply is_empty_true in E3 | apply is_empty_false in E3]);
  simpl; repeat split; try done; try tauto; try (intros; eauto; fail);
  try (intros _; tauto); try (intros [?|[?|?]]; done).
Qed.

End RoundTripper.

(** ** The two pipelines *)

Section MarshalingFacts.

Context {W Model : Type}.
Implicit Types (w : W) (calls : list (call Model)) (e : error_value).

Lemma Errorf_w_wraps (prefix : string) e :
  Unwrap (Errorf_w prefix e) = Some e
  ∧ Error (Errorf_w prefix e) = (prefix +:+ Error e)%string.
Proof. done. Qed.

(** C1, amended: when [FromMetrics] returns a non-nil error [e], [Marshal]
    returns nil bytes and [e] wrapped with the context "converting pdata
    to model failed", and [EncodeMetrics] is not called (the only call is
    that of [FromMetrics], and the state is the one it left); when the
    translation succeeds and [EncodeMetrics] returns a non-nil error [e],
    [Marshal] returns nil bytes and [e] wrapped with "marshal failed". *)
Theorem Marshal_fail_fast (t : metricsMarshaler W Model) (td : Metrics) w calls :
  (∀ model e w',
     FromMetrics (translator t) td w = Some ((model, Some e), w') →
     Marshal t td (w, calls)
     = Some ((None, Some (wrapError ("converting pdata to model failed: " +:+ Error e) e)),
             (w', calls ++ [CallFromMetrics td])))
  ∧ (∀ model w' buf e w'',
     FromMetrics (translator t) td w = Some ((model, None), w') →
     EncodeMetrics (encoder t) model w' = Some ((buf, Some e), w'') →
     Marshal t td (w, calls)
     = Some ((None, Some (wrapError ("marshal failed: " +:+ Error e) e)),
             (w'', calls ++ [CallFromMetrics td; CallEncodeMetrics model]))).
Proof.
  split.
  - intros model e w' Htr. unfold Marshal, mbind, Go_bind, invoke.
    by rewrite Htr.
  - intros model w' buf e w'' Htr Henc. unfold Marshal, mbind, Go_bind, invoke.
    rewrite Htr; simpl. rewrite Henc; simpl.
    by rewrite <- app_assoc.
Qed.

(** With both stages succeeding the bytes of the encoder come back. *)
Lemma Marshal_ok (t : metricsMarshaler W Model) (td : Metrics) w calls model w' buf w'' :
  FromMetrics (translator t) td w = Some ((model, None), w') →
  EncodeMetrics (encoder t) model w' = Some ((buf, None), w'') →
  Marshal t td (w, calls)
  = Some ((buf, None), (w'', calls ++ [CallFromMetrics td; CallEncodeMetrics model])).
Proof.
  intros Htr Henc. unfold Marshal, mbind, Go_bind, invoke.
  rewrite Htr; simpl. rewrite Henc; simpl.
  by rewrite <- app_assoc.
Qed.

(** C2, amended: when [DecodeMetrics] returns a non-nil error [e],
    [Unmarshal] returns the zero [Metrics] and [e] wrapped with "unmarshal
    failed", and [ToMetrics] is not called; when decoding succeeds and
    [ToMetrics] returns a non-nil error [e], [Unmarshal] returns the zero
    [Metrics] and [e] wrapped with "converting model to pdata failed",
    whatever value [ToMetrics] returned with the error; and whenever
    [Unmarshal] returns an error the value with it is the zero [Metrics]. *)
Theorem Unmarshal_fail_fast (t : metricsUnmarshaler W Model) (buf : byte_slice) w calls :
  (∀ model e w',
     DecodeMetrics (decoder t) buf w = Some ((model, Some e), w') →
     Unmarshal t buf (w, calls)
     = Some ((Metrics_zero, Some (wrapError ("unmarshal failed: " +:+ Error e) e)),
             (w', calls ++ [CallDecodeMetrics buf])))
  ∧ (∀ model w' td e w'',
     DecodeMetrics (decoder t) buf w = Some ((model, None), w') →
     ToMetrics (to_translator t) model w' = Some ((td, Some e), w'') →
     Unmarshal t buf (w, calls)
     = Some ((Metrics_zero,
              Some (wrapError ("converting model to pdata failed: " +:+ Error e) e)),
             (w'', calls ++ [CallDecodeMetrics buf; CallToMetrics model])))
  ∧ (∀ md e s',
     Unmarshal t buf (w, calls) = Some ((md, Some e), s') → md = Metrics_zero).
Proof.
  split; [|split].
  - intros model e w' Hdec. unfold Unmarshal, mbind, Go_bind, invoke.
    by rewrite Hdec.
  - intros model w' td e w'' Hdec Htr. unfold Unmarshal, mbind, Go_bind, invoke.
    rewrite Hdec; simpl. rewrite Htr; simpl.
    by rewrite <- app_assoc.
  - intros md e s'. unfold Unmarshal, mbind, Go_bind, invoke.
    destruct (DecodeMetrics (decoder t) buf w) as [[[model [e1|]] w']|]; simpl;
      [by intros [= <- _ _] | | done].
    destruct (ToMetrics (to_translator t) model w') as [[[td [e2|]] w'']|]; simpl;
      [by intros [= <- _ _] | done | done].
Qed.

End MarshalingFacts.

(** The implementations of the examples, run. *)
Example Marshal_failing_translator :
  Marshal (NewMetricsMarshaler ok_encoder failing_from_translator) Metrics_zero (tt, [])
  = Some ((None, Some (wrapError "converting pdata to model failed: boom" (errorString "boom"))),
          (tt, [CallFromMetrics Metrics_zero])).
Proof. reflexivity. Qed.

Example Marshal_failing_encoder :
  Marshal (NewMetricsMarshaler failing_encoder ok_from_translator) Metrics_zero (tt, [])
  = Some ((None, Some (wrapError "marshal failed: boom" (errorString "boom"))),
          (tt, [CallFromMetrics Metrics_zero; CallEncodeMetrics (Some [])])).
Proof. reflexivity. Qed.

Example Unmarshal_failing_translator :
  Unmarshal (NewMetricsUnmarshaler ok_decoder failing_to_translator) (Some []) (tt, [])
  = Some ((Metrics_zero,
           Some (wrapError "converting model to pdata failed: boom" (errorString "boom"))),
          (tt, [CallDecodeMetrics (Some []); CallToMetrics (Some [])])).
Proof. reflexivity. Qed.

(** C1 as the specification words it: the context of the error of a failed
    translation would be "converting to model failed".  It is not: for the
    failing translator and its error "boom", [Marshal] does not return that
    error. *)
Lemma Marshal_context_counterexample :
  FromMetrics failing_from_translator Metrics_zero tt
    = Some ((Some [], Some (errorString "boom")), tt)
  ∧ ∀ s',
      Marshal (NewMetricsMarshaler ok_encoder failing_from_translator) Metrics_zero (tt, [])
      ≠ Some ((None, Some (wrapError ("converting to model failed: " +:+ Error (errorString "boom"))
                             (errorString "boom"))), s').
Proof. split; [reflexivity|]. intros s' Heq. vm_compute in Heq. discriminate Heq. Qed.

(** C2 as the specification words it: the context of the error of a failed
    translation would be "converting to canonical failed".  It is not. *)
Lemma Unmarshal_context_counterexample :
  DecodeMetrics ok_decoder (Some []) tt = Some ((Some [], None), tt)
  ∧ ToMetrics failing_to_translator (Some []) tt
    = Some ((mkMetrics (Some 1%positive), Some (errorString "boom")), tt)
  ∧ ∀ s',
      Unmarshal (NewMetricsUnmarshaler ok_decoder failing_to_translator) (Some []) (tt, [])
      ≠ Some ((Metrics_zero,
               Some (wrapError ("converting to canonical failed: " +:+ Error (errorString "boom"))
                       (errorString "boom"))), s').
Proof.
  split; [reflexivity|]. split; [reflexivity|].
  intros s' Heq. vm_compute in Heq. discriminate Heq.
Qed.

(** ** The tagged union of a metric *)

Section StoreFacts.

Context `{OtlpLeaves}.
Implicit Types (h : store) (l : loc) (o : object).

Lemma load_Some h l o : h !! l = Some o → load (Some l) h = Some (o, h).
Proof. intros Hl. unfold load. by rewrite Hl. Qed.

Lemma load_Metric_Some h l m :
  h !! l = Some (ObjMetric m) → load_Metric (Some l) h = Some (m, h).
Proof. intros Hl. unfold load_Metric, mbind, Go_bind. by rewrite (load_Some _ _ _ Hl). Qed.

Lemma alloc_Some h o :
  alloc o h = Some (Some (fresh (dom h)), <[fresh (dom h) := o]> h).
Proof. done. Qed.

Lemma fresh_lookup h : h !! fresh (dom h) = None.
Proof. apply not_elem_of_dom, is_fresh. Qed.

Lemma assign_Data_Some h l m d :
  h !! l = Some (ObjMetric m) →
  assign_Data (Some l) d h = Some (tt, <[l := ObjMetric (otlpmetrics.set_Data m d)]> h).
Proof.
  intros Hl. unfold assign_Data, mbind, Go_bind.
  rewrite (load_Metric_Some _ _ _ Hl). unfold assign. by rewrite Hl.
Qed.

Lemma Metric_DataType_Some h l m :
  h !! l = Some (ObjMetric m) →
  Metric_DataType (newMetric (Some l)) h = Some (Data_DataType (otlpmetrics.Data m), h).
Proof.
  intros Hl. unfold Metric_DataType, mbind, Go_bind; simpl.
  rewrite (load_Metric_Some _ _ _ Hl).
  by destruct (otlpmetrics.Data m) as [[[] ?]|].
Qed.

Lemma oneof_DataType_defined (k : otlpmetrics.oneof) :
  oneof_DataType k ∈ defined_data_types ∧ oneof_DataType k ≠ MetricDataTypeNone.
Proof.
  split; [|by destruct k].
  unfold defined_data_types. rewrite !elem_of_cons. destruct k; tauto.
Qed.

(** C7: on a metric whose [orig] points to a metric struct, [DataType]
    returns and leaves the store as it was (it writes nothing and
    allocates nothing); the result is the discriminant of the dynamic type
    of [Data], it is [None] exactly when [Data] is nil, and it is one of
    the eight defined values. *)
Theorem Metric_DataType_pure (ms : Metric) h l (m : otlpmetrics.Metric) :
  Metric_orig ms = Some l →
  h !! l = Some (ObjMetric m) →
  ∃ ty, Metric_DataType ms h = Some (ty, h)
    ∧ ty = Data_DataType (otlpmetrics.Data m)
    ∧ (ty = MetricDataTypeNone ↔ otlpmetrics.Data m = None)
    ∧ ty ∈ defined_data_types.
Proof.
  destruct ms as [p]; simpl. intros -> Hl.
  exists (Data_DataType (otlpmetrics.Data m)).
  split; [by apply Metric_DataType_Some|]. split; [done|].
  destruct (otlpmetrics.Data m) as [[k p]|]; simpl.
  - destruct (oneof_DataType_defined k) as [Hin Hne]. by split.
  - split; [done|]. unfold defined_data_types. apply elem_of_cons. by left.
Qed.

(** For each of the seven discriminants other than [None]: [SetDataType]
    returns; the metric then has that discriminant; its storage is at two
    addresses the store did not hold and is the zero struct of the variant;
    everything else of the store, and the other fields of the metric, are
    as before. *)
Lemma Metric_SetDataType_variant (ms : Metric) h l (m : otlpmetrics.Metric)
    (k : otlpmetrics.oneof) :
  Metric_orig ms = Some l →
  h !! l = Some (ObjMetric m) →
  ∃ v d h',
    Metric_SetDataType ms (oneof_DataType k) h = Some (tt, h')
    ∧ h' = retyped h l m k v d (empty_variant k)
    ∧ h !! v = None ∧ h !! d = None ∧ v ≠ d
    ∧ Metric_DataType ms h' = Some (oneof_DataType k, h').
Proof.
  destruct ms as [p]; simpl. intros -> Hl.
  set (v := fresh (dom h)).
  set (h1 := <[v := empty_variant k]> h).
  set (d := fresh (dom h1)).
  assert (Hv : h !! v = None) by apply fresh_lookup.
  assert (Hd1 : h1 !! d = None) by apply fresh_lookup.
  assert (Hvd : v ≠ d).
  { intros Heq. rewrite <- Heq in Hd1. unfold h1 in Hd1.
    by rewrite lookup_insert_eq in Hd1. }
  assert (Hd : h !! d = None).
  { unfold h1 in Hd1. by rewrite lookup_insert_ne in Hd1. }
  assert (Hlv : l ≠ v) by (intros ->; congruence).
  assert (Hld : l ≠ d) by (intros ->; congruence).
  exists v, d, (retyped h l m k v d (empty_variant k)).
  split; [|split; [done|]].
  - assert (Hl2 : (<[d := ObjOneof k (Some v)]> h1) !! l = Some (ObjMetric m)).
    { unfold h1. by rewrite !lookup_insert_ne. }
    destruct k; simpl; unfold mbind, Go_bind; rewrite alloc_Some;
      fold v; change (<[v := _]> h) with h1; rewrite alloc_Some; fold d;
      by rewrite (assign_Data_Some _ _ _ _ Hl2).
  - repeat split; try done.
    replace (oneof_DataType k)
      with (Data_DataType (otlpmetrics.Data (otlpmetrics.set_Data m (Some (k, Some d)))))
      by done.
    apply Metric_DataType_Some. unfold retyped. by rewrite lookup_insert_eq.
Qed.

(** [SetDataType] with [None], or with a value that is not a defined
    discriminant, does nothing at all. *)
Lemma Metric_SetDataType_other (ms : Metric) h (ty : MetricDataType) :
  (∀ k, ty ≠ oneof_DataType k) →
  Metric_SetDataType ms ty h = Some (tt, h).
Proof.
  intros Hne. unfold Metric_SetDataType.
  destruct ty as [|p|p]; [done| |done].
  destruct p as [[[p|p|]|[p|p|]|]|[[p|p|]|[p|p|]|]|]; try done; exfalso;
    first [ by apply (Hne otlpmetrics.Metric_IntGauge)
          | by apply (Hne otlpmetrics.Metric_DoubleGauge)
          | by apply (Hne otlpmetrics.Metric_IntSum)
          | by apply (Hne otlpmetrics.Metric_DoubleSum)
          | by apply (Hne otlpmetrics.Metric_IntHistogram)
          | by apply (Hne otlpmetrics.Metric_DoubleHistogram)
          | by apply (Hne otlpmetrics.Metric_DoubleSummary) ].
Qed.

End StoreFacts.

(** C7 at the metric of [gauge_store]. *)
Lemma Metric_DataType_pure_witness :
  ∃ ty, Metric_DataType (newMetric (Some 1%positive)) gauge_store = Some (ty, gauge_store)
    ∧ ty = Data_DataType (Some (otlpmetrics.Metric_IntGauge, Some 2%positive))
    ∧ (ty = MetricDataTypeNone
       ↔ Some (otlpmetrics.Metric_IntGauge, Some 2%positive) = (None : otlpmetrics.isMetric_Data))
    ∧ ty ∈ defined_data_types.
Proof.
  apply (Metric_DataType_pure (newMetric (Some 1%positive)) gauge_store 1%positive
           {| otlpmetrics.Name := "requests"; otlpmetrics.Description := "";
              otlpmetrics.Unit := "1";
              otlpmetrics.Data := Some (otlpmetrics.Metric_IntGauge, Some 2%positive) |});
    reflexivity.
Defined.

(** C3 at the discriminant [None]: on the metric of [gauge_store], which
    holds an [IntGauge] with two data points, [SetDataType(None)] changes
    nothing; the metric still has the discriminant [IntGauge] and its two
    data points. *)
Theorem Metric_SetDataType_None_keeps_data :
  Metric_SetDataType (newMetric (Some 1%positive)) MetricDataTypeNone gauge_store
    = Some (tt, gauge_store)
  ∧ Metric_DataType (newMetric (Some 1%positive)) gauge_store
    = Some (MetricDataTypeIntGauge, gauge_store)
  ∧ (v ← Metric_IntGauge (newMetric (Some 1%positive));
     dps ← IntGauge_DataPoints v;
     IntDataPointSlice_Len dps) gauge_store = Some (2, gauge_store).
Proof. repeat split. Qed.

(** ** Copying the data of a metric *)

Section CopyData.

Context `{OtlpLeaves}.
Implicit Types (h : store) (l : loc) (o : object).

Lemma load_Oneof_Some h l (k : otlpmetrics.oneof) (p : ptr) :
  h !! l = Some (ObjOneof k p) → load_Oneof k (Some l) h = Some (p, h).
Proof.
  intros Hl. unfold load_Oneof, mbind, Go_bind. rewrite (load_Some _ _ _ Hl).
  by rewrite bool_decide_eq_true_2.
Qed.

Lemma assign_Some h l o o' :
  h !! l = Some o → assign (Some l) o' h = Some (tt, <[l := o']> h).
Proof. intros Hl. unfold assign. by rewrite Hl. Qed.

Lemma variant_CopyTo_Some h (k : otlpmetrics.oneof) ls ld o o' :
  h !! ls = Some o → variant_of o = Some k → h !! ld = Some o' →
  variant_CopyTo k (Some ls) (Some ld) h = Some (tt, <[ld := o]> h).
Proof.
  intros Hs Hk Hd.
  destruct o; try discriminate Hk; injection Hk as <-;
    unfold variant_CopyTo, IntGauge_CopyTo, DoubleGauge_CopyTo, IntSum_CopyTo,
      DoubleSum_CopyTo, IntHistogram_CopyTo, Histogram_CopyTo, Summary_CopyTo,
      mbind, Go_bind, load, assign; simpl;
    rewrite Hs; simpl; by rewrite Hd.
Qed.

(** [copyData] in one equation: the seven cases of its switch differ in
    the variant only. *)
Lemma copyData_unfold (src dest : ptr) h :
  copyData src dest h =
    (m ← load_Metric src;
     match otlpmetrics.Data m with
     | Some (k, srcData) =>
         v ← alloc (empty_variant k);
         data ← alloc (ObjOneof k v);
         s ← load_Oneof k srcData;
         d ← load_Oneof k data;
         _ ← variant_CopyTo k s d;
         assign_Data dest (Some (k, data))
     | None => mret tt
     end) h.
Proof.
  unfold copyData, mbind, Go_bind.
  destruct (load_Metric src h) as [[m h']|]; [|done].
  by destruct (otlpmetrics.Data m) as [[[] srcData]|].
Qed.

(** C8: with the data of the source nil, [copyData] leaves the whole
    store, and so the data of any destination, as it was.  With the data
    of the source a variant whose storage is allocated, [copyData] returns,
    and the data of the destination is then a new wrapper, at an address
    the store did not hold, over a new struct, at another such address,
    that holds what the struct of the source holds; nothing else
    changes. *)
Theorem copyData_spec (src dest : ptr) h ls (m : otlpmetrics.Metric) :
  src = Some ls →
  h !! ls = Some (ObjMetric m) →
  (otlpmetrics.Data m = None → copyData src dest h = Some (tt, h))
  ∧ (∀ k lw lv o ld md,
       otlpmetrics.Data m = Some (k, Some lw) →
       h !! lw = Some (ObjOneof k (Some lv)) →
       h !! lv = Some o →
       variant_of o = Some k →
       dest = Some ld →
       h !! ld = Some (ObjMetric md) →
       ∃ v d,
         copyData src dest h = Some (tt, retyped h ld md k v d o)
         ∧ h !! v = None ∧ h !! d = None ∧ v ≠ d).
Proof.
  intros -> Hls. split.
  - intros HData. rewrite copyData_unfold. unfold mbind, Go_bind.
    rewrite (load_Metric_Some _ _ _ Hls). by rewrite HData.
  - intros k lw lv o ld md HData Hlw Hlv Hk -> Hld.
    set (v := fresh (dom h)).
    set (h1 := <[v := empty_variant k]> h).
    set (d := fresh (dom h1)).
    set (h2 := <[d := ObjOneof k (Some v)]> h1).
    assert (Hv : h !! v = None) by apply fresh_lookup.
    assert (Hd1 : h1 !! d = None) by apply fresh_lookup.
    assert (Hvd : v ≠ d).
    { intros Heq. rewrite <- Heq in Hd1. unfold h1 in Hd1.
      by rewrite lookup_insert_eq in Hd1. }
    assert (Hd : h !! d = None).
    { unfold h1 in Hd1. by rewrite lookup_insert_ne in Hd1. }
    assert (Hold : ∀ l o', h !! l = Some o' → h2 !! l = Some o').
    { intros l o' Hl. unfold h2, h1.
      rewrite !lookup_insert_ne; [done | intros ->; congruence | intros ->; congruence]. }
    assert (H2d : h2 !! d = Some (ObjOneof k (Some v)))
      by (unfold h2; by rewrite lookup_insert_eq).
    assert (H2v : h2 !! v = Some (empty_variant k)).
    { unfold h2, h1. rewrite lookup_insert_ne; [|done]. by rewrite lookup_insert_eq. }
    assert (Hh3 : <[v := o]> h2 = <[d := ObjOneof k (Some v)]> (<[v := o]> h)).
    { unfold h2, h1. rewrite insert_insert_ne; [|done]. by rewrite insert_insert_eq. }
    exists v, d. split; [|done].
    rewrite copyData_unfold. unfold mbind, Go_bind.
    rewrite (load_Metric_Some _ _ _ Hls), HData.
    rewrite alloc_Some. fold v h1. rewrite alloc_Some. fold d h2.
    rewrite (load_Oneof_Some _ _ _ _ (Hold _ _ Hlw)).
    rewrite (load_Oneof_Some _ _ _ _ H2d).
    rewrite (variant_CopyTo_Some _ _ _ _ _ _ (Hold _ _ Hlv) Hk H2v).
    rewrite Hh3.
    rewrite (assign_Data_Some _ ld md).
    + done.
    + rewrite !lookup_insert_ne; [done | intros ->; congruence | intros ->; congruence].
Qed.

End CopyData.

(** ** Counting metrics and data points *)

Ltac int_consts :=
  unfold int_add, int_wrap, max_int in *;
  change (2 ^ 63) with 9223372036854775808 in *;
  change (2 ^ 64) with 18446744073709551616 in *.

Lemma int_wrap_small (z : Z) : - 2 ^ 63 ≤ z ≤ max_int → int_wrap z = z.
Proof.
  intros Hz. int_consts.
  rewrite Z.mod_small; lia.
Qed.

Lemma int_wrap_idemp (z : Z) : int_wrap (int_wrap z) = int_wrap z.
Proof.
  apply int_wrap_small. int_consts.
  pose proof (Z.mod_pos_bound (z + 9223372036854775808) 18446744073709551616). lia.
Qed.

Lemma int_add_wrap (a b : Z) : int_add (int_wrap a) b = int_wrap (a + b).
Proof.
  unfold int_add, int_wrap. f_equal.
  replace (((a + 2 ^ 63) mod 2 ^ 64 - 2 ^ 63 + b + 2 ^ 63))
    with ((a + 2 ^ 63) mod 2 ^ 64 + b) by ring.
  rewrite Zplus_mod_idemp_l. f_equal. ring.
Qed.

Lemma foldl_int_add_with {E} (f : E → Z) (c : Z) (l : list E) :
  foldl (λ a e, int_add a (f e)) (int_wrap c) l = int_wrap (c + Zsum (f <$> l)).
Proof.
  revert c. induction l as [|x l IH]; intros c.
  - simpl. by rewrite Z.add_0_r.
  - cbn [foldl]. rewrite int_add_wrap, IH, fmap_cons. f_equal.
    unfold Zsum; cbn [foldr]. lia.
Qed.

Lemma index_lookup {σ A} (s : list A) (i : nat) (a : A) :
  s !! i = Some a → index (σ := σ) s (Z.of_nat i) = mret a.
Proof.
  intros Hi. unfold index, len.
  pose proof (lookup_lt_Some _ _ _ Hi).
  rewrite bool_decide_eq_true_2 by lia.
  by rewrite Nat2Z.id, Hi.
Qed.

Section ForLoop.

Context {σ A E : Type}.

(** A loop whose bound is the length of a list the rounds do not change,
    and whose round [i] reads element [i] and folds it into the local
    variables with [g], is the left fold of [g] over the list, once the
    fuel exceeds the length.  [P] is what is known of the local variables
    all along. *)
Lemma for_loop_from (P : A → Prop) (l : list E) (bound : Go σ Z)
    (body : Z → A → Go σ A) (g : A → E → A) (s : σ) :
  bound s = Some (len l, s) →
  len l ≤ max_int →
  (∀ i e a, l !! i = Some e → P a → body (Z.of_nat i) a s = Some (g a e, s) ∧ P (g a e)) →
  ∀ fuel i a,
    (i ≤ length l)%nat → (length l - i < fuel)%nat → P a →
    for_loop fuel (Z.of_nat i) bound body a s = Some (foldl g a (drop i l), s).
Proof.
  intros Hbound Hfit Hbody fuel.
  induction fuel as [|fuel IH]; intros i a Hi Hfuel HP; [lia|].
  simpl. unfold mbind, Go_bind. rewrite Hbound. unfold len.
  destruct (decide (i < length l)%nat) as [Hlt|Hge].
  - rewrite bool_decide_eq_true_2 by lia.
    destruct (lookup_lt_is_Some_2 l i Hlt) as [e He].
    destruct (Hbody _ _ a He HP) as [Hrun HP'].
    rewrite Hrun.
    assert (Hnext : int_add (Z.of_nat i) 1 = Z.of_nat (S i)).
    { unfold int_add. rewrite int_wrap_small; unfold len in *; int_consts; lia. }
    rewrite Hnext, IH by (done || lia).
    by rewrite (drop_S _ _ _ He).
  - rewrite bool_decide_eq_false_2 by lia.
    rewrite drop_ge by lia. done.
Qed.

Lemma for_loop_list_inv (P : A → Prop) (l : list E) (bound : Go σ Z)
    (body : Z → A → Go σ A) (g : A → E → A) (s : σ) (fuel : nat) (a : A) :
  bound s = Some (len l, s) →
  len l ≤ max_int →
  (∀ i e a, l !! i = Some e → P a → body (Z.of_nat i) a s = Some (g a e, s) ∧ P (g a e)) →
  (length l < fuel)%nat →
  P a →
  for_loop fuel 0 bound body a s = Some (foldl g a l, s).
Proof.
  intros Hbound Hfit Hbody Hfuel HP.
  pose proof (for_loop_from P l bound body g s Hbound Hfit Hbody fuel 0%nat a) as Hloop.
  simpl in Hloop. apply Hloop; done || lia.
Qed.

Lemma for_loop_list (l : list E) (bound : Go σ Z) (body : Z → A → Go σ A)
    (g : A → E → A) (s : σ) (fuel : nat) (a : A) :
  bound s = Some (len l, s) →
  len l ≤ max_int →
  (∀ i e a, l !! i = Some e → body (Z.of_nat i) a s = Some (g a e, s)) →
  (length l < fuel)%nat →
  for_loop fuel 0 bound body a s = Some (foldl g a l, s).
Proof.
  intros Hbound Hfit Hbody Hfuel.
  apply (for_loop_list_inv (λ _, True)); try done.
  intros i e a' Hi _. split; [by apply Hbody|done].
Qed.

End ForLoop.

Section Reads.

Context `{OtlpLeaves}.
Implicit Types (h : store) (md : Metrics) (p : ptr).

Ltac read_struct Hdef :=
  let l := fresh "l" in
  let o := fresh "o" in
  let E := fresh "E" in
  match type of Hdef with
  | context [mbind _ ?q] => destruct q as [l|]; [|discriminate Hdef]
  end;
  simpl in Hdef; destruct (_ !! l) as [o|] eqn:E; [|discriminate Hdef];
  simpl in Hdef; destruct o; try discriminate Hdef; injection Hdef as Hdef;
  unfold mbind, Go_bind, load; simpl; rewrite E; simpl.

Lemma Metrics_ResourceMetrics_read h md rms :
  resources_of h md = Some rms →
  Metrics_ResourceMetrics md h = Some (newResourceMetricsSlice (Metrics_orig md), h).
Proof.
  unfold resources_of, Metrics_ResourceMetrics, load_Request. intros Hdef.
  by read_struct Hdef.
Qed.

Lemma ResourceMetricsSlice_Len_read h md rms :
  resources_of h md = Some rms →
  ResourceMetricsSlice_Len (newResourceMetricsSlice (Metrics_orig md)) h
  = Some (len rms, h).
Proof.
  unfold resources_of, ResourceMetricsSlice_Len, load_Request. intros Hdef.
  read_struct Hdef. by rewrite Hdef.
Qed.

Lemma ResourceMetricsSlice_At_read h md rms (i : nat) p :
  resources_of h md = Some rms → rms !! i = Some p →
  ResourceMetricsSlice_At (newResourceMetricsSlice (Metrics_orig md)) (Z.of_nat i) h
  = Some (newResourceMetrics p, h).
Proof.
  unfold resources_of, ResourceMetricsSlice_At, load_Request. intros Hdef Hi.
  read_struct Hdef. rewrite Hdef. by rewrite (index_lookup _ _ _ Hi).
Qed.

Lemma ResourceMetrics_InstrumentationLibraryMetrics_read h p ilms :
  scopes_of h p = Some ilms →
  ResourceMetrics_InstrumentationLibraryMetrics (newResourceMetrics p) h
  = Some (newInstrumentationLibraryMetricsSlice p, h).
Proof.
  unfold scopes_of, ResourceMetrics_InstrumentationLibraryMetrics, load_ResourceMetrics.
  intros Hdef. by read_struct Hdef.
Qed.

Lemma InstrumentationLibraryMetricsSlice_Len_read h p ilms :
  scopes_of h p = Some ilms →
  InstrumentationLibraryMetricsSlice_Len (newInstrumentationLibraryMetricsSlice p) h
  = Some (len ilms, h).
Proof.
  unfold scopes_of, InstrumentationLibraryMetricsSlice_Len, load_ResourceMetrics.
  intros Hdef. read_struct Hdef. by rewrite Hdef.
Qed.

Lemma InstrumentationLibraryMetricsSlice_At_read h p ilms (i : nat) q :
  scopes_of h p = Some ilms → ilms !! i = Some q →
  InstrumentationLibraryMetricsSlice_At (newInstrumentationLibraryMetricsSlice p)
    (Z.of_nat i) h
  = Some (newInstrumentationLibraryMetrics q, h).
Proof.
  unfold scopes_of, InstrumentationLibraryMetricsSlice_At, load_ResourceMetrics.
  intros Hdef Hi. read_struct Hdef. rewrite Hdef. by rewrite (index_lookup _ _ _ Hi).
Qed.

Lemma InstrumentationLibraryMetrics_Metrics_read h p ms :
  metrics_of h p = Some ms →
  InstrumentationLibraryMetrics_Metrics (newInstrumentationLibraryMetrics p) h
  = Some (newMetricSlice p, h).
Proof.
  unfold metrics_of, InstrumentationLibraryMetrics_Metrics,
    load_InstrumentationLibraryMetrics.
  intros Hdef. by read_struct Hdef.
Qed.

Lemma MetricSlice_Len_read h p ms :
  metrics_of h p = Some ms →
  MetricSlice_Len (newMetricSlice p) h = Some (len ms, h).
Proof.
  unfold metrics_of, MetricSlice_Len, load_InstrumentationLibraryMetrics.
  intros Hdef. read_struct Hdef. by rewrite Hdef.
Qed.

Lemma MetricSlice_At_read h p ms (i : nat) q :
  metrics_of h p = Some ms → ms !! i = Some q →
  MetricSlice_At (newMetricSlice p) (Z.of_nat i) h = Some (newMetric q, h).
Proof.
  unfold metrics_of, MetricSlice_At, load_InstrumentationLibraryMetrics.
  intros Hdef Hi. read_struct Hdef. rewrite Hdef. by rewrite (index_lookup _ _ _ Hi).
Qed.

End Reads.

Lemma foldl_wrap_Forall2 {E} (g : Z → E → Z) (l : list E) (xs : list Z) :
  Forall2 (λ e x, ∀ c, g (int_wrap c) e = int_wrap (c + x)) l xs →
  ∀ c, foldl g (int_wrap c) l = int_wrap (c + Zsum xs).
Proof.
  induction 1 as [|e x l xs Hex _ IH]; intros c.
  - simpl. by rewrite Z.add_0_r.
  - cbn [foldl]. rewrite Hex, IH. f_equal. unfold Zsum; cbn [foldr]. lia.
Qed.

Lemma Zsum_nonneg (xs : list Z) : Forall (λ x, 0 ≤ x) xs → 0 ≤ Zsum xs.
Proof. induction 1; unfold Zsum in *; simpl; lia. Qed.

Lemma Zsum_const {E} (f : E → Z) (l : list E) (x : Z) :
  Forall (λ e, f e = x) l → Zsum (f <$> l) = Z.of_nat (length l) * x.
Proof.
  induction 1 as [|e l He _ IH]; [done|].
  rewrite fmap_cons. unfold Zsum in *. cbn [foldr length]. lia.
Qed.

Section Longest.

Context {A : Type}.
Implicit Types (t : list (list (list A))) (scopes : list (list A)).

Lemma longest_resources t : (length t ≤ longest t)%nat.
Proof. unfold longest. lia. Qed.

Lemma longest_scopes t scopes : scopes ∈ t → (length scopes ≤ longest t)%nat.
Proof.
  intros Hin. unfold longest.
  pose proof (max_list_elem_of_le
    (max (length scopes) (max_list (length <$> scopes)))
    ((λ scopes, max (length scopes) (max_list (length <$> scopes))) <$> t)) as Hle.
  assert (Hmem : max (length scopes) (max_list (length <$> scopes))
                 ∈ (λ scopes, max (length scopes) (max_list (length <$> scopes))) <$> t).
  { apply list_elem_of_fmap. by exists scopes. }
  specialize (Hle Hmem). lia.
Qed.

Lemma longest_metrics t scopes (ms : list A) :
  scopes ∈ t → ms ∈ scopes → (length ms ≤ longest t)%nat.
Proof.
  intros Hin Hms. unfold longest.
  pose proof (max_list_elem_of_le
    (max (length scopes) (max_list (length <$> scopes)))
    ((λ scopes, max (length scopes) (max_list (length <$> scopes))) <$> t)) as Hle.
  assert (Hmem : max (length scopes) (max_list (length <$> scopes))
                 ∈ (λ scopes, max (length scopes) (max_list (length <$> scopes))) <$> t).
  { apply list_elem_of_fmap. by exists scopes. }
  specialize (Hle Hmem).
  pose proof (max_list_elem_of_le (length ms) (length <$> scopes)) as Hle2.
  assert (Hmem2 : length ms ∈ length <$> scopes).
  { apply list_elem_of_fmap. by exists ms. }
  specialize (Hle2 Hmem2). lia.
Qed.

End Longest.

Section Counting.

Context `{OtlpLeaves}.
Implicit Types (h : store) (md : Metrics) (p : ptr) (t : list (list (list ptr))).

(** What [tree_of] being defined says of the store. *)
Lemma tree_of_Some h md t :
  tree_of h md = Some t →
  ∃ rms, resources_of h md = Some rms
    ∧ Forall2 (λ rm scopes, ∃ ilms, scopes_of h rm = Some ilms
                 ∧ Forall2 (λ ilm ms, metrics_of h ilm = Some ms) ilms scopes) rms t.
Proof.
  unfold tree_of. intros Ht.
  destruct (resources_of h md) as [rms|]; [|discriminate Ht]. simpl in Ht.
  exists rms. split; [done|].
  apply mapM_Some in Ht.
  eapply Forall2_impl; [exact Ht|].
  intros rm scopes Hrm. simpl in Hrm.
  destruct (scopes_of h rm) as [ilms|]; [|discriminate Hrm]. simpl in Hrm.
  exists ilms. split; [done|]. by apply mapM_Some.
Qed.

(** One round of the inner loop of [MetricCount]. *)
Lemma MetricCount_scope h p ilms (i : nat) q ms (a : Z) :
  scopes_of h p = Some ilms → ilms !! i = Some q → metrics_of h q = Some ms →
  (ilm ← InstrumentationLibraryMetricsSlice_At
            (newInstrumentationLibraryMetricsSlice p) (Z.of_nat i);
   ms ← InstrumentationLibraryMetrics_Metrics ilm;
   n ← MetricSlice_Len ms;
   mret (int_add a n)) h = Some (int_add a (len ms), h).
Proof.
  intros Hp Hi Hq. unfold mbind, Go_bind.
  rewrite (InstrumentationLibraryMetricsSlice_At_read _ _ _ _ _ Hp Hi).
  rewrite (InstrumentationLibraryMetrics_Metrics_read _ _ _ Hq).
  by rewrite (MetricSlice_Len_read _ _ _ Hq).
Qed.

(** The inner loop of [MetricCount] over the scopes of a resource. *)
Lemma MetricCount_resource h p ilms (scopes : list (list ptr)) (fuel : nat) (a : Z) :
  scopes_of h p = Some ilms →
  Forall2 (λ ilm ms, metrics_of h ilm = Some ms) ilms scopes →
  len scopes ≤ max_int → (length scopes < fuel)%nat →
  for_loop fuel 0
    (InstrumentationLibraryMetricsSlice_Len (newInstrumentationLibraryMetricsSlice p))
    (λ j metricCount,
       ilm ← InstrumentationLibraryMetricsSlice_At
                (newInstrumentationLibraryMetricsSlice p) j;
       ms ← InstrumentationLibraryMetrics_Metrics ilm;
       n ← MetricSlice_Len ms;
       mret (int_add metricCount n)) a h
  = Some (foldl (λ a ms, int_add a (len ms)) a scopes, h).
Proof.
  intros Hp Hall Hfit Hfuel.
  pose proof (Forall2_length _ _ _ Hall) as Hlen.
  rewrite (for_loop_list ilms _ _
             (λ a q, int_add a (len (default [] (metrics_of h q)))) h fuel a).
  - f_equal. f_equal. clear Hp Hfit Hfuel Hlen. revert a.
    induction Hall as [|q ms ilms scopes Hq _ IH]; intros a; [done|].
    cbn [foldl]. rewrite Hq. simpl default. apply IH.
  - by apply InstrumentationLibraryMetricsSlice_Len_read.
  - unfold len in *. lia.
  - intros i q a' Hi.
    destruct (Forall2_lookup_l _ _ _ _ _ Hall Hi) as (ms & _ & Hq).
    rewrite (MetricCount_scope _ _ _ _ _ _ _ Hp Hi Hq). by rewrite Hq.
  - lia.
Qed.

Lemma metric_total_nonneg t : 0 ≤ metric_total t.
Proof.
  unfold metric_total. apply Zsum_nonneg, Forall_fmap, Forall_forall.
  intros scopes _. simpl. apply Zsum_nonneg, Forall_fmap, Forall_forall.
  intros ms _. simpl. unfold len. lia.
Qed.

Lemma metric_total_regular (R S M : nat) t :
  regular R S M t → metric_total t = Z.of_nat (R * S * M).
Proof.
  intros [HR Hall]. unfold metric_total.
  rewrite (Zsum_const _ t (Z.of_nat (S * M))).
  - rewrite HR. lia.
  - eapply Forall_impl; [exact Hall|]. intros scopes [HS HM]. simpl.
    rewrite (Zsum_const _ scopes (Z.of_nat M)).
    + rewrite HS. lia.
    + eapply Forall_impl; [exact HM|]. intros ms Hms. simpl. unfold len. by rewrite Hms.
Qed.

(** [MetricCount] run on a store that holds the tree [t]. *)
Lemma MetricCount_total (fuel : nat) md h t :
  tree_of h md = Some t →
  slices_fit t →
  (longest t < fuel)%nat →
  MetricCount fuel md h = Some (int_wrap (metric_total t), h).
Proof.
  intros Ht [Hfit Hfits] Hfuel.
  destruct (tree_of_Some _ _ _ Ht) as (rms & Hrms & Hall).
  pose proof (Forall2_length _ _ _ Hall) as Hlen.
  unfold MetricCount, mbind at 1, Go_bind at 1.
  rewrite (Metrics_ResourceMetrics_read _ _ _ Hrms).
  rewrite (for_loop_list rms _ _
             (λ a rm, foldl (λ a ms, int_add a (len ms)) a
                        (default [] (ilms ← scopes_of h rm; mapM (metrics_of h) ilms)))
             h fuel 0).
  - f_equal. f_equal.
    change 0 with (int_wrap 0) at 1.
    rewrite (foldl_wrap_Forall2 _ rms ((λ scopes, Zsum (len <$> scopes)) <$> t)); [done|].
    apply Forall2_fmap_r.
    eapply Forall2_impl; [exact Hall|].
    intros rm scopes (ilms & Hrm & Hms) c. simpl.
    rewrite Hrm. simpl. apply mapM_Some in Hms. rewrite Hms. simpl.
    apply foldl_int_add_with.
  - by apply ResourceMetricsSlice_Len_read.
  - unfold len in *. lia.
  - intros i rm a Hi.
    destruct (Forall2_lookup_l _ _ _ _ _ Hall Hi) as (scopes & Hscopes & ilms & Hrm & Hms).
    unfold mbind at 1, Go_bind at 1.
    rewrite (ResourceMetricsSlice_At_read _ _ _ _ _ Hrms Hi).
    unfold mbind at 1, Go_bind at 1.
    rewrite (ResourceMetrics_InstrumentationLibraryMetrics_read _ _ _ Hrm).
    assert (Hin : scopes ∈ t) by (eapply list_elem_of_lookup_2; exact Hscopes).
    rewrite (MetricCount_resource h rm ilms scopes fuel a Hrm Hms).
    + rewrite Hrm. simpl. apply mapM_Some in Hms. by rewrite Hms.
    + rewrite Forall_forall in Hfits. by destruct (Hfits _ Hin).
    + pose proof (longest_scopes _ _ Hin). lia.
  - pose proof (longest_resources t). lia.
Qed.

(** C5: on a store that holds the tree [t] under [md], with slices whose
    lengths are [int]s and fuel beyond the longest slice, [MetricCount]
    returns, leaves the store as it was, and its result is the sum of the
    metric-slice lengths over every resource and scope, taken as an [int];
    it is that sum itself when the sum is an [int]; and the sum is
    [R * S * M] for a tree of [R] resources with [S] scopes each and [M]
    metrics in each scope. *)
Theorem MetricCount_spec (fuel : nat) md h t :
  tree_of h md = Some t →
  slices_fit t →
  (longest t < fuel)%nat →
  MetricCount fuel md h = Some (int_wrap (metric_total t), h)
  ∧ (metric_total t ≤ max_int → MetricCount fuel md h = Some (metric_total t, h))
  ∧ (∀ R S M : nat, regular R S M t →
       metric_total t ≤ max_int →
       MetricCount fuel md h = Some (Z.of_nat (R * S * M), h)).
Proof.
  intros Ht Hfits Hfuel.
  pose proof (MetricCount_total fuel md h t Ht Hfits Hfuel) as Hcount.
  split; [done|].
  assert (Hsmall : metric_total t ≤ max_int →
                   MetricCount fuel md h = Some (metric_total t, h)).
  { intros Hle. rewrite Hcount, int_wrap_small; [done|].
    pose proof (metric_total_nonneg t). int_consts. lia. }
  split; [done|].
  intros R S M Hreg Hle. rewrite <- (metric_total_regular _ _ _ _ Hreg). by apply Hsmall.
Qed.

End Counting.

Lemma foldl_wrap2_Forall2 {E} (g : Z * Z → E → Z * Z) (l : list E) (xs : list (Z * Z)) :
  Forall2 (λ e x, ∀ c1 c2, g (int_wrap c1, int_wrap c2) e
                           = (int_wrap (c1 + x.1), int_wrap (c2 + x.2))) l xs →
  ∀ c1 c2, foldl g (int_wrap c1, int_wrap c2) l
           = (int_wrap (c1 + Zsum (fst <$> xs)), int_wrap (c2 + Zsum (snd <$> xs))).
Proof.
  induction 1 as [|e x l xs Hex _ IH]; intros c1 c2.
  - simpl. by rewrite !Z.add_0_r.
  - cbn [foldl]. rewrite Hex, IH, !fmap_cons. unfold Zsum; cbn [foldr].
    f_equal; f_equal; lia.
Qed.

Section DataPoints.

Context `{OtlpLeaves}.
Implicit Types (h : store) (md : Metrics) (p q : ptr) (t : list (list (list ptr))).

(** What [points_at] being defined says of the store. *)
Lemma points_at_Some h q n :
  points_at h q = Some n →
  ∃ l m, q = Some l ∧ h !! l = Some (ObjMetric m)
    ∧ ((otlpmetrics.Data m = None ∧ n = 0)
       ∨ ∃ k ld lv s,
           otlpmetrics.Data m = Some (k, Some ld)
           ∧ h !! ld = Some (ObjOneof k (Some lv))
           ∧ h !! lv = Some s
           ∧ variant_of s = Some k
           ∧ n = points_of s).
Proof.
  unfold points_at. intros Hn.
  destruct q as [l|]; [|discriminate Hn]. simpl in Hn.
  destruct (h !! l) as [o|] eqn:El; [|discriminate Hn]. simpl in Hn.
  destruct o as [| | |m| | | | | | | |]; try discriminate Hn.
  exists l, m. split; [done|]. split; [done|].
  destruct (otlpmetrics.Data m) as [[k [ld|]]|]; [| discriminate Hn | left; by injection Hn].
  simpl in Hn. destruct (h !! ld) as [w|] eqn:Eld; [|discriminate Hn]. simpl in Hn.
  destruct w as [| | | |k' [lv|]| | | | | | |]; try discriminate Hn.
  simpl in Hn. destruct (h !! lv) as [s|] eqn:Elv; [|discriminate Hn]. simpl in Hn.
  case_bool_decide as Hk; [|discriminate Hn]. destruct Hk as [-> Hs].
  right. exists k, ld, lv, s. by injection Hn.
Qed.

(** A metric with the discriminant [None] has no data points. *)
Lemma points_at_None h l (m : otlpmetrics.Metric) :
  h !! l = Some (ObjMetric m) → otlpmetrics.Data m = None →
  points_at h (Some l) = Some 0.
Proof. intros Hl Hd. unfold points_at. simpl. rewrite Hl. simpl. by rewrite Hd. Qed.

(** The switch of [MetricAndDataPointCount] on one metric. *)
Lemma data_point_switch h q n (dataPointCount : Z) :
  points_at h q = Some n →
  int_wrap dataPointCount = dataPointCount →
  (ty ← Metric_DataType (newMetric q);
   match ty with
   | 1 =>
       v ← Metric_IntGauge (newMetric q); dps ← IntGauge_DataPoints v;
       n ← IntDataPointSlice_Len dps; mret (int_add dataPointCount n)
   | 2 =>
       v ← Metric_DoubleGauge (newMetric q); dps ← DoubleGauge_DataPoints v;
       n ← DoubleDataPointSlice_Len dps; mret (int_add dataPointCount n)
   | 3 =>
       v ← Metric_IntSum (newMetric q); dps ← IntSum_DataPoints v;
       n ← IntDataPointSlice_Len dps; mret (int_add dataPointCount n)
   | 4 =>
       v ← Metric_DoubleSum (newMetric q); dps ← DoubleSum_DataPoints v;
       n ← DoubleDataPointSlice_Len dps; mret (int_add dataPointCount n)
   | 5 =>
       v ← Metric_IntHistogram (newMetric q); dps ← IntHistogram_DataPoints v;
       n ← IntHistogramDataPointSlice_Len dps; mret (int_add dataPointCount n)
   | 6 =>
       v ← Metric_Histogram (newMetric q); dps ← Histogram_DataPoints v;
       n ← HistogramDataPointSlice_Len dps; mret (int_add dataPointCount n)
   | 7 =>
       v ← Metric_Summary (newMetric q); dps ← Summary_DataPoints v;
       n ← SummaryDataPointSlice_Len dps; mret (int_add dataPointCount n)
   | _ => mret dataPointCount
   end) h
  = Some (int_add dataPointCount n, h).
Proof.
  intros Hn Hwrapped.
  destruct (points_at_Some _ _ _ Hn) as (l & m & -> & Hl & Hcases).
  unfold mbind at 1, Go_bind at 1.
  rewrite (Metric_DataType_Some _ _ _ Hl).
  destruct Hcases as [[Hd ->]|(k & ld & lv & s & Hd & Hld & Hlv & Hk & ->)].
  - rewrite Hd. simpl. unfold int_add. by rewrite Z.add_0_r, Hwrapped.
  - rewrite Hd.
    destruct s; try discriminate Hk; injection Hk as <-; simpl;
      unfold Metric_IntGauge, Metric_DoubleGauge, Metric_IntSum, Metric_DoubleSum,
        Metric_IntHistogram, Metric_Histogram, Metric_Summary,
        IntGauge_DataPoints, DoubleGauge_DataPoints, IntSum_DataPoints,
        DoubleSum_DataPoints, IntHistogram_DataPoints, Histogram_DataPoints,
        Summary_DataPoints, IntDataPointSlice_Len, DoubleDataPointSlice_Len,
        IntHistogramDataPointSlice_Len, HistogramDataPointSlice_Len,
        SummaryDataPointSlice_Len, load_Metric, load_Oneof, assert_Oneof,
        mbind, Go_bind, load; simpl;
      rewrite Hl; simpl; rewrite Hd; simpl; rewrite Hld; simpl; rewrite Hlv; simpl;
      rewrite ?Hlv; done.
Qed.

End DataPoints.

Lemma foldl_invariant {A E} (P : A → Prop) (g : A → E → A) (l : list E) (a : A) :
  (∀ a e, P a → P (g a e)) → P a → P (foldl g a l).
Proof. intros Hg. revert a. induction l as [|e l IH]; intros a Ha; simpl; auto. Qed.

Section DataPointCount.

Context `{OtlpLeaves}.
Implicit Types (h : store) (md : Metrics) (p q : ptr) (t : list (list (list ptr))).

Lemma add_metric_wrapped h a m : int_wrap (add_metric h a m) = add_metric h a m.
Proof. apply int_wrap_idemp. Qed.

Lemma add_scope_wrapped h a q : wrapped2 a → wrapped2 (add_scope h a q).
Proof.
  intros [H1 H2]. split; simpl.
  - apply int_wrap_idemp.
  - apply (foldl_invariant (λ a, int_wrap a = a)); [|done].
    intros a' m _. apply add_metric_wrapped.
Qed.

Lemma add_resource_wrapped h a rm : wrapped2 a → wrapped2 (add_resource h a rm).
Proof.
  intros Ha. unfold add_resource.
  apply foldl_invariant; [|done]. intros. by apply add_scope_wrapped.
Qed.

Lemma add_scope_total h q ms c1 c2 :
  metrics_of h q = Some ms →
  add_scope h (int_wrap c1, int_wrap c2) q
  = (int_wrap (c1 + len ms),
     int_wrap (c2 + Zsum ((λ m, default 0 (points_at h m)) <$> ms))).
Proof.
  intros Hq. unfold add_scope. rewrite Hq. simpl. f_equal.
  - apply int_add_wrap.
  - apply (foldl_int_add_with (λ m, default 0 (points_at h m))).
Qed.

Lemma add_resource_total h rm ilms (scopes : list (list ptr)) c1 c2 :
  scopes_of h rm = Some ilms →
  Forall2 (λ ilm ms, metrics_of h ilm = Some ms) ilms scopes →
  add_resource h (int_wrap c1, int_wrap c2) rm
  = (int_wrap (c1 + Zsum (len <$> scopes)),
     int_wrap (c2 + Zsum ((λ ms, Zsum ((λ m, default 0 (points_at h m)) <$> ms))
                           <$> scopes))).
Proof.
  intros Hrm Hall. unfold add_resource. rewrite Hrm. simpl.
  rewrite (foldl_wrap2_Forall2 _ ilms
    ((λ ms, (len ms, Zsum ((λ m, default 0 (points_at h m)) <$> ms))) <$> scopes)).
  - by rewrite <- !list_fmap_compose.
  - apply Forall2_fmap_r. eapply Forall2_impl; [exact Hall|].
    intros q ms Hq c1' c2'. by apply add_scope_total.
Qed.

Lemma points_at_nonneg h q : 0 ≤ default 0 (points_at h q).
Proof.
  destruct (points_at h q) as [n|] eqn:Hn; [|done]. simpl.
  destruct (points_at_Some _ _ _ Hn) as (l & m & _ & _ & Hcases).
  destruct Hcases as [[_ ->]|(k & ld & lv & s & _ & _ & _ & _ & ->)]; [done|].
  destruct s; simpl; unfold len; lia.
Qed.

Lemma point_total_nonneg h t : 0 ≤ point_total h t.
Proof.
  unfold point_total. apply Zsum_nonneg, Forall_fmap, Forall_forall.
  intros scopes _. simpl. apply Zsum_nonneg, Forall_fmap, Forall_forall.
  intros ms _. simpl. apply Zsum_nonneg, Forall_fmap, Forall_forall.
  intros m _. apply points_at_nonneg.
Qed.

(** C6: on a store that holds the tree [t] under [md], with every metric
    and the storage of its variant allocated, slices whose lengths are
    [int]s and fuel beyond the longest slice, [MetricAndDataPointCount]
    returns and leaves the store as it was; its metric count is the result
    of [MetricCount]; its data-point count is the sum, over every metric
    of the tree, of the number of data points of the metric's active
    variant, taken as an [int]; both are the sums themselves when the
    sums are [int]s; and a metric with the discriminant [None] has 0 data
    points in that sum. *)
Theorem MetricAndDataPointCount_spec (fuel : nat) md h t :
  tree_of h md = Some t →
  metrics_allocated h t →
  slices_fit t →
  (longest t < fuel)%nat →
  MetricAndDataPointCount fuel md h
    = Some ((int_wrap (metric_total t), int_wrap (point_total h t)), h)
  ∧ MetricCount fuel md h = Some (int_wrap (metric_total t), h)
  ∧ (metric_total t ≤ max_int → point_total h t ≤ max_int →
     MetricAndDataPointCount fuel md h = Some ((metric_total t, point_total h t), h))
  ∧ (∀ l (m : otlpmetrics.Metric),
       h !! l = Some (ObjMetric m) →
       Metric_DataType (newMetric (Some l)) h = Some (MetricDataTypeNone, h) →
       points_at h (Some l) = Some 0).
Proof.
  intros Ht Halloc Hfits Hfuel.
  pose proof (MetricCount_total fuel md h t Ht Hfits Hfuel) as Hcount.
  destruct Hfits as [Hfit Hfits].
  destruct (tree_of_Some _ _ _ Ht) as (rms & Hrms & Hall).
  pose proof (Forall2_length _ _ _ Hall) as Hlen.
  assert (Hboth : MetricAndDataPointCount fuel md h
                  = Some ((int_wrap (metric_total t), int_wrap (point_total h t)), h)).
  { unfold MetricAndDataPointCount, mbind at 1, Go_bind at 1.
    rewrite (Metrics_ResourceMetrics_read _ _ _ Hrms).
    rewrite (for_loop_list_inv wrapped2 rms _ _ (add_resource h) h fuel (0, 0)).
    - f_equal. f_equal.
      change (0, 0) with (int_wrap 0, int_wrap 0).
      rewrite (foldl_wrap2_Forall2 _ rms
        ((λ scopes, (Zsum (len <$> scopes),
                     Zsum ((λ ms, Zsum ((λ m, default 0 (points_at h m)) <$> ms))
                           <$> scopes))) <$> t)).
      + by rewrite <- !list_fmap_compose.
      + apply Forall2_fmap_r. eapply Forall2_impl; [exact Hall|].
        intros rm scopes (ilms & Hrm & Hms) c1 c2. by apply add_resource_total with ilms.
    - by apply ResourceMetricsSlice_Len_read.
    - unfold len in *. lia.
    - intros i rm a Hi Ha. split; [|by apply add_resource_wrapped].
      destruct (Forall2_lookup_l _ _ _ _ _ Hall Hi) as (scopes & Hscopes & ilms & Hrm & Hms).
      assert (Hin : scopes ∈ t) by (eapply list_elem_of_lookup_2; exact Hscopes).
      pose proof (Forall2_length _ _ _ Hms) as Hlen2.
      rewrite Forall_forall in Hfits. destruct (Hfits _ Hin) as [Hfit2 Hfits2].
      unfold metrics_allocated in Halloc. rewrite Forall_forall in Halloc.
      specialize (Halloc _ Hin).
      unfold mbind at 1, Go_bind at 1.
      rewrite (ResourceMetricsSlice_At_read _ _ _ _ _ Hrms Hi).
      unfold mbind at 1, Go_bind at 1.
      rewrite (ResourceMetrics_InstrumentationLibraryMetrics_read _ _ _ Hrm).
      rewrite (for_loop_list_inv wrapped2 ilms _ _ (add_scope h) h fuel a).
      + unfold add_resource. by rewrite Hrm.
      + by apply InstrumentationLibraryMetricsSlice_Len_read.
      + unfold len in *. lia.
      + intros j q [metricCount dataPointCount] Hj Hw.
        split; [|by apply add_scope_wrapped].
        destruct (Forall2_lookup_l _ _ _ _ _ Hms Hj) as (ms & Hmsj & Hq).
        assert (Hin2 : ms ∈ scopes) by (eapply list_elem_of_lookup_2; exact Hmsj).
        rewrite Forall_forall in Hfits2. specialize (Hfits2 _ Hin2).
        rewrite Forall_forall in Halloc. specialize (Halloc _ Hin2).
        unfold mbind at 1, Go_bind at 1.
        rewrite (InstrumentationLibraryMetricsSlice_At_read _ _ _ _ _ Hrm Hj).
        unfold mbind at 1, Go_bind at 1.
        rewrite (InstrumentationLibraryMetrics_Metrics_read _ _ _ Hq).
        unfold mbind at 1, Go_bind at 1.
        rewrite (MetricSlice_Len_read _ _ _ Hq).
        unfold mbind at 1, Go_bind at 1.
        rewrite (InstrumentationLibraryMetrics_Metrics_read _ _ _ Hq).
        unfold mbind at 1, Go_bind at 1.
        rewrite (for_loop_list_inv (λ a, int_wrap a = a) ms _ _ (add_metric h) h fuel
                   dataPointCount).
        * unfold add_scope. simpl. by rewrite Hq.
        * by apply MetricSlice_Len_read.
        * done.
        * intros k m dc Hk Hdc. split; [|by apply add_metric_wrapped].
          unfold mbind at 1, Go_bind at 1.
          rewrite (MetricSlice_At_read _ _ _ _ _ Hq Hk).
          assert (Hm : m ∈ ms) by (eapply list_elem_of_lookup_2; exact Hk).
          rewrite Forall_forall in Halloc. destruct (Halloc _ Hm) as [n Hn].
          rewrite (data_point_switch h m n dc Hn Hdc).
          unfold add_metric. by rewrite Hn.
        * pose proof (longest_metrics _ _ _ Hin Hin2). lia.
        * by destruct Hw.
      + pose proof (longest_scopes _ _ Hin). lia.
      + done.
    - pose proof (longest_resources t). lia.
    - by split. }
  split; [done|]. split; [done|]. split.
  - intros Hle1 Hle2. rewrite Hboth, !int_wrap_small; [done | |].
    + pose proof (point_total_nonneg h t). int_consts. lia.
    + pose proof (metric_total_nonneg t). int_consts. lia.
  - intros l m Hl Hty.
    rewrite (Metric_DataType_Some _ _ _ Hl) in Hty.
    apply points_at_None with m; [done|].
    destruct (otlpmetrics.Data m) as [[k d]|]; [|done].
    injection Hty as Hty. simpl in Hty. by destruct (oneof_DataType_defined k).
Qed.

End DataPointCount.

(** ** The theorems at the stores of the examples *)

Lemma tree_shape_fits : slices_fit tree_shape.
Proof.
  unfold slices_fit, tree_shape.
  split; [by vm_compute|].
  apply Forall_forall. intros scopes Hin.
  apply elem_of_replicate in Hin as [-> _].
  split; [by vm_compute|].
  apply Forall_forall. intros ms Hms.
  apply elem_of_replicate in Hms as [-> _].
  by vm_compute.
Defined.

Lemma tree_store_allocated : metrics_allocated tree_store tree_shape.
Proof.
  unfold metrics_allocated, tree_shape.
  apply Forall_forall. intros scopes Hin.
  apply elem_of_replicate in Hin as [-> _].
  apply Forall_forall. intros ms Hms.
  apply elem_of_replicate in Hms as [-> _].
  apply Forall_cons; split; [by exists 2|].
  apply Forall_cons; split; [by exists 0|].
  apply Forall_cons; split; [by exists 3|].
  by apply Forall_nil.
Defined.

(** C5 at [tree_store]: two resources of two scopes of three metrics. *)
Lemma MetricCount_spec_witness :
  tree_of tree_store tree_metrics = Some tree_shape
  ∧ (longest tree_shape < 4)%nat
  ∧ MetricCount 4 tree_metrics tree_store = Some (int_wrap (metric_total tree_shape), tree_store)
  ∧ (metric_total tree_shape ≤ max_int →
     MetricCount 4 tree_metrics tree_store = Some (metric_total tree_shape, tree_store))
  ∧ (∀ R S M : nat, regular R S M tree_shape →
       metric_total tree_shape ≤ max_int →
       MetricCount 4 tree_metrics tree_store = Some (Z.of_nat (R * S * M), tree_store)).
Proof.
  assert (Ht : tree_of tree_store tree_metrics = Some tree_shape) by reflexivity.
  assert (Hfuel : (longest tree_shape < 4)%nat) by (vm_compute; lia).
  split; [exact Ht|]. split; [exact Hfuel|].
  exact (MetricCount_spec 4 tree_metrics tree_store tree_shape Ht tree_shape_fits Hfuel).
Defined.

(** C6 at [tree_store]: twelve metrics and twenty data points. *)
Lemma MetricAndDataPointCount_spec_witness :
  tree_of tree_store tree_metrics = Some tree_shape
  ∧ (longest tree_shape < 4)%nat
  ∧ MetricAndDataPointCount 4 tree_metrics tree_store
    = Some ((int_wrap (metric_total tree_shape), int_wrap (point_total tree_store tree_shape)),
            tree_store)
  ∧ MetricCount 4 tree_metrics tree_store = Some (int_wrap (metric_total tree_shape), tree_store)
  ∧ (metric_total tree_shape ≤ max_int → point_total tree_store tree_shape ≤ max_int →
     MetricAndDataPointCount 4 tree_metrics tree_store
     = Some ((metric_total tree_shape, point_total tree_store tree_shape), tree_store))
  ∧ (∀ l (m : otlpmetrics.Metric),
       tree_store !! l = Some (ObjMetric m) →
       Metric_DataType (newMetric (Some l)) tree_store = Some (MetricDataTypeNone, tree_store) →
       points_at tree_store (Some l) = Some 0).
Proof.
  assert (Ht : tree_of tree_store tree_metrics = Some tree_shape) by reflexivity.
  assert (Hfuel : (longest tree_shape < 4)%nat) by (vm_compute; lia).
  split; [exact Ht|]. split; [exact Hfuel|].
  exact (MetricAndDataPointCount_spec 4 tree_metrics tree_store tree_shape Ht
           tree_store_allocated tree_shape_fits Hfuel).
Defined.

Example tree_store_totals :
  metric_total tree_shape = 12 ∧ point_total tree_store tree_shape = 20
  ∧ regular 2 2 3 tree_shape.
Proof.
  split; [reflexivity|]. split; [reflexivity|].
  unfold regular, tree_shape. simpl. split; [done|]. repeat constructor.
Qed.

(** C8 at [gauge_store], from the metric at 1 to the metric at 4. *)
Lemma copyData_spec_witness :
  (otlpmetrics.Data {| otlpmetrics.Name := "requests"; otlpmetrics.Description := "";
                       otlpmetrics.Unit := "1";
                       otlpmetrics.Data := Some (otlpmetrics.Metric_IntGauge, Some 2%positive) |}
     = None →
   copyData (Some 1%positive) (Some 4%positive) gauge_store = Some (tt, gauge_store))
  ∧ (∀ k lw lv o ld md,
       Some (otlpmetrics.Metric_IntGauge, Some 2%positive) = Some (k, Some lw) →
       gauge_store !! lw = Some (ObjOneof k (Some lv)) →
       gauge_store !! lv = Some o →
       variant_of o = Some k →
       Some 4%positive = Some ld →
       gauge_store !! ld = Some (ObjMetric md) →
       ∃ v d,
         copyData (Some 1%positive) (Some 4%positive) gauge_store
           = Some (tt, retyped gauge_store ld md k v d o)
         ∧ gauge_store !! v = None ∧ gauge_store !! d = None ∧ v ≠ d).
Proof.
  apply (copyData_spec (Some 1%positive) (Some 4%positive) gauge_store 1%positive
           {| otlpmetrics.Name := "requests"; otlpmetrics.Description := "";
              otlpmetrics.Unit := "1";
              otlpmetrics.Data := Some (otlpmetrics.Metric_IntGauge, Some 2%positive) |});
    reflexivity.
Defined.

(** [copyData] run both ways on [gauge_store]: from the gauge at 1 to the
    empty metric at 4, which then has a gauge of its own with the same two
    data points at new addresses; and from the empty metric at 4 to the
    gauge at 1, which keeps its gauge. *)
Example copyData_gauge_to_empty :
  ∃ h',
    copyData (Some 1%positive) (Some 4%positive) gauge_store = Some (tt, h')
    ∧ h' = retyped gauge_store 4%positive otlpmetrics.Metric_zero otlpmetrics.Metric_IntGauge
             5%positive 6%positive (ObjIntGauge (@otlpmetrics.Build_IntGauge Z_leaves [10; 20]))
    ∧ Metric_DataType (newMetric (Some 4%positive)) h' = Some (MetricDataTypeIntGauge, h')
    ∧ points_at h' (Some 4%positive) = Some 2
    ∧ points_at h' (Some 1%positive) = Some 2.
Proof. eexists. split; [reflexivity|]. repeat split; by vm_compute. Qed.

Example copyData_empty_to_gauge :
  copyData (Some 4%positive) (Some 1%positive) gauge_store = Some (tt, gauge_store)
  ∧ Metric_DataType (newMetric (Some 1%positive)) gauge_store
    = Some (MetricDataTypeIntGauge, gauge_store).
Proof. split; reflexivity. Qed.

(** [SetDataType] run on the gauge of [gauge_store] for the discriminant
    [Summary]: the metric then has a summary with no data points. *)
Example Metric_SetDataType_retype :
  ∃ h',
    Metric_SetDataType (newMetric (Some 1%positive)) MetricDataTypeSummary gauge_store
      = Some (tt, h')
    ∧ Metric_DataType (newMetric (Some 1%positive)) h' = Some (MetricDataTypeSummary, h')
    ∧ points_at h' (Some 1%positive) = Some 0.
Proof. eexists. split; [reflexivity|]. split; by vm_compute. Qed.

(** A new [Metrics] has no metrics and no data points, and goes through the
    wire format: a message of one byte, the number of resources. *)
Example NewMetrics_empty :
  ∃ md h,
    NewMetrics (H := Z_leaves) ∅ = Some (md, h)
    ∧ MetricCount 1 md h = Some (0, h)
    ∧ MetricAndDataPointCount 1 md h = Some ((0, 0), h)
    ∧ tree_of h md = Some [].
Proof. do 2 eexists. split; [reflexivity|]. repeat split. Qed.

(** ** The round trip through the wire format *)

Lemma byte_of_N_to_N (n : N) : (n < 256)%N → Byte.to_N (byte_of_N n) = n.
Proof.
  intros Hn. unfold byte_of_N.
  destruct (Byte.of_N n) as [b|] eqn:Hb.
  - simpl. by apply Byte.to_of_N.
  - apply Byte.of_N_None_iff in Hb. lia.
Qed.

Lemma get_put_varint (fuel : nat) (n : N) (rest : list Byte.byte) :
  fuel ≠ O → (n < 2 ^ N.of_nat fuel)%N →
  get_varint (put_varint fuel n ++ rest) = Some (n, rest).
Proof.
  revert n. induction fuel as [|fuel IH]; intros n Hfuel Hn; [done|].
  cbn [put_varint]. destruct (n <? 128)%N eqn:Hsmall.
  - apply N.ltb_lt in Hsmall. cbn [app get_varint].
    rewrite byte_of_N_to_N by lia.
    by rewrite (proj2 (N.ltb_lt _ _) Hsmall).
  - apply N.ltb_ge in Hsmall. rewrite <- app_comm_cons. cbn [get_varint].
    pose proof (N.mod_lt n 128 ltac:(lia)) as Hmod.
    pose proof (N.div_mod n 128 ltac:(lia)) as Hdm.
    assert (Hfuel' : fuel ≠ O).
    { intros ->. change (2 ^ N.of_nat 1)%N with 2%N in Hn. lia. }
    assert (Hdiv : (n / 128 < 2 ^ N.of_nat fuel)%N).
    { replace (N.of_nat (S fuel)) with (N.succ (N.of_nat fuel)) in Hn by lia.
      rewrite N.pow_succ_r' in Hn.
      apply N.Div0.div_lt_upper_bound. lia. }
    specialize (IH _ Hfuel' Hdiv).
    set (r := (n mod 128)%N) in *. set (q := (n / 128)%N) in *.
    clearbody r q. clear Hn Hdiv.
    rewrite byte_of_N_to_N by lia.
    assert (Hhigh : (128 + r <? 128)%N = false) by (apply N.ltb_ge; lia).
    rewrite Hhigh, IH. f_equal. f_equal. lia.
Qed.

Lemma get_put_nat : faithful put_nat get_nat.
Proof.
  intros n rest. unfold get_nat, put_nat.
  rewrite get_put_varint.
  - simpl. by rewrite Nat2N.id.
  - lia.
  - replace (N.of_nat (S (N.to_nat (N.size (N.of_nat n)))))
      with (N.succ (N.size (N.of_nat n))) by lia.
    rewrite N.pow_succ_r'. pose proof (N.size_gt (N.of_nat n)). lia.
Qed.

Lemma get_put_Z : faithful put_Z get_Z.
Proof.
  intros z rest. unfold get_Z, put_Z.
  rewrite get_put_nat. simpl. f_equal. f_equal.
  case_bool_decide as Hz.
  - rewrite Z2Nat.id by lia. rewrite Z.even_mul. simpl.
    rewrite Z.mul_comm. by rewrite Z.div_mul.
  - rewrite Z2Nat.id by lia.
    replace (- 2 * z - 1) with (1 + 2 * (- z - 1)) by lia.
    rewrite Z.even_add_mul_2. simpl.
    replace (1 + 2 * (- z - 1) + 1) with ((- z) * 2) by lia.
    rewrite Z.div_mul by lia. lia.
Qed.

Lemma get_put_string : faithful put_string get_string.
Proof.
  intros s rest. unfold get_string, put_string.
  rewrite <- app_assoc, get_put_nat. simpl.
  rewrite bool_decide_eq_true_2 by (rewrite length_app; lia).
  rewrite take_app_length, drop_app_length.
  by rewrite String.string_of_list_byte_of_string.
Qed.

Section Faithful.

Context {A : Type} (put : A → list Byte.byte) (get : parser A).
Hypothesis get_put : faithful put get.

Lemma get_many_put (l : list A) (rest : list Byte.byte) :
  get_many get (length l) (concat (put <$> l) ++ rest) = Some (l, rest).
Proof.
  induction l as [|a l IH]; [done|].
  rewrite fmap_cons. cbn [concat length get_many].
  rewrite <- app_assoc, get_put. simpl. rewrite IH. done.
Qed.

Lemma get_put_list : faithful (put_list put) (get_list get).
Proof.
  intros l rest. unfold get_list, put_list.
  rewrite <- app_assoc, get_put_nat. simpl. apply get_many_put.
Qed.

End Faithful.

Section WireFaithful.

Context `{LeafWire}.
Hypothesis leaves : leaves_faithful.

Lemma get_put_data : faithful put_data get_data.
Proof.
  destruct leaves as (_ & _ & HI & HD & HIH & HDH & HDS).
  intros [[v|v|v|v|v|v|v]|] rest; unfold get_data, put_data;
    rewrite <- ?app_assoc, get_put_nat; simpl; [..|done];
    rewrite get_put_list by done; simpl; rewrite ?get_put_Z; simpl;
    by destruct v.
Qed.

Lemma get_put_metric : faithful put_metric get_metric.
Proof.
  intros m rest. unfold get_metric, put_metric.
  rewrite <- !app_assoc.
  rewrite get_put_string; simpl. rewrite get_put_string; simpl.
  rewrite get_put_string; simpl. rewrite get_put_data; simpl.
  by destruct m.
Qed.

Lemma get_put_scope : faithful put_scope get_scope.
Proof.
  destruct leaves as (_ & HIL & _).
  intros s rest. unfold get_scope, put_scope.
  rewrite <- !app_assoc, HIL; simpl.
  rewrite (get_put_list _ _ get_put_metric); simpl.
  by destruct s.
Qed.

Lemma get_put_resource : faithful put_resource get_resource.
Proof.
  destruct leaves as (HR & _).
  intros r rest. unfold get_resource, put_resource.
  rewrite <- !app_assoc, HR; simpl.
  rewrite (get_put_list _ _ get_put_scope); simpl.
  by destruct r.
Qed.

Lemma get_put_request : faithful put_request get_request.
Proof. apply get_put_list, get_put_resource. Qed.

End WireFaithful.

Lemma Z_leaf_wire_faithful : @leaves_faithful Z_leaves Z_leaf_wire.
Proof. repeat split; apply get_put_Z. Qed.

Section Abstraction.

Context `{OtlpLeaves}.
Implicit Types (h : store) (p : ptr).

Lemma subseteq_keeps_structs h h' : h ⊆ h' → keeps_structs h h'.
Proof. intros Hsub l o Hl _. by eapply lookup_weaken. Qed.

Lemma mapM_option_mono {A B} (f g : A → option B) (l : list A) (k : list B) :
  (∀ a b, f a = Some b → g a = Some b) → mapM f l = Some k → mapM g l = Some k.
Proof.
  intros Hfg Hl. apply mapM_Some in Hl. apply mapM_Some.
  eapply Forall2_impl; [exact Hl|]. auto.
Qed.

Lemma abs_data_mono h h' d v :
  keeps_structs h h' → abs_data h d = Some v → abs_data h' d = Some v.
Proof.
  intros Hk. unfold abs_data.
  destruct d as [[k [ld|]]|]; [|done|done]. simpl.
  destruct (h !! ld) as [w|] eqn:Hld; [|done]. simpl.
  destruct w as [| | | |k' [lv|]| | | | | | |]; try done. simpl.
  destruct (h !! lv) as [s|] eqn:Hlv; [|done]. simpl.
  case_bool_decide as Hs; [|done]. destruct Hs as [-> Hs].
  intros Hv.
  rewrite (Hk _ _ Hld) by done. simpl.
  rewrite (Hk _ _ Hlv) by (intros r ->; discriminate Hs). simpl.
  by rewrite bool_decide_eq_true_2.
Qed.

Lemma abs_metric_mono h h' p v :
  keeps_structs h h' → abs_metric h p = Some v → abs_metric h' p = Some v.
Proof.
  intros Hk. unfold abs_metric.
  destruct p as [l|]; [|done]. simpl.
  destruct (h !! l) as [o|] eqn:Hl; [|done]. simpl.
  destruct o as [| | |m| | | | | | | |]; try done.
  rewrite (Hk _ _ Hl) by done. simpl.
  destruct (abs_data h (otlpmetrics.Data m)) as [d|] eqn:Hd; [|done].
  by rewrite (abs_data_mono _ _ _ _ Hk Hd).
Qed.

Lemma abs_scope_mono h h' p v :
  keeps_structs h h' → abs_scope h p = Some v → abs_scope h' p = Some v.
Proof.
  intros Hk. unfold abs_scope.
  destruct p as [l|]; [|done]. simpl.
  destruct (h !! l) as [o|] eqn:Hl; [|done]. simpl.
  destruct o as [| |r| | | | | | | | |]; try done.
  rewrite (Hk _ _ Hl) by done. simpl.
  destruct (mapM (abs_metric h) (otlpmetrics.ILM_Metrics r)) as [ms|] eqn:Hms; [|done].
  rewrite (mapM_option_mono _ (abs_metric h') _ _ (λ a b, abs_metric_mono h h' a b Hk) Hms).
  done.
Qed.

Lemma abs_resource_mono h h' p v :
  keeps_structs h h' → abs_resource h p = Some v → abs_resource h' p = Some v.
Proof.
  intros Hk. unfold abs_resource.
  destruct p as [l|]; [|done]. simpl.
  destruct (h !! l) as [o|] eqn:Hl; [|done]. simpl.
  destruct o as [|r| | | | | | | | | |]; try done.
  rewrite (Hk _ _ Hl) by done. simpl.
  destruct (mapM (abs_scope h) (otlpmetrics.RM_InstrumentationLibraryMetrics r))
    as [ss|] eqn:Hss; [|done].
  rewrite (mapM_option_mono _ (abs_scope h') _ _ (λ a b, abs_scope_mono h h' a b Hk) Hss).
  done.
Qed.

Lemma abs_request_mono h h' md v :
  h ⊆ h' → abs_request h md = Some v → abs_request h' md = Some v.
Proof.
  intros Hsub. unfold abs_request.
  destruct (Metrics_orig md) as [l|]; [|done]. simpl.
  destruct (h !! l) as [o|] eqn:Hl; [|done]. simpl.
  rewrite (lookup_weaken _ _ _ _ Hl Hsub). simpl.
  destruct o; try done.
  apply mapM_option_mono. intros a b.
  by apply abs_resource_mono, subseteq_keeps_structs.
Qed.

Lemma alloc_subseteq h o :
  ∃ l, alloc o h = Some (Some l, <[l := o]> h) ∧ h !! l = None ∧ h ⊆ <[l := o]> h.
Proof.
  exists (fresh (dom h)). split; [done|].
  pose proof (fresh_lookup h) as Hfresh. split; [done|].
  by apply insert_subseteq.
Qed.

End Abstraction.

Section Building.

Context `{OtlpLeaves}.
Implicit Types (h : store) (p : ptr).

Lemma mapM_Go_cons {σ A B} (f : A → Go σ B) (a : A) (l : list A) (s : σ) :
  mapM f (a :: l) s
  = match f a s with
    | Some (b, s1) =>
        match mapM f l s1 with
        | Some (bs, s2) => Some (b :: bs, s2)
        | None => None
        end
    | None => None
    end.
Proof.
  cbn [mapM]. unfold mbind at 1, Go_bind at 1.
  destruct (f a s) as [[b s1]|]; [|done].
  unfold mbind at 1, Go_bind at 1.
  by destruct (mapM f l s1) as [[bs s2]|].
Qed.

(** Building a list of values builds each in turn; the structs built
    earlier stay as they are while the later ones are built. *)
Lemma mapM_build {V} (build : V → Go store ptr) (abs : store → ptr → option V) :
  (∀ h h' p v, keeps_structs h h' → abs h p = Some v → abs h' p = Some v) →
  (∀ v h, ∃ p h', build v h = Some (p, h') ∧ h ⊆ h' ∧ abs h' p = Some v) →
  ∀ (l : list V) h,
    ∃ ps h', mapM build l h = Some (ps, h') ∧ h ⊆ h' ∧ mapM (abs h') ps = Some l.
Proof.
  intros Hmono Hbuild l. induction l as [|v l IH]; intros h.
  - exists [], h. by split.
  - destruct (Hbuild v h) as (p & h1 & Hp & Hsub1 & Habs).
    destruct (IH h1) as (ps & h2 & Hps & Hsub2 & Habs2).
    exists (p :: ps), h2. split; [|split].
    + by rewrite mapM_Go_cons, Hp, Hps.
    + by transitivity h1.
    + cbn [mapM].
      rewrite (Hmono _ _ _ _ (subseteq_keeps_structs _ _ Hsub2) Habs). simpl.
      by rewrite Habs2.
Qed.

Lemma build_metric_spec (m : metric_value) h :
  ∃ p h', build_metric m h = Some (p, h') ∧ h ⊆ h' ∧ abs_metric h' p = Some m.
Proof.
  unfold build_metric. destruct m as [name description unit [v|]]; simpl.
  - destruct (alloc_subseteq h (variant_object v)) as (lv & Hlv & Hnew1 & Hsub1).
    set (h1 := <[lv := variant_object v]> h) in *.
    destruct (alloc_subseteq h1 (ObjOneof (variant_kind v) (Some lv)))
      as (ld & Hld & Hnew2 & Hsub2).
    set (h2 := <[ld := ObjOneof (variant_kind v) (Some lv)]> h1) in *.
    set (m := {| otlpmetrics.Name := name; otlpmetrics.Description := description;
                 otlpmetrics.Unit := unit;
                 otlpmetrics.Data := Some (variant_kind v, Some ld) |}).
    destruct (alloc_subseteq h2 (ObjMetric m)) as (l & Hl & Hnew3 & Hsub3).
    exists (Some l), (<[l := ObjMetric m]> h2). split; [|split].
    + unfold mbind, Go_bind. rewrite Hlv. fold h1. rewrite Hld. fold h2. simpl.
      exact Hl.
    + by do 2 (etrans; [eassumption|]).
    + unfold abs_metric. simpl. rewrite lookup_insert_eq. simpl.
      assert (Hld' : (<[l := ObjMetric m]> h2) !! ld
                     = Some (ObjOneof (variant_kind v) (Some lv))).
      { eapply lookup_weaken; [|exact Hsub3]. unfold h2. by rewrite lookup_insert_eq. }
      assert (Hlv' : (<[l := ObjMetric m]> h2) !! lv = Some (variant_object v)).
      { eapply lookup_weaken; [|exact Hsub3].
        eapply lookup_weaken; [|exact Hsub2]. unfold h1. by rewrite lookup_insert_eq. }
      rewrite Hld'. simpl. rewrite Hlv'. simpl.
      rewrite bool_decide_eq_true_2 by (by destruct v).
      by destruct v.
  - set (m := {| otlpmetrics.Name := name; otlpmetrics.Description := description;
                 otlpmetrics.Unit := unit; otlpmetrics.Data := None |}).
    destruct (alloc_subseteq h (ObjMetric m)) as (l & Hl & Hnew & Hsub).
    exists (Some l), (<[l := ObjMetric m]> h). split; [|split; [done|]].
    + unfold mbind, Go_bind. simpl. exact Hl.
    + unfold abs_metric. simpl. by rewrite lookup_insert_eq.
Qed.

Lemma build_scope_spec (s : scope_value) h :
  ∃ p h', build_scope s h = Some (p, h') ∧ h ⊆ h' ∧ abs_scope h' p = Some s.
Proof.
  unfold build_scope.
  destruct (mapM_build build_metric abs_metric
              (λ h h' p v Hk, abs_metric_mono h h' p v Hk) build_metric_spec
              (sv_Metrics s) h) as (ms & h1 & Hms & Hsub1 & Habs).
  set (r := {| otlpmetrics.ILM_InstrumentationLibrary := sv_InstrumentationLibrary s;
               otlpmetrics.ILM_Metrics := ms |}).
  destruct (alloc_subseteq h1 (ObjInstrumentationLibraryMetrics r)) as (l & Hl & Hnew & Hsub2).
  exists (Some l), (<[l := ObjInstrumentationLibraryMetrics r]> h1). split; [|split].
  - unfold mbind at 1, Go_bind at 1. rewrite Hms. exact Hl.
  - by transitivity h1.
  - unfold abs_scope. simpl. rewrite lookup_insert_eq. simpl.
    rewrite (mapM_option_mono _ (abs_metric (<[l := ObjInstrumentationLibraryMetrics r]> h1))
               _ _ (λ a b, abs_metric_mono _ _ a b (subseteq_keeps_structs _ _ Hsub2)) Habs).
    simpl. by destruct s.
Qed.

Lemma build_resource_spec (r : resource_value) h :
  ∃ p h', build_resource r h = Some (p, h') ∧ h ⊆ h' ∧ abs_resource h' p = Some r.
Proof.
  unfold build_resource.
  destruct (mapM_build build_scope abs_scope
              (λ h h' p v Hk, abs_scope_mono h h' p v Hk) build_scope_spec
              (rv_InstrumentationLibraryMetrics r) h) as (ss & h1 & Hss & Hsub1 & Habs).
  set (o := {| otlpmetrics.RM_Resource := rv_Resource r;
               otlpmetrics.RM_InstrumentationLibraryMetrics := ss |}).
  destruct (alloc_subseteq h1 (ObjResourceMetrics o)) as (l & Hl & Hnew & Hsub2).
  exists (Some l), (<[l := ObjResourceMetrics o]> h1). split; [|split].
  - unfold mbind at 1, Go_bind at 1. rewrite Hss. exact Hl.
  - by transitivity h1.
  - unfold abs_resource. simpl. rewrite lookup_insert_eq. simpl.
    rewrite (mapM_option_mono _ (abs_scope (<[l := ObjResourceMetrics o]> h1))
               _ _ (λ a b, abs_scope_mono _ _ a b (subseteq_keeps_structs _ _ Hsub2)) Habs).
    simpl. by destruct r.
Qed.

End Building.

Section RoundTrip.

Context `{LeafWire}.
Implicit Types (h : store) (md : Metrics).

(** C4, over the wire format above: for a [Metrics] whose tree the store
    holds, [ToOtlpProtoBytes] returns bytes and no error and leaves the
    store as it was; [MetricsFromOtlpProtoBytes] of these bytes returns no
    error and a [Metrics] with a request of its own whose value is that of
    the first: the same resources, scopes, metrics and variant data in the
    same order.  The first [Metrics] still has that value afterwards. *)
Theorem OtlpProtoBytes_round_trip md h (v : list resource_value) :
  leaves_faithful →
  abs_request h md = Some v →
  ∃ data md' h',
    Metrics_ToOtlpProtoBytes md h = Some ((data, None), h)
    ∧ MetricsFromOtlpProtoBytes data h = Some ((md', None), h')
    ∧ abs_request h' md' = Some v
    ∧ abs_request h' md = Some v
    ∧ Metrics_orig md' ≠ Metrics_orig md.
Proof.
  intros Hleaves Hv.
  set (req := ObjRequest {| otlpcollectormetrics.ResourceMetrics := [] |}).
  destruct (alloc_subseteq h req) as (l0 & Hl0 & Hnew & Hsub0).
  set (h0 := <[l0 := req]> h) in *.
  destruct (mapM_build build_resource abs_resource
              (λ h h' p v Hk, abs_resource_mono h h' p v Hk) build_resource_spec v h0)
    as (rms & h1 & Hrms & Hsub1 & Habs).
  set (filled := ObjRequest {| otlpcollectormetrics.ResourceMetrics := rms |}).
  assert (Hl1 : h1 !! l0 = Some req).
  { eapply lookup_weaken; [|exact Hsub1]. unfold h0. by rewrite lookup_insert_eq. }
  assert (Hkeep : keeps_structs h1 (<[l0 := filled]> h1)).
  { intros l o Hl Hnot. destruct (decide (l = l0)) as [->|Hne].
    - rewrite Hl1 in Hl. injection Hl as <-. by destruct (Hnot _ eq_refl).
    - by rewrite lookup_insert_ne. }
  assert (Hsub : h ⊆ <[l0 := filled]> h1).
  { apply map_subseteq_spec. intros l o Hl.
    assert (l ≠ l0) by (intros ->; congruence).
    rewrite lookup_insert_ne by done.
    eapply lookup_weaken; [|exact Hsub1]. by eapply lookup_weaken. }
  exists (Some (put_request v)), (mkMetrics (Some l0)), (<[l0 := filled]> h1).
  split; [|split; [|split; [|split]]].
  - unfold Metrics_ToOtlpProtoBytes, Request_Marshal.
    destruct md as [p]. simpl in *. by rewrite Hv.
  - unfold MetricsFromOtlpProtoBytes. unfold mbind at 1, Go_bind at 1.
    fold req. rewrite Hl0. fold h0.
    unfold mbind at 1, Go_bind at 1. unfold Request_Unmarshal.
    change (default [] (Some (put_request v))) with (put_request v).
    rewrite <- (app_nil_r (put_request v)).
    rewrite (get_put_request Hleaves v []).
    unfold mbind at 1, Go_bind at 1. rewrite Hrms.
    unfold mbind at 1, Go_bind at 1. fold filled.
    by rewrite (assign_Some _ _ _ filled Hl1).
  - unfold abs_request. simpl. rewrite lookup_insert_eq. simpl.
    apply (mapM_option_mono (abs_resource h1)); [|done].
    intros a b. by apply abs_resource_mono.
  - by apply abs_request_mono with h.
  - intros Heq. unfold abs_request in Hv. rewrite <- Heq in Hv. simpl in Hv.
    by rewrite Hnew in Hv.
Qed.

End RoundTrip.

(** C4 at [tree_store]. *)
Lemma OtlpProtoBytes_round_trip_witness :
  ∃ data md' h',
    Metrics_ToOtlpProtoBytes (H0 := Z_leaf_wire) tree_metrics tree_store
      = Some ((data, None), tree_store)
    ∧ MetricsFromOtlpProtoBytes (H0 := Z_leaf_wire) data tree_store = Some ((md', None), h')
    ∧ abs_request h' md' = Some tree_value
    ∧ abs_request h' tree_metrics = Some tree_value
    ∧ Metrics_orig md' ≠ Metrics_orig tree_metrics.
Proof.
  apply (OtlpProtoBytes_round_trip (H0 := Z_leaf_wire) tree_metrics tree_store tree_value).
  - exact Z_leaf_wire_faithful.
  - reflexivity.
Defined.

(** The message of [tree_store] starts with the number of resources, the
    first resource, the number of its scopes and the first scope; bytes
    that are not a message give an error and the zero [Metrics]. *)
Example tree_store_bytes :
  ∃ bs,
    Metrics_ToOtlpProtoBytes (H0 := Z_leaf_wire) tree_metrics tree_store
      = Some ((Some bs, None), tree_store)
    ∧ take 4 bs = [Byte.x02; Byte.x00; Byte.x02; Byte.x00]
    ∧ length bs = 157%nat.
Proof. eexists. split; [by vm_compute|]. split; by vm_compute. Qed.

Example MetricsFromOtlpProtoBytes_garbage :
  MetricsFromOtlpProtoBytes (H0 := Z_leaf_wire) (Some [Byte.x01]) tree_store
  = Some ((Metrics_zero, Some (errorString "unexpected EOF")),
          <[24%positive := ObjRequest {| otlpcollectormetrics.ResourceMetrics := [] |}]>
            tree_store).
Proof. by vm_compute. Qed.

Example NewMetrics_bytes :
  (md ← NewMetrics (H := Z_leaves);
   Metrics_ToOtlpProtoBytes (H0 := Z_leaf_wire) md) ∅
  = Some ((Some [Byte.x00], None),
          {[1%positive := ObjRequest {| otlpcollectormetrics.ResourceMetrics := [] |}]}).
Proof. by vm_compute. Qed.

(** * Further properties of the code *)

(** ** The pipelines, every outcome *)

Section PipelineOutcomes.

Context {W Model : Type}.
Implicit Types (w : W) (calls : list (call Model)) (e : error_value).

(** X1: a call of [Marshal] returns in exactly three ways: the translator
    returned an error, the encoder returned an error, or both succeeded.
    So it returns bytes only with a nil error and they are the encoder's,
    it calls [FromMetrics] once and [EncodeMetrics] at most once, after it,
    and [EncodeMetrics] gets the model and the state [FromMetrics] left. *)
Theorem Marshal_outcomes (t : metricsMarshaler W Model) (td : Metrics) w calls
    (r : byte_slice * error) (s' : W * list (call Model)) :
  Marshal t td (w, calls) = Some (r, s')
  ↔ (∃ model e w',
       FromMetrics (translator t) td w = Some ((model, Some e), w')
       ∧ r = (None, Some (wrapError ("converting pdata to model failed: " +:+ Error e) e))
       ∧ s' = (w', calls ++ [CallFromMetrics td]))
    ∨ (∃ model w' buf e w'',
         FromMetrics (translator t) td w = Some ((model, None), w')
         ∧ EncodeMetrics (encoder t) model w' = Some ((buf, Some e), w'')
         ∧ r = (None, Some (wrapError ("marshal failed: " +:+ Error e) e))
         ∧ s' = (w'', calls ++ [CallFromMetrics td; CallEncodeMetrics model]))
    ∨ (∃ model w' buf w'',
         FromMetrics (translator t) td w = Some ((model, None), w')
         ∧ EncodeMetrics (encoder t) model w' = Some ((buf, None), w'')
         ∧ r = (buf, None)
         ∧ s' = (w'', calls ++ [CallFromMetrics td; CallEncodeMetrics model])).
Proof.
  unfold Marshal, mbind, Go_bind, invoke. split.
  - destruct (FromMetrics (translator t) td w) as [[[model [e|]] w']|] eqn:Htr;
      simpl; [| |done].
    + intros [= <- <-]. left. by exists model, e, w'.
    + destruct (EncodeMetrics (encoder t) model w') as [[[buf [e|]] w'']|] eqn:Henc;
        simpl; [| |done].
      * intros [= <- <-]. right; left. exists model, w', buf, e, w''.
        by rewrite <- app_assoc.
      * intros [= <- <-]. right; right. exists model, w', buf, w''.
        by rewrite <- app_assoc.
  - intros [(model & e & w' & Htr & -> & ->)
           |[(model & w' & buf & e & w'' & Htr & Henc & -> & ->)
            |(model & w' & buf & w'' & Htr & Henc & -> & ->)]];
      rewrite Htr; simpl; [done| |]; rewrite Henc; simpl; by rewrite <- app_assoc.
Qed.

(** X2: a call of [Unmarshal] returns in exactly three ways: the decoder
    returned an error, the translator returned an error, or both
    succeeded.  So it returns a [Metrics] other than the zero value only
    with a nil error and it is the translator's, it calls [DecodeMetrics]
    once and [ToMetrics] at most once, after it, and [ToMetrics] gets the
    model and the state [DecodeMetrics] left. *)
Theorem Unmarshal_outcomes (t : metricsUnmarshaler W Model) (buf : byte_slice) w calls
    (r : Metrics * error) (s' : W * list (call Model)) :
  Unmarshal t buf (w, calls) = Some (r, s')
  ↔ (∃ model e w',
       DecodeMetrics (decoder t) buf w = Some ((model, Some e), w')
       ∧ r = (Metrics_zero, Some (wrapError ("unmarshal failed: " +:+ Error e) e))
       ∧ s' = (w', calls ++ [CallDecodeMetrics buf]))
    ∨ (∃ model w' td e w'',
         DecodeMetrics (decoder t) buf w = Some ((model, None), w')
         ∧ ToMetrics (to_translator t) model w' = Some ((td, Some e), w'')
         ∧ r = (Metrics_zero,
                Some (wrapError ("converting model to pdata failed: " +:+ Error e) e))
         ∧ s' = (w'', calls ++ [CallDecodeMetrics buf; CallToMetrics model]))
    ∨ (∃ model w' td w'',
         DecodeMetrics (decoder t) buf w = Some ((model, None), w')
         ∧ ToMetrics (to_translator t) model w' = Some ((td, None), w'')
         ∧ r = (td, None)
         ∧ s' = (w'', calls ++ [CallDecodeMetrics buf; CallToMetrics model])).
Proof.
  unfold Unmarshal, mbind, Go_bind, invoke. split.
  - destruct (DecodeMetrics (decoder t) buf w) as [[[model [e|]] w']|] eqn:Hdec;
      simpl; [| |done].
    + intros [= <- <-]. left. by exists model, e, w'.
    + destruct (ToMetrics (to_translator t) model w') as [[[td [e|]] w'']|] eqn:Htr;
        simpl; [| |done].
      * intros [= <- <-]. right; left. exists model, w', td, e, w''.
        by rewrite <- app_assoc.
      * intros [= <- <-]. right; right. exists model, w', td, w''.
        by rewrite <- app_assoc.
  - intros [(model & e & w' & Hdec & -> & ->)
           |[(model & w' & td & e & w'' & Hdec & Htr & -> & ->)
            |(model & w' & td & w'' & Hdec & Htr & -> & ->)]];
      rewrite Hdec; simpl; [done| |]; rewrite Htr; simpl; by rewrite <- app_assoc.
Qed.

(** X3: [Marshal] and then [Unmarshal] of its bytes, with four stages that
    succeed: the four methods are called once each, in the order
    [FromMetrics], [EncodeMetrics], [DecodeMetrics], [ToMetrics], each on
    what the one before returned and in the state it left, and the result
    is the [Metrics] of [ToMetrics] with a nil error. *)
Theorem Marshal_then_Unmarshal (m : metricsMarshaler W Model)
    (u : metricsUnmarshaler W Model) (td td' : Metrics) (model model' : Model)
    (buf : byte_slice) w w1 w2 w3 w4 calls :
  FromMetrics (translator m) td w = Some ((model, None), w1) →
  EncodeMetrics (encoder m) model w1 = Some ((buf, None), w2) →
  DecodeMetrics (decoder u) buf w2 = Some ((model', None), w3) →
  ToMetrics (to_translator u) model' w3 = Some ((td', None), w4) →
  ('(bytes, err) ← Marshal m td;
   match err with
   | Some e => mret (Metrics_zero, Some e)
   | None => Unmarshal u bytes
   end) (w, calls)
  = Some ((td', None),
          (w4, calls ++ [CallFromMetrics td; CallEncodeMetrics model;
                         CallDecodeMetrics buf; CallToMetrics model'])).
Proof.
  intros Hfrom Henc Hdec Hto.
  unfold mbind at 1, Go_bind at 1.
  rewrite (Marshal_ok m td w calls model w1 buf w2 Hfrom Henc).
  unfold Unmarshal, mbind, Go_bind, invoke.
  rewrite Hdec; simpl. rewrite Hto; simpl.
  by rewrite <- !app_assoc.
Qed.

End PipelineOutcomes.

(** X3 at the stages of the examples, over byte slices as the model. *)
Lemma Marshal_then_Unmarshal_witness :
  ('(bytes, err) ← Marshal (NewMetricsMarshaler ok_encoder ok_from_translator) tree_metrics;
   match err with
   | Some e => mret (Metrics_zero, Some e)
   | None => Unmarshal (NewMetricsUnmarshaler ok_decoder ok_to_translator) bytes
   end) (tt, [])
  = Some ((tree_metrics, None),
          (tt, [CallFromMetrics tree_metrics; CallEncodeMetrics (Some []);
                CallDecodeMetrics (Some []); CallToMetrics (Some [])])).
Proof.
  apply (Marshal_then_Unmarshal (NewMetricsMarshaler ok_encoder ok_from_translator)
           (NewMetricsUnmarshaler ok_decoder ok_to_translator)
           tree_metrics tree_metrics (Some []) (Some []) (Some []) tt tt tt tt tt []);
    reflexivity.
Defined.

(** ** The names of the data types, told apart *)

Lemma MetricDataType_String_undefined (mdt : MetricDataType) :
  mdt ∉ defined_data_types → MetricDataType_String mdt = ""%string.
Proof.
  intros Hout.
  assert (Hcases : mdt < 0 ∨ 7 < mdt).
  { destruct (decide (mdt < 0)) as [|Hlo]; [by left|].
    destruct (decide (7 < mdt)) as [|Hhi]; [by right|].
    exfalso. apply Hout.
    assert (Hz : mdt = 0 ∨ mdt = 1 ∨ mdt = 2 ∨ mdt = 3 ∨ mdt = 4 ∨ mdt = 5
                 ∨ mdt = 6 ∨ mdt = 7) by lia.
    unfold defined_data_types, MetricDataTypeNone, MetricDataTypeIntGauge,
      MetricDataTypeDoubleGauge, MetricDataTypeIntSum, MetricDataTypeDoubleSum,
      MetricDataTypeIntHistogram, MetricDataTypeHistogram, MetricDataTypeSummary.
    rewrite !elem_of_cons. tauto. }
  destruct Hcases as [Hneg | Hbig].
  - destruct mdt as [|p|p]; [lia | lia | reflexivity].
  - destruct mdt as [|p|p]; [lia | | lia].
    do 3 (destruct p as [p|p|]; try reflexivity; try lia).
Qed.

Lemma defined_data_types_cases (mdt : MetricDataType) :
  mdt ∈ defined_data_types
  ↔ mdt = 0 ∨ mdt = 1 ∨ mdt = 2 ∨ mdt = 3 ∨ mdt = 4 ∨ mdt = 5 ∨ mdt = 6 ∨ mdt = 7.
Proof.
  unfold defined_data_types, MetricDataTypeNone, MetricDataTypeIntGauge,
    MetricDataTypeDoubleGauge, MetricDataTypeIntSum, MetricDataTypeDoubleSum,
    MetricDataTypeIntHistogram, MetricDataTypeHistogram, MetricDataTypeSummary.
  rewrite !elem_of_cons, elem_of_nil. tauto.
Qed.

(** X4: [String] tells the data types apart: two defined data types with
    the same name are the same, and the name is empty exactly for the values
    that are no defined data type. *)
Theorem MetricDataType_String_inj :
  (∀ a b : MetricDataType,
     a ∈ defined_data_types → b ∈ defined_data_types →
     MetricDataType_String a = MetricDataType_String b → a = b)
  ∧ (∀ mdt : MetricDataType,
       MetricDataType_String mdt = ""%string ↔ mdt ∉ defined_data_types).
Proof.
  split.
  - intros a b Ha Hb.
    apply defined_data_types_cases in Ha, Hb.
    destruct Ha as [->|[->|[->|[->|[->|[->|[->| ->]]]]]]];
      destruct Hb as [->|[->|[->|[->|[->|[->|[->| ->]]]]]]];
      simpl; intros Heq; try reflexivity; discriminate Heq.
  - intros mdt. split; [|apply MetricDataType_String_undefined].
    intros Hname Hin. apply defined_data_types_cases in Hin.
    destruct Hin as [->|[->|[->|[->|[->|[->|[->| ->]]]]]]]; discriminate Hname.
Qed.

(** ** The OAuth2 transport, what it carries *)

Section RoundTripperSettings.

Import configoauth2.
Context {RoundTripperT : Type}.

(** X5: [RoundTripper] returns either a transport or an error, never both
    and never neither; a transport it returns has the given base and a
    token source over exactly the four settings of the credentials, and
    the scopes play no part in whether it fails. *)
Theorem RoundTripper_transport (c : OAuth2ClientCredentials) (base : RoundTripperT) :
  ((RoundTripper c base).1 = None ↔ (RoundTripper c base).2 ≠ None)
  ∧ (∀ t, (RoundTripper c base).1 = Some t →
       Base t = base
       ∧ Source t = Config_TokenSource
                      {| Config_ClientID := ClientID c;
                         Config_ClientSecret := ClientSecret c;
                         Config_TokenURL := TokenURL c;
                         Config_Scopes := Scopes c |})
  ∧ (∀ scopes (base' : RoundTripperT),
       (RoundTripper {| ClientID := ClientID c; ClientSecret := ClientSecret c;
                        TokenURL := TokenURL c; Scopes := scopes |} base').2
       = (RoundTripper c base).2).
Proof.
  unfold RoundTripper. simpl.
  destruct (is_empty (ClientID c)), (is_empty (ClientSecret c)), (is_empty (TokenURL c));
    simpl; repeat split; try done;
    match goal with Heq : Some _ = Some _ |- _ => by injection Heq as <- end.
Qed.

End RoundTripperSettings.

(** ** The tagged union: retyping, the accessors, the zero value *)

Section TaggedUnion.

Context `{OtlpLeaves}.
Implicit Types (h : store) (l : loc) (o : object) (k : otlpmetrics.oneof).

Lemma variant_of_empty k : variant_of (empty_variant k) = Some k.
Proof. by destruct k. Qed.

Lemma points_of_empty k : points_of (empty_variant k) = 0.
Proof. by destruct k. Qed.

Lemma retyped_lookups h l (m : otlpmetrics.Metric) k (v d : loc) o :
  h !! l = Some (ObjMetric m) → h !! v = None → h !! d = None → v ≠ d →
  retyped h l m k v d o !! l
    = Some (ObjMetric (otlpmetrics.set_Data m (Some (k, Some d))))
  ∧ retyped h l m k v d o !! d = Some (ObjOneof k (Some v))
  ∧ retyped h l m k v d o !! v = Some o
  ∧ (∀ l' o', l' ≠ l → h !! l' = Some o' → retyped h l m k v d o !! l' = Some o').
Proof.
  intros Hl Hv Hd Hvd. unfold retyped.
  assert (l ≠ v) by (intros ->; congruence).
  assert (l ≠ d) by (intros ->; congruence).
  repeat split.
  - by rewrite lookup_insert_eq.
  - rewrite lookup_insert_ne by done. by rewrite lookup_insert_eq.
  - rewrite !lookup_insert_ne by done. by rewrite lookup_insert_eq.
  - intros l' o' Hne Hl'.
    rewrite !lookup_insert_ne; [done | intros ->; congruence | intros ->; congruence | done].
Qed.

(** X6: [SetDataType] with one of the seven variant types, on a metric
    whose struct is allocated, returns; the metric then has that data type
    and no data points, its value is its name, description and unit as
    before with the empty variant as data, and every other address of the
    store holds what it held. *)
Theorem Metric_SetDataType_resets (ms : Metric) h l (m : otlpmetrics.Metric) k :
  Metric_orig ms = Some l →
  h !! l = Some (ObjMetric m) →
  ∃ h',
    Metric_SetDataType ms (oneof_DataType k) h = Some (tt, h')
    ∧ Metric_DataType ms h' = Some (oneof_DataType k, h')
    ∧ points_at h' (Some l) = Some 0
    ∧ abs_metric h' (Some l)
      = Some {| mv_Name := otlpmetrics.Name m;
                mv_Description := otlpmetrics.Description m;
                mv_Unit := otlpmetrics.Unit m;
                mv_Data := object_variant (empty_variant k) |}
    ∧ (∀ l' o', l' ≠ l → h !! l' = Some o' → h' !! l' = Some o').
Proof.
  intros Horig Hl.
  destruct (Metric_SetDataType_variant ms h l m k Horig Hl)
    as (v & d & h' & Hrun & -> & Hv & Hd & Hvd & Hty).
  destruct (retyped_lookups h l m k v d (empty_variant k) Hl Hv Hd Hvd)
    as (Hl' & Hd' & Hv' & Hframe).
  exists (retyped h l m k v d (empty_variant k)).
  split; [done|]. split; [done|]. split; [|split; [|done]].
  - unfold points_at. simpl. rewrite Hl'. simpl. rewrite Hd'. simpl. rewrite Hv'. simpl.
    rewrite bool_decide_eq_true_2 by (split; [done|apply variant_of_empty]).
    by rewrite points_of_empty.
  - unfold abs_metric. simpl. rewrite Hl'. simpl. rewrite Hd'. simpl. rewrite Hv'. simpl.
    rewrite bool_decide_eq_true_2 by (split; [done|apply variant_of_empty]).
    by destruct k.
Qed.

(** X7: on a metric whose struct is allocated, the accessor of a variant
    other than the one [DataType] names panics; the accessor of the variant
    it names, with the wrapper allocated, returns the view of the struct of
    the variant and leaves the store as it was. *)
Theorem Metric_accessor_exclusive (ms : Metric) h l (m : otlpmetrics.Metric) :
  Metric_orig ms = Some l →
  h !! l = Some (ObjMetric m) →
  (∀ k, Data_DataType (otlpmetrics.Data m) ≠ oneof_DataType k →
        Metric_accessor k ms h = None)
  ∧ (∀ k ld (p : ptr),
       otlpmetrics.Data m = Some (k, Some ld) →
       h !! ld = Some (ObjOneof k p) →
       Metric_accessor k ms h = Some (p, h)).
Proof.
  destruct ms as [q]. simpl. intros -> Hl. split.
  - intros k Hne.
    destruct k; unfold Metric_accessor, Metric_IntGauge, Metric_DoubleGauge,
      Metric_IntSum, Metric_DoubleSum, Metric_IntHistogram, Metric_Histogram,
      Metric_Summary, load_Metric, assert_Oneof, mbind, Go_bind, load; simpl;
      rewrite Hl; simpl;
      destruct (otlpmetrics.Data m) as [[[] q]|]; try done; by destruct Hne.
  - intros k ld p HData Hld.
    destruct k; unfold Metric_accessor, Metric_IntGauge, Metric_DoubleGauge,
      Metric_IntSum, Metric_DoubleSum, Metric_IntHistogram, Metric_Histogram,
      Metric_Summary, load_Metric, load_Oneof, assert_Oneof, mbind, Go_bind, load;
      simpl; rewrite Hl; simpl; rewrite HData; simpl; by rewrite Hld.
Qed.

(** X8: on the zero value of [Metric], whose [orig] is nil, [DataType],
    [SetDataType] with a variant type and the seven accessors panic, and
    so does [copyData] from a nil source. *)
Theorem zero_Metric_panics h k (dest : ptr) :
  Metric_DataType (newMetric None) h = None
  ∧ Metric_SetDataType (newMetric None) (oneof_DataType k) h = None
  ∧ Metric_accessor k (newMetric None) h = None
  ∧ copyData None dest h = None.
Proof. repeat split; by destruct k. Qed.

Lemma oneof_DataType_range k : 1 ≤ oneof_DataType k ≤ 7.
Proof.
  destruct k; simpl;
    unfold MetricDataTypeIntGauge, MetricDataTypeDoubleGauge, MetricDataTypeIntSum,
      MetricDataTypeDoubleSum, MetricDataTypeIntHistogram, MetricDataTypeHistogram,
      MetricDataTypeSummary; lia.
Qed.

(** X9: [SetDataType] with a value that is none of the seven variant types
    ([None] and every value that is no data type at all) returns without
    touching the store, also on the zero value of [Metric]. *)
Theorem Metric_SetDataType_noop (ms : Metric) h (ty : MetricDataType) :
  ¬ (1 ≤ ty ≤ 7) →
  Metric_SetDataType ms ty h = Some (tt, h).
Proof.
  intros Hty. apply Metric_SetDataType_other.
  intros k ->. apply Hty, oneof_DataType_range.
Qed.

End TaggedUnion.

(** X6 at the gauge of [gauge_store], retyped to a summary. *)
Lemma Metric_SetDataType_resets_witness :
  ∃ h',
    Metric_SetDataType (newMetric (Some 1%positive))
      (oneof_DataType otlpmetrics.Metric_DoubleSummary) gauge_store = Some (tt, h')
    ∧ Metric_DataType (newMetric (Some 1%positive)) h'
      = Some (oneof_DataType otlpmetrics.Metric_DoubleSummary, h')
    ∧ points_at h' (Some 1%positive) = Some 0
    ∧ abs_metric h' (Some 1%positive)
      = Some {| mv_Name := "requests"; mv_Description := ""; mv_Unit := "1";
                mv_Data := object_variant (empty_variant otlpmetrics.Metric_DoubleSummary) |}
    ∧ (∀ l' o', l' ≠ 1%positive → gauge_store !! l' = Some o' → h' !! l' = Some o').
Proof.
  apply (Metric_SetDataType_resets (newMetric (Some 1%positive)) gauge_store 1%positive
           {| otlpmetrics.Name := "requests"; otlpmetrics.Description := "";
              otlpmetrics.Unit := "1";
              otlpmetrics.Data := Some (otlpmetrics.Metric_IntGauge, Some 2%positive) |}
           otlpmetrics.Metric_DoubleSummary);
    reflexivity.
Defined.

(** X7 at the gauge of [gauge_store]. *)
Lemma Metric_accessor_exclusive_witness :
  (∀ k, Data_DataType (Some (otlpmetrics.Metric_IntGauge, Some 2%positive)) ≠ oneof_DataType k →
        Metric_accessor k (newMetric (Some 1%positive)) gauge_store = None)
  ∧ (∀ k ld (p : ptr),
       Some (otlpmetrics.Metric_IntGauge, Some 2%positive) = Some (k, Some ld) →
       gauge_store !! ld = Some (ObjOneof k p) →
       Metric_accessor k (newMetric (Some 1%positive)) gauge_store = Some (p, gauge_store)).
Proof.
  apply (Metric_accessor_exclusive (newMetric (Some 1%positive)) gauge_store 1%positive
           {| otlpmetrics.Name := "requests"; otlpmetrics.Description := "";
              otlpmetrics.Unit := "1";
              otlpmetrics.Data := Some (otlpmetrics.Metric_IntGauge, Some 2%positive) |});
    reflexivity.
Defined.

(** X9 at a value that is no data type, on the zero value of [Metric]. *)
Lemma Metric_SetDataType_noop_witness :
  Metric_SetDataType (newMetric None) 42 gauge_store = Some (tt, gauge_store).
Proof. apply (Metric_SetDataType_noop (newMetric None) gauge_store 42). lia. Defined.

(** ** Copying the data of a metric, by value *)

Section CopyDataValue.

Context `{OtlpLeaves}.
Implicit Types (h : store) (l : loc) (o : object) (k : otlpmetrics.oneof).

(** [copyData] run from a source with an allocated variant. *)
Lemma copyData_run h ls ld (m md : otlpmetrics.Metric) k lw lv o :
  h !! ls = Some (ObjMetric m) →
  h !! ld = Some (ObjMetric md) →
  otlpmetrics.Data m = Some (k, Some lw) →
  h !! lw = Some (ObjOneof k (Some lv)) →
  h !! lv = Some o →
  variant_of o = Some k →
  ∃ v d,
    copyData (Some ls) (Some ld) h = Some (tt, retyped h ld md k v d o)
    ∧ h !! v = None ∧ h !! d = None ∧ v ≠ d.
Proof.
  intros Hls Hld HData Hlw Hlv Hk.
  set (v := fresh (dom h)).
  set (h1 := <[v := empty_variant k]> h).
  set (d := fresh (dom h1)).
  set (h2 := <[d := ObjOneof k (Some v)]> h1).
  assert (Hv : h !! v = None) by apply fresh_lookup.
  assert (Hd1 : h1 !! d = None) by apply fresh_lookup.
  assert (Hvd : v ≠ d).
  { intros Heq. rewrite <- Heq in Hd1. unfold h1 in Hd1.
    by rewrite lookup_insert_eq in Hd1. }
  assert (Hd : h !! d = None).
  { unfold h1 in Hd1. by rewrite lookup_insert_ne in Hd1. }
  assert (Hold : ∀ l o', h !! l = Some o' → h2 !! l = Some o').
  { intros l o' Hl. unfold h2, h1.
    rewrite !lookup_insert_ne; [done | intros ->; congruence | intros ->; congruence]. }
  assert (H2d : h2 !! d = Some (ObjOneof k (Some v)))
    by (unfold h2; by rewrite lookup_insert_eq).
  assert (H2v : h2 !! v = Some (empty_variant k)).
  { unfold h2, h1. rewrite lookup_insert_ne; [|done]. by rewrite lookup_insert_eq. }
  assert (Hh3 : <[v := o]> h2 = <[d := ObjOneof k (Some v)]> (<[v := o]> h)).
  { unfold h2, h1. rewrite insert_insert_ne; [|done]. by rewrite insert_insert_eq. }
  exists v, d. split; [|done].
  rewrite copyData_unfold. unfold mbind, Go_bind.
  rewrite (load_Metric_Some _ _ _ Hls), HData.
  rewrite alloc_Some. fold v h1. rewrite alloc_Some. fold d h2.
  rewrite (load_Oneof_Some _ _ _ _ (Hold _ _ Hlw)).
  rewrite (load_Oneof_Some _ _ _ _ H2d).
  rewrite (variant_CopyTo_Some _ _ _ _ _ _ (Hold _ _ Hlv) Hk H2v).
  rewrite Hh3.
  rewrite (assign_Data_Some _ ld md).
  - done.
  - rewrite !lookup_insert_ne; [done | intros ->; congruence | intros ->; congruence].
Qed.

(** What [abs_metric] being defined says of the data of the metric. *)
Lemma abs_metric_Some h l (m : otlpmetrics.Metric) (vs : metric_value) :
  h !! l = Some (ObjMetric m) →
  abs_metric h (Some l) = Some vs →
  vs = {| mv_Name := otlpmetrics.Name m; mv_Description := otlpmetrics.Description m;
          mv_Unit := otlpmetrics.Unit m; mv_Data := mv_Data vs |}
  ∧ ((otlpmetrics.Data m = None ∧ mv_Data vs = None)
     ∨ ∃ k lw lv o,
         otlpmetrics.Data m = Some (k, Some lw)
         ∧ h !! lw = Some (ObjOneof k (Some lv))
         ∧ h !! lv = Some o
         ∧ variant_of o = Some k
         ∧ mv_Data vs = object_variant o
         ∧ mv_Data vs ≠ None).
Proof.
  intros Hl. unfold abs_metric. simpl. rewrite Hl. simpl.
  destruct (abs_data h (otlpmetrics.Data m)) as [dv|] eqn:Hdv; [|done].
  simpl. intros [= <-]. simpl. split; [done|].
  unfold abs_data in Hdv.
  destruct (otlpmetrics.Data m) as [[k [lw|]]|]; [| done | left; by injection Hdv as <-].
  simpl in Hdv. destruct (h !! lw) as [w|] eqn:Hlw; [|done]. simpl in Hdv.
  destruct w as [| | | |k' [lv|]| | | | | | |]; try done. simpl in Hdv.
  destruct (h !! lv) as [o|] eqn:Hlv; [|done]. simpl in Hdv.
  case_bool_decide as Hk; [|done]. destruct Hk as [-> Hk].
  right. exists k, lw, lv, o.
  destruct (object_variant o) as [ov|] eqn:Hov; [|done].
  injection Hdv as <-. by repeat split.
Qed.

(** X10: [copyData] between two allocated metrics, from a source that has a
    value (no data, or a variant with its storage allocated), returns.
    With no data in the source the store is unchanged.  Otherwise the
    destination has, afterwards, its own name, description and unit and the
    data of the source by value.  In both cases the source has the value it
    had, also when source and destination are the same metric. *)
Theorem copyData_value (src dest : ptr) h ls ld (m md : otlpmetrics.Metric)
    (vs : metric_value) :
  src = Some ls →
  dest = Some ld →
  h !! ls = Some (ObjMetric m) →
  h !! ld = Some (ObjMetric md) →
  abs_metric h src = Some vs →
  ∃ h',
    copyData src dest h = Some (tt, h')
    ∧ abs_metric h' src = Some vs
    ∧ (mv_Data vs = None → h' = h)
    ∧ (mv_Data vs ≠ None →
       abs_metric h' dest
       = Some {| mv_Name := otlpmetrics.Name md;
                 mv_Description := otlpmetrics.Description md;
                 mv_Unit := otlpmetrics.Unit md;
                 mv_Data := mv_Data vs |}).
Proof.
  intros -> -> Hls Hld Hvs.
  destruct (abs_metric_Some _ _ _ _ Hls Hvs) as (Hshape & Hcases).
  destruct Hcases as [[HData Hnone]|(k & lw & lv & o & HData & Hlw & Hlv & Hk & Hdv & Hsome)].
  - exists h. split; [|split; [done|split; [done|by rewrite Hnone]]].
    rewrite copyData_unfold. unfold mbind, Go_bind.
    rewrite (load_Metric_Some _ _ _ Hls). by rewrite HData.
  - destruct (copyData_run h ls ld m md k lw lv o Hls Hld HData Hlw Hlv Hk)
      as (v & d & Hrun & Hv & Hd & Hvd).
    destruct (retyped_lookups h ld md k v d o Hld Hv Hd Hvd) as (Hld' & Hd' & Hv' & Hframe).
    exists (retyped h ld md k v d o). split; [done|].
    assert (Hdest : abs_metric (retyped h ld md k v d o) (Some ld)
                    = Some {| mv_Name := otlpmetrics.Name md;
                              mv_Description := otlpmetrics.Description md;
                              mv_Unit := otlpmetrics.Unit md;
                              mv_Data := mv_Data vs |}).
    { unfold abs_metric. simpl. rewrite Hld'. simpl. rewrite Hd'. simpl. rewrite Hv'. simpl.
      rewrite bool_decide_eq_true_2 by done. rewrite <- Hdv.
      by destruct (mv_Data vs). }
    split; [|split; [done|done]].
    destruct (decide (ls = ld)) as [->|Hne].
    + rewrite Hdest. rewrite Hls in Hld. injection Hld as <-. by rewrite Hshape.
    + assert (lw ≠ ld) by (intros ->; congruence).
      assert (lv ≠ ld).
      { intros ->. rewrite Hld in Hlv. injection Hlv as <-. discriminate Hk. }
      unfold abs_metric. simpl. rewrite (Hframe _ _ Hne Hls). simpl. rewrite HData. simpl.
      rewrite (Hframe lw _ ltac:(done) Hlw). simpl.
      rewrite (Hframe lv _ ltac:(done) Hlv). simpl.
      rewrite bool_decide_eq_true_2 by done. rewrite <- Hdv.
      rewrite Hshape. by destruct (mv_Data vs).
Qed.

End CopyDataValue.

(** X10 at [gauge_store], from the gauge at 1 to the empty metric at 4. *)
Lemma copyData_value_witness :
  ∃ h',
    copyData (Some 1%positive) (Some 4%positive) gauge_store = Some (tt, h')
    ∧ abs_metric h' (Some 1%positive)
      = Some {| mv_Name := "requests"; mv_Description := ""; mv_Unit := "1";
                mv_Data := Some (IntGaugeValue (@otlpmetrics.Build_IntGauge Z_leaves [10; 20])) |}
    ∧ (Some (IntGaugeValue (@otlpmetrics.Build_IntGauge Z_leaves [10; 20])) = None →
       h' = gauge_store)
    ∧ (Some (IntGaugeValue (@otlpmetrics.Build_IntGauge Z_leaves [10; 20])) ≠ None →
       abs_metric h' (Some 4%positive)
       = Some {| mv_Name := ""; mv_Description := ""; mv_Unit := "";
                 mv_Data := Some (IntGaugeValue
                                    (@otlpmetrics.Build_IntGauge Z_leaves [10; 20])) |}).
Proof.
  apply (copyData_value (Some 1%positive) (Some 4%positive) gauge_store 1%positive 4%positive
           {| otlpmetrics.Name := "requests"; otlpmetrics.Description := "";
              otlpmetrics.Unit := "1";
              otlpmetrics.Data := Some (otlpmetrics.Metric_IntGauge, Some 2%positive) |}
           otlpmetrics.Metric_zero
           {| mv_Name := "requests"; mv_Description := ""; mv_Unit := "1";
              mv_Data := Some (IntGaugeValue
                                 (@otlpmetrics.Build_IntGauge Z_leaves [10; 20])) |});
    reflexivity.
Defined.

(** ** Counting never writes *)

Section ReadOnly.

Context {σ : Type}.

Lemma read_only_ret {A} (a : A) : read_only (σ := σ) (mret a).
Proof. by intros s a' s' [= _ <-]. Qed.

Lemma read_only_panic {A} : read_only (σ := σ) (panic (A := A)).
Proof. by intros s a s'. Qed.

Lemma read_only_bind {A B} (m : Go σ A) (f : A → Go σ B) :
  read_only m → (∀ a, read_only (f a)) → read_only (m ≫= f).
Proof.
  intros Hm Hf s b s'. unfold mbind, Go_bind.
  destruct (m s) as [[a s1]|] eqn:Hrun; [|done].
  apply Hm in Hrun as ->. apply Hf.
Qed.

Lemma read_only_index {A} (l : list A) (i : Z) : read_only (σ := σ) (index l i).
Proof.
  unfold index. case_bool_decide; [|apply read_only_panic].
  destruct (l !! Z.to_nat i); [apply read_only_ret|apply read_only_panic].
Qed.

Lemma read_only_for_loop {A} (fuel : nat) (i : Z) (bound : Go σ Z)
    (body : Z → A → Go σ A) (acc : A) :
  read_only bound → (∀ i a, read_only (body i a)) →
  read_only (for_loop fuel i bound body acc).
Proof.
  intros Hbound Hbody. revert i acc.
  induction fuel as [|fuel IH]; intros i acc; [apply read_only_panic|].
  simpl. apply read_only_bind; [done|]. intros n.
  case_bool_decide; [|apply read_only_ret].
  apply read_only_bind; [apply Hbody|]. intros acc'. apply IH.
Qed.

End ReadOnly.

Section ReadOnlyViews.

Context `{OtlpLeaves}.

Lemma read_only_load (p : ptr) : read_only (load p).
Proof.
  intros h o h'. unfold load. destruct p as [l|]; [|done].
  destruct (h !! l); [|done]. by intros [= _ <-].
Qed.

Ltac read_only_step :=
  first
    [ apply read_only_ret
    | apply read_only_panic
    | apply read_only_load
    | apply read_only_index
    | apply read_only_bind; [|intros ?]
    | match goal with
      | |- read_only (match ?x with _ => _ end) => destruct x
      | |- read_only (if ?b then _ else _) => destruct b
      end ].

Ltac read_only_auto := repeat read_only_step.

Lemma read_only_Metrics_ResourceMetrics md : read_only (Metrics_ResourceMetrics md).
Proof. unfold Metrics_ResourceMetrics, load_Request. read_only_auto. Qed.

Lemma read_only_ResourceMetricsSlice_Len es : read_only (ResourceMetricsSlice_Len es).
Proof. unfold ResourceMetricsSlice_Len, load_Request. read_only_auto. Qed.

Lemma read_only_ResourceMetricsSlice_At es i : read_only (ResourceMetricsSlice_At es i).
Proof. unfold ResourceMetricsSlice_At, load_Request. read_only_auto. Qed.

Lemma read_only_ResourceMetrics_InstrumentationLibraryMetrics ms :
  read_only (ResourceMetrics_InstrumentationLibraryMetrics ms).
Proof.
  unfold ResourceMetrics_InstrumentationLibraryMetrics, load_ResourceMetrics.
  read_only_auto.
Qed.

Lemma read_only_InstrumentationLibraryMetricsSlice_Len es :
  read_only (InstrumentationLibraryMetricsSlice_Len es).
Proof. unfold InstrumentationLibraryMetricsSlice_Len, load_ResourceMetrics. read_only_auto. Qed.

Lemma read_only_InstrumentationLibraryMetricsSlice_At es i :
  read_only (InstrumentationLibraryMetricsSlice_At es i).
Proof. unfold InstrumentationLibraryMetricsSlice_At, load_ResourceMetrics. read_only_auto. Qed.

Lemma read_only_InstrumentationLibraryMetrics_Metrics ms :
  read_only (InstrumentationLibraryMetrics_Metrics ms).
Proof.
  unfold InstrumentationLibraryMetrics_Metrics, load_InstrumentationLibraryMetrics.
  read_only_auto.
Qed.

Lemma read_only_MetricSlice_Len es : read_only (MetricSlice_Len es).
Proof. unfold MetricSlice_Len, load_InstrumentationLibraryMetrics. read_only_auto. Qed.

Lemma read_only_MetricSlice_At es i : read_only (MetricSlice_At es i).
Proof. unfold MetricSlice_At, load_InstrumentationLibraryMetrics. read_only_auto. Qed.

Lemma read_only_Metric_DataType ms : read_only (Metric_DataType ms).
Proof. unfold Metric_DataType, load_Metric. read_only_auto. Qed.

Lemma read_only_Metric_accessor k ms : read_only (Metric_accessor k ms).
Proof.
  destruct k; unfold Metric_accessor, Metric_IntGauge, Metric_DoubleGauge, Metric_IntSum,
    Metric_DoubleSum, Metric_IntHistogram, Metric_Histogram, Metric_Summary,
    load_Metric, load_Oneof, assert_Oneof; read_only_auto.
Qed.

(** X11: [MetricCount] and [MetricAndDataPointCount] never write: on every
    store, with every fuel and for every [Metrics], a call that returns
    leaves the store exactly as it was; and on the zero [Metrics], whose
    [orig] is nil, both panic. *)
Theorem counting_never_writes (fuel : nat) (md : Metrics) :
  read_only (MetricCount fuel md)
  ∧ read_only (MetricAndDataPointCount fuel md)
  ∧ (∀ h, MetricCount fuel Metrics_zero h = None
          ∧ MetricAndDataPointCount fuel Metrics_zero h = None).
Proof.
  split; [|split; [|done]].
  - unfold MetricCount.
    apply read_only_bind; [apply read_only_Metrics_ResourceMetrics|]. intros rms.
    apply read_only_for_loop; [apply read_only_ResourceMetricsSlice_Len|]. intros i a.
    apply read_only_bind; [apply read_only_ResourceMetricsSlice_At|]. intros rm.
    apply read_only_bind;
      [apply read_only_ResourceMetrics_InstrumentationLibraryMetrics|]. intros ilms.
    apply read_only_for_loop;
      [apply read_only_InstrumentationLibraryMetricsSlice_Len|]. intros j b.
    apply read_only_bind; [apply read_only_InstrumentationLibraryMetricsSlice_At|].
    intros ilm.
    apply read_only_bind; [apply read_only_InstrumentationLibraryMetrics_Metrics|].
    intros ms.
    apply read_only_bind; [apply read_only_MetricSlice_Len|]. intros n.
    apply read_only_ret.
  - unfold MetricAndDataPointCount.
    apply read_only_bind; [apply read_only_Metrics_ResourceMetrics|]. intros rms.
    apply read_only_for_loop; [apply read_only_ResourceMetricsSlice_Len|]. intros i a.
    apply read_only_bind; [apply read_only_ResourceMetricsSlice_At|]. intros rm.
    apply read_only_bind;
      [apply read_only_ResourceMetrics_InstrumentationLibraryMetrics|]. intros ilms.
    apply read_only_for_loop;
      [apply read_only_InstrumentationLibraryMetricsSlice_Len|]. intros j [mc dc].
    apply read_only_bind; [apply read_only_InstrumentationLibraryMetricsSlice_At|].
    intros ilm.
    apply read_only_bind; [apply read_only_InstrumentationLibraryMetrics_Metrics|].
    intros metrics.
    apply read_only_bind; [apply read_only_MetricSlice_Len|]. intros n.
    apply read_only_bind; [apply read_only_InstrumentationLibraryMetrics_Metrics|].
    intros ms.
    apply read_only_bind; [|intros dc'; apply read_only_ret].
    apply read_only_for_loop; [apply read_only_MetricSlice_Len|]. intros k c.
    apply read_only_bind; [apply read_only_MetricSlice_At|]. intros m.
    apply read_only_bind; [apply read_only_Metric_DataType|]. intros ty.
    destruct ty as [|p|p]; [apply read_only_ret| |apply read_only_ret].
    destruct p as [[[p|p|]|[p|p|]|]|[[p|p|]|[p|p|]|]|]; try apply read_only_ret;
      unfold Metric_IntGauge, Metric_DoubleGauge, Metric_IntSum, Metric_DoubleSum,
        Metric_IntHistogram, Metric_Histogram, Metric_Summary,
        IntGauge_DataPoints, DoubleGauge_DataPoints, IntSum_DataPoints,
        DoubleSum_DataPoints, IntHistogram_DataPoints, Histogram_DataPoints,
        Summary_DataPoints, IntDataPointSlice_Len, DoubleDataPointSlice_Len,
        IntHistogramDataPointSlice_Len, HistogramDataPointSlice_Len,
        SummaryDataPointSlice_Len, load_Metric, load_Oneof, assert_Oneof;
      read_only_auto.
Qed.

End ReadOnlyViews.

(** ** A new [Metrics], and counting after a metric is retyped *)

Section TreeKept.

Context `{OtlpLeaves}.
Implicit Types (h : store) (md : Metrics) (l : loc) (t : list (list (list ptr))).

Lemma MetricAndDataPointCount_no_resources (fuel : nat) md h :
  resources_of h md = Some [] →
  MetricAndDataPointCount (S fuel) md h = Some ((0, 0), h).
Proof.
  intros Hrms. unfold MetricAndDataPointCount, mbind at 1, Go_bind at 1.
  rewrite (Metrics_ResourceMetrics_read _ _ _ Hrms).
  cbn [for_loop]. unfold mbind at 1, Go_bind at 1.
  by rewrite (ResourceMetricsSlice_Len_read _ _ _ Hrms).
Qed.

(** X12: [NewMetrics] returns, on every store, a [Metrics] over a request
    at an address the store did not hold, and changes nothing else; the new
    [Metrics] has no resources, so [MetricCount] is 0 and
    [MetricAndDataPointCount] is (0, 0) with any fuel but none. *)
Theorem NewMetrics_fresh_and_empty h (fuel : nat) :
  ∃ l h',
    NewMetrics h = Some (mkMetrics (Some l), h')
    ∧ h !! l = None
    ∧ h' = <[l := ObjRequest {| otlpcollectormetrics.ResourceMetrics := [] |}]> h
    ∧ tree_of h' (mkMetrics (Some l)) = Some []
    ∧ abs_request h' (mkMetrics (Some l)) = Some []
    ∧ MetricCount (S fuel) (mkMetrics (Some l)) h' = Some (0, h')
    ∧ MetricAndDataPointCount (S fuel) (mkMetrics (Some l)) h' = Some ((0, 0), h').
Proof.
  set (l := fresh (dom h)).
  set (h' := <[l := ObjRequest {| otlpcollectormetrics.ResourceMetrics := [] |}]> h).
  assert (Hrms : resources_of h' (mkMetrics (Some l)) = Some []).
  { unfold resources_of, h'. simpl. by rewrite lookup_insert_eq. }
  assert (Ht : tree_of h' (mkMetrics (Some l)) = Some []).
  { unfold tree_of. by rewrite Hrms. }
  exists l, h'.
  split; [done|]. split; [apply fresh_lookup|]. split; [done|]. split; [done|].
  split; [|split].
  - unfold abs_request, h'. simpl. by rewrite lookup_insert_eq.
  - rewrite (MetricCount_total (S fuel) _ h' [] Ht).
    + done.
    + split; [by vm_compute|by apply Forall_nil].
    + replace (longest (@nil (list (list ptr)))) with 0%nat by reflexivity. lia.
  - by apply MetricAndDataPointCount_no_resources.
Qed.

Lemma tree_of_keeps h h' md t :
  keeps_tree h h' → tree_of h md = Some t → tree_of h' md = Some t.
Proof.
  intros Hk. unfold tree_of, resources_of.
  destruct (Metrics_orig md) as [l|]; [|done]. simpl.
  destruct (h !! l) as [o|] eqn:Hl; [|done]. simpl.
  destruct o as [r| | | | | | | | | | |]; try done.
  rewrite (Hk _ _ Hl) by done. simpl.
  apply mapM_option_mono. intros rm scopes. unfold scopes_of.
  destruct rm as [lr|]; [|done]. simpl.
  destruct (h !! lr) as [o|] eqn:Hlr; [|done]. simpl.
  destruct o as [|r'| | | | | | | | | |]; try done.
  rewrite (Hk _ _ Hlr) by done. simpl.
  apply mapM_option_mono. intros ilm ms. unfold metrics_of.
  destruct ilm as [li|]; [|done]. simpl.
  destruct (h !! li) as [o|] eqn:Hli; [|done]. simpl.
  destruct o as [| |r''| | | | | | | | |]; try done.
  by rewrite (Hk _ _ Hli).
Qed.

Lemma oneof_DataType_cases (ty : MetricDataType) :
  1 ≤ ty ≤ 7 → ∃ k, ty = oneof_DataType k.
Proof.
  intros Hty.
  assert (Hz : ty = 1 ∨ ty = 2 ∨ ty = 3 ∨ ty = 4 ∨ ty = 5 ∨ ty = 6 ∨ ty = 7) by lia.
  destruct Hz as [->|[->|[->|[->|[->|[->| ->]]]]]];
    [ by exists otlpmetrics.Metric_IntGauge
    | by exists otlpmetrics.Metric_DoubleGauge
    | by exists otlpmetrics.Metric_IntSum
    | by exists otlpmetrics.Metric_DoubleSum
    | by exists otlpmetrics.Metric_IntHistogram
    | by exists otlpmetrics.Metric_DoubleHistogram
    | by exists otlpmetrics.Metric_DoubleSummary ].
Qed.

(** [SetDataType] on an allocated metric returns, whatever the value, and
    writes no address the store held other than that of the metric. *)
Lemma Metric_SetDataType_frame (ms : Metric) h (l : loc) (m : otlpmetrics.Metric)
    (ty : MetricDataType) :
  Metric_orig ms = Some l →
  h !! l = Some (ObjMetric m) →
  ∃ h', Metric_SetDataType ms ty h = Some (tt, h')
    ∧ ∀ l' o, l' ≠ l → h !! l' = Some o → h' !! l' = Some o.
Proof.
  intros Horig Hl.
  destruct (decide (1 ≤ ty ≤ 7)) as [Hty|Hty].
  - destruct (oneof_DataType_cases ty Hty) as [k ->].
    destruct (Metric_SetDataType_variant ms h l m k Horig Hl)
      as (v & d & h' & Hrun & -> & Hv & Hd & Hvd & _).
    exists (retyped h l m k v d (empty_variant k)). split; [done|].
    by destruct (retyped_lookups h l m k v d (empty_variant k) Hl Hv Hd Hvd)
      as (_ & _ & _ & Hframe).
  - exists h. split; [|done]. apply Metric_SetDataType_other.
    intros k ->. apply Hty, oneof_DataType_range.
Qed.

(** X13: retyping a metric does not change the count of metrics: on a store
    that holds the tree [t] under [md], [SetDataType] with any value on any
    allocated metric returns, the store then holds the same tree under
    [md], and [MetricCount] returns what it returned before. *)
Theorem SetDataType_keeps_MetricCount (fuel : nat) md h t (ms : Metric) l
    (m : otlpmetrics.Metric) (ty : MetricDataType) :
  tree_of h md = Some t →
  slices_fit t →
  (longest t < fuel)%nat →
  Metric_orig ms = Some l →
  h !! l = Some (ObjMetric m) →
  ∃ h',
    Metric_SetDataType ms ty h = Some (tt, h')
    ∧ tree_of h' md = Some t
    ∧ MetricCount fuel md h = Some (int_wrap (metric_total t), h)
    ∧ MetricCount fuel md h' = Some (int_wrap (metric_total t), h').
Proof.
  intros Ht Hfits Hfuel Horig Hl.
  destruct (Metric_SetDataType_frame ms h l m ty Horig Hl) as (h' & Hrun & Hframe).
  assert (Hkeeps : keeps_tree h h').
  { intros a o Ha Hnot. apply Hframe; [|done].
    intros ->. rewrite Hl in Ha. injection Ha as <-. by destruct (Hnot m). }
  exists h'. split; [done|].
  pose proof (tree_of_keeps _ _ _ _ Hkeeps Ht) as Ht'.
  split; [done|]. split; by apply MetricCount_total.
Qed.

End TreeKept.

(** X13 at [tree_store]: the gauge at address 1 retyped to a sum. *)
Lemma SetDataType_keeps_MetricCount_witness :
  ∃ h',
    Metric_SetDataType (newMetric (Some 1%positive)) MetricDataTypeIntSum tree_store
      = Some (tt, h')
    ∧ tree_of h' tree_metrics = Some tree_shape
    ∧ MetricCount 4 tree_metrics tree_store
      = Some (int_wrap (metric_total tree_shape), tree_store)
    ∧ MetricCount 4 tree_metrics h' = Some (int_wrap (metric_total tree_shape), h').
Proof.
  apply (SetDataType_keeps_MetricCount 4 tree_metrics tree_store tree_shape
           (newMetric (Some 1%positive)) 1%positive
           {| otlpmetrics.Name := "requests"; otlpmetrics.Description := "";
              otlpmetrics.Unit := "1";
              otlpmetrics.Data := Some (otlpmetrics.Metric_IntGauge, Some 2%positive) |}
           MetricDataTypeIntSum).
  - reflexivity.
  - exact tree_shape_fits.
  - vm_compute; lia.
  - reflexivity.
  - reflexivity.
Defined.

(** ** Decoding bytes, every outcome *)

Section FromBytes.

Context `{LeafWire}.
Implicit Types (h : store) (md : Metrics).

(** X14: [MetricsFromOtlpProtoBytes], over the wire format above, returns
    on every byte slice and every store, and leaves what the store held as
    it was.  For bytes that are a whole message the error is nil and the
    [Metrics] is over a request at an address the store did not hold, with
    the decoded value; for any other bytes the [Metrics] is the zero value
    and the error is the decoder's, as it is. *)
Theorem MetricsFromOtlpProtoBytes_outcomes (data : byte_slice) h :
  ∃ md err h',
    MetricsFromOtlpProtoBytes data h = Some ((md, err), h')
    ∧ h ⊆ h'
    ∧ match get_request (default [] data) with
      | Some (v, []) =>
          err = None
          ∧ ∃ l, md = mkMetrics (Some l) ∧ h !! l = None ∧ abs_request h' md = Some v
      | _ => err = Some (errors.New "unexpected EOF") ∧ md = Metrics_zero
      end.
Proof.
  set (req := ObjRequest {| otlpcollectormetrics.ResourceMetrics := [] |}).
  destruct (alloc_subseteq h req) as (l0 & Hl0 & Hnew & Hsub0).
  set (h0 := <[l0 := req]> h) in *.
  assert (Hfail : ∀ e, Request_Unmarshal (Some l0) data h0 = Some (Some e, h0) →
            MetricsFromOtlpProtoBytes data h = Some ((Metrics_zero, Some e), h0)).
  { intros e Hrun. unfold MetricsFromOtlpProtoBytes. unfold mbind at 1, Go_bind at 1.
    fold req. rewrite Hl0. fold h0. unfold mbind at 1, Go_bind at 1. by rewrite Hrun. }
  unfold Request_Unmarshal in Hfail.
  destruct (get_request (default [] data)) as [[v [|b rest]]|] eqn:Hget.
  - destruct (mapM_build build_resource abs_resource
                (λ h h' p v Hk, abs_resource_mono h h' p v Hk) build_resource_spec v h0)
      as (rms & h1 & Hrms & Hsub1 & Habs).
    set (filled := ObjRequest {| otlpcollectormetrics.ResourceMetrics := rms |}).
    assert (Hl1 : h1 !! l0 = Some req).
    { eapply lookup_weaken; [|exact Hsub1]. unfold h0. by rewrite lookup_insert_eq. }
    assert (Hkeep : keeps_structs h1 (<[l0 := filled]> h1)).
    { intros l o Hl Hnot. destruct (decide (l = l0)) as [->|Hne].
      - rewrite Hl1 in Hl. injection Hl as <-. by destruct (Hnot _ eq_refl).
      - by rewrite lookup_insert_ne. }
    assert (Hsub : h ⊆ <[l0 := filled]> h1).
    { apply map_subseteq_spec. intros l o Hl.
      assert (l ≠ l0) by (intros ->; congruence).
      rewrite lookup_insert_ne by done.
      eapply lookup_weaken; [|exact Hsub1]. by eapply lookup_weaken. }
    exists (mkMetrics (Some l0)), None, (<[l0 := filled]> h1).
    split; [|split; [done|]].
    + unfold MetricsFromOtlpProtoBytes. unfold mbind at 1, Go_bind at 1.
      fold req. rewrite Hl0. fold h0.
      unfold mbind at 1, Go_bind at 1. unfold Request_Unmarshal. rewrite Hget.
      unfold mbind at 1, Go_bind at 1. rewrite Hrms.
      unfold mbind at 1, Go_bind at 1. fold filled.
      by rewrite (assign_Some _ _ _ filled Hl1).
    + split; [done|]. exists l0. split; [done|]. split; [done|].
      unfold abs_request. simpl. rewrite lookup_insert_eq. simpl.
      apply (mapM_option_mono (abs_resource h1)); [|done].
      intros a b. by apply abs_resource_mono.
  - exists Metrics_zero, (Some (errors.New "unexpected EOF")), h0.
    split; [by apply Hfail|]. by split.
  - exists Metrics_zero, (Some (errors.New "unexpected EOF")), h0.
    split; [by apply Hfail|]. by split.
Qed.

End FromBytes.

(** ** [Clone]: an equal tree at addresses of its own *)

Section BuildingNew.

Context `{OtlpLeaves}.
Implicit Types (h b : store) (p : ptr).

Lemma lookup_new b h h' (l : loc) (o : object) :
  b ⊆ h → h !! l = None → h' !! l = Some o → (h' ∖ b) !! l = Some o.
Proof.
  intros Hb Hl Hl'. apply lookup_difference_Some. split; [done|].
  destruct (b !! l) as [o'|] eqn:Hbl; [|done].
  by rewrite (lookup_weaken _ _ _ _ Hbl Hb) in Hl.
Qed.

Lemma keeps_structs_difference b h h' : h ⊆ h' → keeps_structs (h ∖ b) (h' ∖ b).
Proof.
  intros Hsub l o Hl _. apply lookup_difference_Some in Hl as [Hl Hb].
  apply lookup_difference_Some. split; [|done]. by eapply lookup_weaken.
Qed.

Lemma mapM_build_new {V} b (build : V → Go store ptr) (abs : store → ptr → option V) :
  (∀ h h' p v, keeps_structs h h' → abs h p = Some v → abs h' p = Some v) →
  (∀ v h, b ⊆ h → ∃ p h', build v h = Some (p, h') ∧ h ⊆ h' ∧ abs (h' ∖ b) p = Some v) →
  ∀ (l : list V) h, b ⊆ h →
    ∃ ps h', mapM build l h = Some (ps, h') ∧ h ⊆ h' ∧ mapM (abs (h' ∖ b)) ps = Some l.
Proof.
  intros Hmono Hbuild l. induction l as [|v l IH]; intros h Hb.
  - exists [], h. by split.
  - destruct (Hbuild v h Hb) as (p & h1 & Hp & Hsub1 & Habs).
    destruct (IH h1 ltac:(by transitivity h)) as (ps & h2 & Hps & Hsub2 & Habs2).
    exists (p :: ps), h2. split; [|split].
    + by rewrite mapM_Go_cons, Hp, Hps.
    + by transitivity h1.
    + cbn [mapM].
      rewrite (Hmono _ _ _ _ (keeps_structs_difference b _ _ Hsub2) Habs). simpl.
      by rewrite Habs2.
Qed.

Lemma build_metric_new b (m : metric_value) h :
  b ⊆ h →
  ∃ p h', build_metric m h = Some (p, h') ∧ h ⊆ h' ∧ abs_metric (h' ∖ b) p = Some m.
Proof.
  intros Hb. unfold build_metric. destruct m as [name description unit [v|]]; simpl.
  - destruct (alloc_subseteq h (variant_object v)) as (lv & Hlv & Hnew1 & Hsub1).
    set (h1 := <[lv := variant_object v]> h) in *.
    destruct (alloc_subseteq h1 (ObjOneof (variant_kind v) (Some lv)))
      as (ld & Hld & Hnew2 & Hsub2).
    set (h2 := <[ld := ObjOneof (variant_kind v) (Some lv)]> h1) in *.
    set (m := {| otlpmetrics.Name := name; otlpmetrics.Description := description;
                 otlpmetrics.Unit := unit;
                 otlpmetrics.Data := Some (variant_kind v, Some ld) |}).
    destruct (alloc_subseteq h2 (ObjMetric m)) as (l & Hl & Hnew3 & Hsub3).
    set (h3 := <[l := ObjMetric m]> h2) in *.
    assert (Hb1 : b ⊆ h1) by (by transitivity h).
    assert (Hb2 : b ⊆ h2) by (by transitivity h1).
    exists (Some l), h3. split; [|split].
    + unfold mbind, Go_bind. rewrite Hlv. fold h1. rewrite Hld. fold h2. simpl.
      exact Hl.
    + by do 2 (etrans; [eassumption|]).
    + assert (Hl' : (h3 ∖ b) !! l = Some (ObjMetric m)).
      { apply (lookup_new b h2); [done|done|]. unfold h3. by rewrite lookup_insert_eq. }
      assert (Hld' : (h3 ∖ b) !! ld = Some (ObjOneof (variant_kind v) (Some lv))).
      { apply (lookup_new b h1); [done|done|].
        eapply lookup_weaken; [|exact Hsub3]. unfold h2. by rewrite lookup_insert_eq. }
      assert (Hlv' : (h3 ∖ b) !! lv = Some (variant_object v)).
      { apply (lookup_new b h); [done|done|].
        eapply lookup_weaken; [|exact Hsub3].
        eapply lookup_weaken; [|exact Hsub2]. unfold h1. by rewrite lookup_insert_eq. }
      unfold abs_metric. simpl. rewrite Hl'. simpl. rewrite Hld'. simpl. rewrite Hlv'. simpl.
      rewrite bool_decide_eq_true_2 by (by destruct v).
      by destruct v.
  - set (m := {| otlpmetrics.Name := name; otlpmetrics.Description := description;
                 otlpmetrics.Unit := unit; otlpmetrics.Data := None |}).
    destruct (alloc_subseteq h (ObjMetric m)) as (l & Hl & Hnew & Hsub).
    exists (Some l), (<[l := ObjMetric m]> h). split; [|split; [done|]].
    + unfold mbind, Go_bind. simpl. exact Hl.
    + assert (Hl' : (<[l := ObjMetric m]> h ∖ b) !! l = Some (ObjMetric m)).
      { apply (lookup_new b h); [done|done|]. by rewrite lookup_insert_eq. }
      unfold abs_metric. simpl. by rewrite Hl'.
Qed.

Lemma build_scope_new b (s : scope_value) h :
  b ⊆ h →
  ∃ p h', build_scope s h = Some (p, h') ∧ h ⊆ h' ∧ abs_scope (h' ∖ b) p = Some s.
Proof.
  intros Hb. unfold build_scope.
  destruct (mapM_build_new b build_metric abs_metric
              (λ h h' p v Hk, abs_metric_mono h h' p v Hk) (build_metric_new b)
              (sv_Metrics s) h Hb) as (ms & h1 & Hms & Hsub1 & Habs).
  set (r := {| otlpmetrics.ILM_InstrumentationLibrary := sv_InstrumentationLibrary s;
               otlpmetrics.ILM_Metrics := ms |}).
  destruct (alloc_subseteq h1 (ObjInstrumentationLibraryMetrics r)) as (l & Hl & Hnew & Hsub2).
  set (h2 := <[l := ObjInstrumentationLibraryMetrics r]> h1) in *.
  exists (Some l), h2. split; [|split].
  - unfold mbind at 1, Go_bind at 1. rewrite Hms. exact Hl.
  - by transitivity h1.
  - assert (Hl' : (h2 ∖ b) !! l = Some (ObjInstrumentationLibraryMetrics r)).
    { apply (lookup_new b h1); [by transitivity h|done|].
      unfold h2. by rewrite lookup_insert_eq. }
    unfold abs_scope. simpl. rewrite Hl'. simpl.
    rewrite (mapM_option_mono _ (abs_metric (h2 ∖ b)) _ _
               (λ a c, abs_metric_mono _ _ a c (keeps_structs_difference b _ _ Hsub2)) Habs).
    simpl. by destruct s.
Qed.

Lemma build_resource_new b (r : resource_value) h :
  b ⊆ h →
  ∃ p h', build_resource r h = Some (p, h') ∧ h ⊆ h' ∧ abs_resource (h' ∖ b) p = Some r.
Proof.
  intros Hb. unfold build_resource.
  destruct (mapM_build_new b build_scope abs_scope
              (λ h h' p v Hk, abs_scope_mono h h' p v Hk) (build_scope_new b)
              (rv_InstrumentationLibraryMetrics r) h Hb) as (ss & h1 & Hss & Hsub1 & Habs).
  set (o := {| otlpmetrics.RM_Resource := rv_Resource r;
               otlpmetrics.RM_InstrumentationLibraryMetrics := ss |}).
  destruct (alloc_subseteq h1 (ObjResourceMetrics o)) as (l & Hl & Hnew & Hsub2).
  set (h2 := <[l := ObjResourceMetrics o]> h1) in *.
  exists (Some l), h2. split; [|split].
  - unfold mbind at 1, Go_bind at 1. rewrite Hss. exact Hl.
  - by transitivity h1.
  - assert (Hl' : (h2 ∖ b) !! l = Some (ObjResourceMetrics o)).
    { apply (lookup_new b h1); [by transitivity h|done|].
      unfold h2. by rewrite lookup_insert_eq. }
    unfold abs_resource. simpl. rewrite Hl'. simpl.
    rewrite (mapM_option_mono _ (abs_scope (h2 ∖ b)) _ _
               (λ a c, abs_scope_mono _ _ a c (keeps_structs_difference b _ _ Hsub2)) Habs).
    simpl. by destruct r.
Qed.

Lemma load_Request_Some h (l : loc) r :
  h !! l = Some (ObjRequest r) → load_Request (Some l) h = Some (r, h).
Proof. intros Hl. unfold load_Request, mbind, Go_bind. by rewrite (load_Some _ _ _ Hl). Qed.

(** What [abs_request] being defined says of the store. *)
Lemma abs_request_Some h (md : Metrics) (v : list resource_value) :
  abs_request h md = Some v →
  ∃ l r, Metrics_orig md = Some l ∧ h !! l = Some (ObjRequest r)
    ∧ mapM (abs_resource h) (otlpcollectormetrics.ResourceMetrics r) = Some v.
Proof.
  unfold abs_request. destruct (Metrics_orig md) as [l|]; [|done]. simpl.
  destruct (h !! l) as [o|] eqn:Hl; [|done]. simpl.
  destruct o as [r| | | | | | | | | | |]; try done.
  intros Hv. by exists l, r.
Qed.

(** [Clone] run on a store that holds the tree of the original. *)
Lemma Metrics_Clone_run (md : Metrics) h (v : list resource_value) :
  abs_request h md = Some v →
  ∃ l h',
    Metrics_Clone md h = Some (mkMetrics (Some l), h')
    ∧ h !! l = None
    ∧ h ⊆ h'
    ∧ abs_request h' md = Some v
    ∧ abs_request h' (mkMetrics (Some l)) = Some v
    ∧ abs_request (h' ∖ h) (mkMetrics (Some l)) = Some v.
Proof.
  intros Hv.
  destruct (abs_request_Some _ _ _ Hv) as (lm & r & Horig & Hlm & Hrs).
  set (req := ObjRequest {| otlpcollectormetrics.ResourceMetrics := [] |}).
  destruct (alloc_subseteq h req) as (l0 & Hl0 & Hnew & Hsub0).
  set (h0 := <[l0 := req]> h) in *.
  assert (Hlm0 : h0 !! lm = Some (ObjRequest r)) by (by eapply lookup_weaken).
  assert (Hl00 : h0 !! l0 = Some req) by (unfold h0; by rewrite lookup_insert_eq).
  assert (Hrs0 : mapM (abs_resource h0) (otlpcollectormetrics.ResourceMetrics r) = Some v).
  { apply (mapM_option_mono (abs_resource h)); [|done].
    intros a c. by apply abs_resource_mono, subseteq_keeps_structs. }
  destruct (mapM_build_new h build_resource abs_resource
              (λ h h' p v Hk, abs_resource_mono h h' p v Hk) (build_resource_new h) v h0 Hsub0)
    as (rms & h1 & Hrms & Hsub1 & Habs).
  set (filled := ObjRequest {| otlpcollectormetrics.ResourceMetrics := rms |}).
  set (h2 := <[l0 := filled]> h1).
  assert (Hl1 : h1 !! l0 = Some req) by (by eapply lookup_weaken).
  assert (Hsub : h ⊆ h2).
  { apply map_subseteq_spec. intros l o Hl.
    assert (l ≠ l0) by (intros ->; congruence).
    unfold h2. rewrite lookup_insert_ne by done.
    eapply lookup_weaken; [|exact Hsub1]. by eapply lookup_weaken. }
  assert (Hkeep : keeps_structs (h1 ∖ h) h2).
  { intros l o Hl Hnot. apply lookup_difference_Some in Hl as [Hl _].
    destruct (decide (l = l0)) as [->|Hne].
    - rewrite Hl1 in Hl. injection Hl as <-. by destruct (Hnot _ eq_refl).
    - unfold h2. by rewrite lookup_insert_ne. }
  assert (Hkeep' : keeps_structs (h1 ∖ h) (h2 ∖ h)).
  { intros l o Hl Hnot. pose proof (Hkeep l o Hl Hnot) as Hl2.
    apply lookup_difference_Some in Hl as [_ Hb].
    by apply lookup_difference_Some. }
  exists l0, h2. split; [|split; [done|split; [done|split; [|split]]]].
  - assert (HNew : NewMetrics h = Some (mkMetrics (Some l0), h0)).
    { unfold NewMetrics, mbind, Go_bind. fold req. by rewrite Hl0. }
    assert (Hsrc : resources_of h0 md = Some (otlpcollectormetrics.ResourceMetrics r)).
    { unfold resources_of. rewrite Horig. simpl. by rewrite Hlm0. }
    assert (Hdst : resources_of h0 (mkMetrics (Some l0)) = Some []).
    { unfold resources_of. simpl. by rewrite Hl00. }
    unfold Metrics_Clone. unfold mbind at 1, Go_bind at 1. rewrite HNew.
    unfold mbind at 1, Go_bind at 1. rewrite (Metrics_ResourceMetrics_read _ _ _ Hsrc).
    unfold mbind at 1, Go_bind at 1. rewrite (Metrics_ResourceMetrics_read _ _ _ Hdst).
    unfold mbind at 1, Go_bind at 1.
    unfold ResourceMetricsSlice_CopyTo. simpl ResourceMetricsSlice_orig.
    unfold mbind at 1, Go_bind at 1. rewrite Horig.
    rewrite (load_Request_Some _ _ _ Hlm0).
    unfold mbind at 1, Go_bind at 1. rewrite Hrs0.
    unfold mbind at 1, Go_bind at 1. rewrite Hrms.
    fold filled. by rewrite (assign_Some _ _ _ filled Hl1).
  - by apply abs_request_mono with h.
  - unfold abs_request, h2. simpl. rewrite lookup_insert_eq. simpl.
    apply (mapM_option_mono (abs_resource (h1 ∖ h))); [|done].
    intros a c. by apply abs_resource_mono.
  - assert (Hl2 : (h2 ∖ h) !! l0 = Some filled).
    { apply lookup_difference_Some. split; [|done]. unfold h2. by rewrite lookup_insert_eq. }
    unfold abs_request. simpl. rewrite Hl2. simpl.
    apply (mapM_option_mono (abs_resource (h1 ∖ h))); [|done].
    intros a c. by apply abs_resource_mono.
Qed.

(** X15: [Clone] of a [Metrics] whose tree the store holds returns a
    [Metrics] over a request at an address the store did not hold; what the
    store held is as it was, so the original has the value it had; the
    clone has the same value; and the whole tree of the clone is at
    addresses the store did not hold, so the two share no storage. *)
Theorem Metrics_Clone_spec (md : Metrics) h (v : list resource_value) :
  abs_request h md = Some v →
  ∃ l h',
    Metrics_Clone md h = Some (mkMetrics (Some l), h')
    ∧ h !! l = None
    ∧ h ⊆ h'
    ∧ abs_request h' md = Some v
    ∧ abs_request h' (mkMetrics (Some l)) = Some v
    ∧ abs_request (h' ∖ h) (mkMetrics (Some l)) = Some v.
Proof. apply Metrics_Clone_run. Qed.

End BuildingNew.

(** X15 at [tree_store]. *)
Lemma Metrics_Clone_spec_witness :
  ∃ l h',
    Metrics_Clone tree_metrics tree_store = Some (mkMetrics (Some l), h')
    ∧ tree_store !! l = None
    ∧ tree_store ⊆ h'
    ∧ abs_request h' tree_metrics = Some tree_value
    ∧ abs_request h' (mkMetrics (Some l)) = Some tree_value
    ∧ abs_request (h' ∖ tree_store) (mkMetrics (Some l)) = Some tree_value.
Proof.
  apply (Metrics_Clone_spec tree_metrics tree_store tree_value). reflexivity.
Defined.

Section CloneIndependent.

Context `{OtlpLeaves}.
Implicit Types (h : store) (md : Metrics).

(** X16: a clone is independent of its original.  After [Clone], retyping
    with [SetDataType] any metric the store holds returns; when the metric
    is one [Clone] allocated, the original has the value it had, and when
    it is one the store held before, the clone has the value it had. *)
Theorem Metrics_Clone_independent (md md' : Metrics) h h' (v : list resource_value)
    (lm : loc) (m : otlpmetrics.Metric) (ty : MetricDataType) :
  abs_request h md = Some v →
  Metrics_Clone md h = Some (md', h') →
  h' !! lm = Some (ObjMetric m) →
  ∃ h'',
    Metric_SetDataType (newMetric (Some lm)) ty h' = Some (tt, h'')
    ∧ (h !! lm = None → abs_request h'' md = Some v)
    ∧ (h !! lm ≠ None → abs_request h'' md' = Some v).
Proof.
  intros Hv Hclone Hlm.
  destruct (Metrics_Clone_run md h v Hv) as (l & h1 & Hrun & Hl & Hsub & _ & _ & Hnew).
  rewrite Hrun in Hclone. injection Hclone as <- <-.
  destruct (Metric_SetDataType_frame (newMetric (Some lm)) h1 lm m ty eq_refl Hlm)
    as (h'' & Hset & Hframe).
  exists h''. split; [done|]. split.
  - intros Hfresh. apply abs_request_mono with h; [|done].
    apply map_subseteq_spec. intros a o Ha.
    apply Hframe; [intros ->; congruence|]. by eapply lookup_weaken.
  - intros Hold. apply abs_request_mono with (h1 ∖ h); [|done].
    apply map_subseteq_spec. intros a o Ha.
    apply lookup_difference_Some in Ha as [Ha Hb].
    apply Hframe; [intros ->; congruence|done].
Qed.

End CloneIndependent.

(** X16 at [tree_store] and its clone: the gauge of the clone, at address
    27, retyped to a sum. *)
Lemma Metrics_Clone_independent_witness :
  ∃ h'',
    Metric_SetDataType (newMetric (Some 27%positive)) MetricDataTypeDoubleSum cloned_store
      = Some (tt, h'')
    ∧ (tree_store !! 27%positive = None → abs_request h'' tree_metrics = Some tree_value)
    ∧ (tree_store !! 27%positive ≠ None → abs_request h'' cloned_metrics = Some tree_value).
Proof.
  apply (Metrics_Clone_independent tree_metrics cloned_metrics tree_store cloned_store
           tree_value 27%positive
           {| otlpmetrics.Name := "requests"; otlpmetrics.Description := "";
              otlpmetrics.Unit := "1";
              otlpmetrics.Data := Some (otlpmetrics.Metric_IntGauge, Some 26%positive) |}
           MetricDataTypeDoubleSum).
  - reflexivity.
  - by vm_compute.
  - by vm_compute.
Defined.
